(** * AltTester Python starter project: fixture lifecycle, reporter and views

    A shallow embedding of [common/reporter.py], [common/driver_container.py],
    [common/test_configuration.py], [tests/conftest.py] and the view classes
    under [views/], with the properties of the harness stated over it.

    Python code is embedded as computations in a state-and-exception monad
    over a [World]: the report sink, the console, the file system, the
    registered primary driver, the fixture's local variables and the trace
    of calls made to the three driver libraries.  The driver libraries are
    opaque: a handle carries, as data, what each of its calls would answer. *)

From Stdlib Require Import String Ascii List Bool Arith NArith ZArith Lia DecimalString.
Import ListNotations.
Open Scope string_scope.

(* ================================================================== *)
(** ** Python values the harness handles *)

(** Exceptions.  [Failed] and [Skipped] are pytest's outcome exceptions,
    raised by [pytest.fail] and [pytest.skip]; they derive from
    [BaseException], so an [except Exception] clause does not catch them. *)
Inductive exn_class :=
| AssertionError
| AttributeError
| TypeError
| FileExistsError
| FileNotFoundError
| IsADirectoryError
| NotADirectoryError
| PlainException
| DriverError (name : string)
| Failed
| Skipped.

Record exn := mk_exn { exn_cls : exn_class; exn_msg : string }.

Definition is_Exception (e : exn) : bool :=
  match exn_cls e with
  | Failed | Skipped => false
  | _ => true
  end.

(** [str(ex)], as the f-strings of the harness render an exception. *)
Definition str_exn (e : exn) : string := exn_msg e.

Inductive result (A : Type) :=
| Ok (a : A)
| Raise (e : exn).
Arguments Ok {A} a.
Arguments Raise {A} e.

(** What a driver library raises: always a subclass of [Exception]. *)
Record driver_error := mk_driver_error { de_name : string; de_msg : string }.

Definition exn_of_driver_error (d : driver_error) : exn :=
  mk_exn (DriverError (de_name d)) (de_msg d).

Definition str_bool (b : bool) : string := if b then "True" else "False".
Definition str_int (n : N) : string := NilEmpty.string_of_uint (N.to_uint n).

(** [x or y] on an [Optional[str]]: [None] and the empty string are falsy. *)
Definition or_str (x : option string) (y : string) : string :=
  match x with
  | Some (String a s) => String a s
  | _ => y
  end.

(** [c in s] *)
Fixpoint occurs (c : ascii) (s : string) : bool :=
  match s with
  | EmptyString => false
  | String a s' => Ascii.eqb a c || occurs c s'
  end.

(* ------------------------------------------------------------------ *)
(** *** [str] and [os.path] operations used by the reporter (POSIX) *)

Module PyStr.

Definition lower_ascii (c : ascii) : ascii :=
  let n := nat_of_ascii c in
  if ((65 <=? n)%nat && (n <=? 90)%nat)%bool then ascii_of_nat (n + 32) else c.

(** [s.lower()], on the ASCII letters. *)
Fixpoint lower (s : string) : string :=
  match s with
  | EmptyString => EmptyString
  | String c s' => String (lower_ascii c) (lower s')
  end.

(** [s.rfind(c)]: index of the last occurrence, [-1] when there is none. *)
Fixpoint rfind_opt (c : ascii) (s : string) : option nat :=
  match s with
  | EmptyString => None
  | String a s' =>
      match rfind_opt c s' with
      | Some j => Some (S j)
      | None => if Ascii.eqb a c then Some 0 else None
      end
  end.

Definition rfind (c : ascii) (s : string) : Z :=
  match rfind_opt c s with
  | Some j => Z.of_nat j
  | None => (-1)%Z
  end.

(** [s[i:]] and [s[:i]] for [i >= 0]. *)
Fixpoint drop (i : nat) (s : string) : string :=
  match i, s with
  | O, _ => s
  | S i', EmptyString => EmptyString
  | S i', String _ s' => drop i' s'
  end.

Fixpoint take (i : nat) (s : string) : string :=
  match i, s with
  | O, _ => EmptyString
  | S i', EmptyString => EmptyString
  | S i', String a s' => String a (take i' s')
  end.

Definition startswith (c : ascii) (s : string) : bool :=
  match s with
  | String a _ => Ascii.eqb a c
  | EmptyString => false
  end.

Fixpoint endswith (c : ascii) (s : string) : bool :=
  match s with
  | EmptyString => false
  | String a EmptyString => Ascii.eqb a c
  | String _ s' => endswith c s'
  end.

(** [c * n] *)
Fixpoint repeat (c : ascii) (n : nat) : string :=
  match n with
  | O => EmptyString
  | S n' => String c (repeat c n')
  end.

(** [s.rstrip(c)] *)
Fixpoint rstrip (c : ascii) (s : string) : string :=
  match s with
  | EmptyString => EmptyString
  | String a s' =>
      match rstrip c s' with
      | EmptyString => if Ascii.eqb a c then EmptyString else String a EmptyString
      | String b t => String a (String b t)
      end
  end.

End PyStr.

Module OsPath.

Definition sep : ascii := "/"%char.
Definition extsep : ascii := "."%char.

(** [posixpath.join(a, b)]. *)
Definition join (a b : string) : string :=
  if PyStr.startswith sep b then b
  else if (String.eqb a EmptyString) || PyStr.endswith sep a then a ++ b
  else a ++ String sep b.

(** [posixpath.basename(p)]: [p[p.rfind('/') + 1:]]. *)
Definition basename (p : string) : string :=
  PyStr.drop (Z.to_nat (PyStr.rfind sep p + 1)) p.

(** [posixpath.dirname(p)]: [p[:p.rfind('/') + 1]], without its trailing
    slashes unless it is made of slashes only. *)
Definition dirname (p : string) : string :=
  let i := Z.to_nat (PyStr.rfind sep p + 1) in
  let head := PyStr.take i p in
  if negb (String.eqb head EmptyString) &&
     negb (String.eqb head (PyStr.repeat sep (String.length head)))
  then PyStr.rstrip sep head
  else head.

(** The loop of [genericpath._splitext] that skips leading dots: is there
    a character other than a dot in [p[filenameIndex:dotIndex]]? *)
Fixpoint has_non_dot (p : string) (filenameIndex : nat) (count : nat) : bool :=
  match count with
  | O => false
  | S count' =>
      match String.get filenameIndex p with
      | Some c =>
          if Ascii.eqb c extsep then has_non_dot p (S filenameIndex) count'
          else true
      | None => true
      end
  end.

(** [posixpath.splitext(p)]. *)
Definition splitext (p : string) : string * string :=
  let sepIndex := PyStr.rfind sep p in
  let dotIndex := PyStr.rfind extsep p in
  if (sepIndex <? dotIndex)%Z then
    let filenameIndex := Z.to_nat (sepIndex + 1) in
    if has_non_dot p filenameIndex (Z.to_nat dotIndex - filenameIndex)
    then (PyStr.take (Z.to_nat dotIndex) p, PyStr.drop (Z.to_nat dotIndex) p)
    else (p, EmptyString)
  else (p, EmptyString).

End OsPath.

(* ================================================================== *)
(** ** External collaborators *)

(** [alttester.By] *)
Inductive By := By_TAG | By_LAYER | By_NAME | By_COMPONENT | By_PATH | By_ID | By_TEXT.

Definition locator : Type := By * string.

(** A number of seconds, kept as Python's [str()] renders it
    ([10.0] for the float default, [2] for an int). *)
Definition seconds := string.

(** An [AltObject]: what the game answered for a lookup. *)
Record AltObject := {
  obj_name : string;
  enabled : bool;
  click_answer : option driver_error
}.

(** An [AltDriver] handle, with the answers of the running game. *)
Record AltDriver := {
  alt_find_object : By -> string -> driver_error + AltObject;
  alt_wait_for_object : By -> string -> seconds -> seconds -> driver_error + AltObject;
  alt_get_png_screenshot : string -> driver_error + string;
  alt_add_notification_listener : option driver_error;
  alt_stop : option driver_error
}.

Record AppiumDriver := { appium_quit : option driver_error }.

Record SeleniumDriver := {
  selenium_get : string -> option driver_error;
  selenium_quit : option driver_error
}.

Inductive cap_value := CapStr (s : string) | CapInt (n : N) | CapBool (b : bool).

(** Calls made to the driver libraries, in the order they were made. *)
Inductive event :=
| EvAltConnect (host : string) (port : N) (app_name : string)
| EvAltAddListener
| EvAltStop
| EvAppiumRemote (url : string) (caps : list (string * cap_value))
| EvAppiumQuit
| EvChrome (arguments : list string)
| EvSeleniumGet (url : string)
| EvSeleniumQuit
| EvClick (name : string).

(** [allure.attachment_type], the members the harness uses. *)
Inductive attachment_type := TEXT | JSON | XML | HTML | CSV | PNG.

Record attachment := {
  att_body : string;
  att_name : string;
  att_type : attachment_type
}.

(** [common/driver_container.py].  The constructor takes whatever it is
    given; the harness itself guards every use of [alt_driver] with a
    truthiness test, so the field is optional here as well. *)
Record DriverContainer := mkDriverContainer {
  alt_driver : option AltDriver;
  appium_driver : option AppiumDriver;
  selenium_driver : option SeleniumDriver
}.

(** File system: a path holds a file with its content, or a directory. *)
Inductive node := File (content : string) | Dir.

Definition filesystem := string -> option node.

Definition fs_set (p : string) (n : node) (fs : filesystem) : filesystem :=
  fun q => if String.eqb q p then Some n else fs q.

(** The three renderings of the wall clock the harness asks for.  The
    second is made of digits and one underscore; what the harness relies
    on is that it can be part of a file name. *)
Record Clock := {
  now_log : string;     (* strftime("%Y-%m-%d %H:%M:%S") *)
  now_run : string;     (* strftime("%Y%m%d_%H%M%S") *)
  now_run_plain : occurs "/" now_run = false;
  now_epoch : N       (* int(time.time()) *)
}.

(** The closure [log_callback] registered on the primary driver: the
    variables of [setup_unity_log_listener] it captured. *)
Record LogListener := {
  cb_cls : option string;       (* request.cls.__name__, None when request.cls is None *)
  cb_timestamp : string;
  cb_log_directory : string
}.

(** A Python dict of str to str, in insertion order. *)
Definition pydict := list (string * string).

Record World := {
  reporter_alt_driver : option AltDriver;   (* Reporter.alt_driver *)
  stdout : list string;                     (* print *)
  allure_steps : list string;               (* allure.step titles *)
  allure_attachments : list attachment;     (* allure.attach *)
  fs : filesystem;
  cwd : string;                             (* os.getcwd() *)
  clock : Clock;
  events : list event;
  listeners : list LogListener;             (* LOG listeners of the primary driver *)
  unity_logs : pydict;                      (* the dict shared by fixture and callback *)
  local_drivers : option DriverContainer;   (* setup_drivers' local [drivers] *)
  cls_drivers : option DriverContainer      (* request.cls.drivers *)
}.

(* ================================================================== *)
(** ** The monad of harness code *)

Definition M (A : Type) : Type := World -> result A * World.

Definition ret {A} (a : A) : M A := fun w => (Ok a, w).

Definition bind {A B} (m : M A) (k : A -> M B) : M B :=
  fun w =>
    match m w with
    | (Ok a, w') => k a w'
    | (Raise e, w') => (Raise e, w')
    end.

Definition raise {A} (e : exn) : M A := fun w => (Raise e, w).

Declare Scope py_scope.
Delimit Scope py_scope with py.
Notation "x <- m ;; k" := (bind m (fun x => k))
  (at level 100, m at next level, right associativity) : py_scope.
Notation "m ;; k" := (bind m (fun _ => k))
  (at level 100, right associativity) : py_scope.
Open Scope py_scope.

(** [try: body except Exception as ex: handler ex] *)
Definition try_except {A} (body : M A) (handler : exn -> M A) : M A :=
  fun w =>
    match body w with
    | (Ok a, w') => (Ok a, w')
    | (Raise e, w') => if is_Exception e then handler e w' else (Raise e, w')
    end.

(** [try: body finally: fin] *)
Definition try_finally {A} (body : M A) (fin : M unit) : M A :=
  fun w =>
    match body w with
    | (r, w1) =>
        match fin w1 with
        | (Ok _, w2) => (r, w2)
        | (Raise e, w2) => (Raise e, w2)
        end
    end.

Definition get_world : M World := fun w => (Ok w, w).
Definition modify (f : World -> World) : M unit := fun w => (Ok tt, f w).

Definition lift_driver {A} (r : driver_error + A) : M A :=
  match r with
  | inl d => raise (exn_of_driver_error d)
  | inr a => ret a
  end.

Definition lift_driver_unit (r : option driver_error) : M unit :=
  match r with
  | Some d => raise (exn_of_driver_error d)
  | None => ret tt
  end.

(* ------------------------------------------------------------------ *)
(** *** World updates *)

Definition set_reporter_alt_driver (d : option AltDriver) (w : World) : World :=
  {| reporter_alt_driver := d; stdout := stdout w; allure_steps := allure_steps w;
     allure_attachments := allure_attachments w; fs := fs w; cwd := cwd w;
     clock := clock w; events := events w; listeners := listeners w;
     unity_logs := unity_logs w; local_drivers := local_drivers w;
     cls_drivers := cls_drivers w |}.

Definition add_stdout (s : string) (w : World) : World :=
  {| reporter_alt_driver := reporter_alt_driver w; stdout := stdout w ++ [s];
     allure_steps := allure_steps w;
     allure_attachments := allure_attachments w; fs := fs w; cwd := cwd w;
     clock := clock w; events := events w; listeners := listeners w;
     unity_logs := unity_logs w; local_drivers := local_drivers w;
     cls_drivers := cls_drivers w |}.

Definition add_step (s : string) (w : World) : World :=
  {| reporter_alt_driver := reporter_alt_driver w; stdout := stdout w;
     allure_steps := allure_steps w ++ [s];
     allure_attachments := allure_attachments w; fs := fs w; cwd := cwd w;
     clock := clock w; events := events w; listeners := listeners w;
     unity_logs := unity_logs w; local_drivers := local_drivers w;
     cls_drivers := cls_drivers w |}.

Definition add_attachment (a : attachment) (w : World) : World :=
  {| reporter_alt_driver := reporter_alt_driver w; stdout := stdout w;
     allure_steps := allure_steps w;
     allure_attachments := allure_attachments w ++ [a]; fs := fs w; cwd := cwd w;
     clock := clock w; events := events w; listeners := listeners w;
     unity_logs := unity_logs w; local_drivers := local_drivers w;
     cls_drivers := cls_drivers w |}.

Definition set_fs (f : filesystem) (w : World) : World :=
  {| reporter_alt_driver := reporter_alt_driver w; stdout := stdout w;
     allure_steps := allure_steps w;
     allure_attachments := allure_attachments w; fs := f; cwd := cwd w;
     clock := clock w; events := events w; listeners := listeners w;
     unity_logs := unity_logs w; local_drivers := local_drivers w;
     cls_drivers := cls_drivers w |}.

Definition add_event (e : event) (w : World) : World :=
  {| reporter_alt_driver := reporter_alt_driver w; stdout := stdout w;
     allure_steps := allure_steps w;
     allure_attachments := allure_attachments w; fs := fs w; cwd := cwd w;
     clock := clock w; events := events w ++ [e]; listeners := listeners w;
     unity_logs := unity_logs w; local_drivers := local_drivers w;
     cls_drivers := cls_drivers w |}.

Definition add_listener (l : LogListener) (w : World) : World :=
  {| reporter_alt_driver := reporter_alt_driver w; stdout := stdout w;
     allure_steps := allure_steps w;
     allure_attachments := allure_attachments w; fs := fs w; cwd := cwd w;
     clock := clock w; events := events w; listeners := listeners w ++ [l];
     unity_logs := unity_logs w; local_drivers := local_drivers w;
     cls_drivers := cls_drivers w |}.

Definition set_listeners (ls : list LogListener) (w : World) : World :=
  {| reporter_alt_driver := reporter_alt_driver w; stdout := stdout w;
     allure_steps := allure_steps w;
     allure_attachments := allure_attachments w; fs := fs w; cwd := cwd w;
     clock := clock w; events := events w; listeners := ls;
     unity_logs := unity_logs w; local_drivers := local_drivers w;
     cls_drivers := cls_drivers w |}.

Definition set_unity_logs (d : pydict) (w : World) : World :=
  {| reporter_alt_driver := reporter_alt_driver w; stdout := stdout w;
     allure_steps := allure_steps w;
     allure_attachments := allure_attachments w; fs := fs w; cwd := cwd w;
     clock := clock w; events := events w; listeners := listeners w;
     unity_logs := d; local_drivers := local_drivers w;
     cls_drivers := cls_drivers w |}.

Definition set_local_drivers (d : option DriverContainer) (w : World) : World :=
  {| reporter_alt_driver := reporter_alt_driver w; stdout := stdout w;
     allure_steps := allure_steps w;
     allure_attachments := allure_attachments w; fs := fs w; cwd := cwd w;
     clock := clock w; events := events w; listeners := listeners w;
     unity_logs := unity_logs w; local_drivers := d;
     cls_drivers := cls_drivers w |}.

Definition set_cls_drivers (d : option DriverContainer) (w : World) : World :=
  {| reporter_alt_driver := reporter_alt_driver w; stdout := stdout w;
     allure_steps := allure_steps w;
     allure_attachments := allure_attachments w; fs := fs w; cwd := cwd w;
     clock := clock w; events := events w; listeners := listeners w;
     unity_logs := unity_logs w; local_drivers := local_drivers w;
     cls_drivers := d |}.

(** [with allure.step(title): body]: the step is recorded, the body runs
    inside it and its exception, if any, passes through. *)
Definition allure_step {A} (title : string) (body : M A) : M A :=
  modify (add_step title) ;; body.

Definition print (s : string) : M unit := modify (add_stdout s).

Definition emit (e : event) : M unit := modify (add_event e).

(* ------------------------------------------------------------------ *)
(** *** Files *)

(** [os.path.exists(p)] *)
Definition os_path_exists (p : string) : M bool :=
  w <- get_world ;;
  ret (match fs w p with Some _ => true | None => false end).

(** [os.makedirs(p, exist_ok=...)].  The harness makes one directory, a
    child of [os.getcwd()]: its parent is there. *)
Definition os_makedirs (p : string) (exist_ok : bool) : M unit :=
  w <- get_world ;;
  match fs w p with
  | None => modify (set_fs (fs_set p Dir (fs w)))
  | Some Dir =>
      if exist_ok then ret tt
      else raise (mk_exn FileExistsError ("[Errno 17] File exists: '" ++ p ++ "'"))
  | Some (File _) =>
      raise (mk_exn FileExistsError ("[Errno 17] File exists: '" ++ p ++ "'"))
  end.

(** [with open(p, "rb") as f: f.read()] *)
Definition read_file (p : string) : M string :=
  w <- get_world ;;
  match fs w p with
  | Some (File c) => ret c
  | Some Dir =>
      raise (mk_exn IsADirectoryError ("[Errno 21] Is a directory: '" ++ p ++ "'"))
  | None =>
      raise (mk_exn FileNotFoundError
               ("[Errno 2] No such file or directory: '" ++ p ++ "'"))
  end.

(** What stands in the way of a file at [p], whether it is there or has to
    be created: the directory of [p] is missing or is not a directory.  A
    path without a directory part is relative to the working directory,
    and the root is always there.  Paths are looked up as they are
    spelled. *)
Definition parent_error (f : filesystem) (p : string) : option exn :=
  let head := OsPath.dirname p in
  if String.eqb head EmptyString ||
     String.eqb head (PyStr.repeat OsPath.sep (String.length head))
  then None
  else
    match f head with
    | Some Dir => None
    | Some (File _) =>
        Some (mk_exn NotADirectoryError ("[Errno 20] Not a directory: '" ++ p ++ "'"))
    | None =>
        Some (mk_exn FileNotFoundError
                ("[Errno 2] No such file or directory: '" ++ p ++ "'"))
    end.

(** What [open(p, mode)] raises for a mode that writes ("a", "wb"), [None]
    when the file opens: the directory is resolved first, then [p] itself,
    which is created when it is not there. *)
Definition open_error (f : filesystem) (p : string) : option exn :=
  match parent_error f p with
  | Some e => Some e
  | None =>
      match f p with
      | Some Dir =>
          Some (mk_exn IsADirectoryError ("[Errno 21] Is a directory: '" ++ p ++ "'"))
      | _ => None
      end
  end.

(** [with open(p, "a", encoding="utf-8") as f: f.write(text)] *)
Definition append_file (p : string) (text : string) : M unit :=
  w <- get_world ;;
  match open_error (fs w) p with
  | Some e => raise e
  | None =>
      let old := match fs w p with Some (File c) => c | _ => EmptyString end in
      modify (set_fs (fs_set p (File (old ++ text)) (fs w)))
  end.

(** [with open(p, "wb") as f: f.write(data)], as the driver saves a capture. *)
Definition write_file (p : string) (data : string) : M unit :=
  w <- get_world ;;
  match open_error (fs w) p with
  | Some e => raise e
  | None => modify (set_fs (fs_set p (File data) (fs w)))
  end.

(** [allure.attach(body, name=..., attachment_type=...)] *)
Definition allure_attach (body name : string) (t : attachment_type) : M unit :=
  modify (add_attachment {| att_body := body; att_name := name; att_type := t |}).

(** [d.get(key, default)] on a dict literal. *)
Fixpoint dict_get {V} (d : list (string * V)) (key : string) (default : V) : V :=
  match d with
  | [] => default
  | (k, v) :: d' => if String.eqb k key then v else dict_get d' key default
  end.

(* ================================================================== *)
(** ** [common/reporter.py] *)

Module Reporter.

Definition format_message (timestamp message : string) : string :=
  "[" ++ timestamp ++ "] " ++ message.

(** [Reporter.log(message, with_screenshot=False)]: the body of [log]
    with the screenshot branch not taken.  [take_screenshot] only ever
    calls [log] this way, which is what makes the pair well-founded. *)
Definition log_plain (message : string) : M unit :=
  w <- get_world ;;
  let timestamp := now_log (clock w) in
  let formatted_message := format_message timestamp message in
  print formatted_message ;;
  allure_step formatted_message (ret tt).

Definition screenshots_dirname : string := "screenshots-and-logs".

(** [Reporter.alt_driver.get_png_screenshot(path)]: the driver captures
    and saves the image at [path]. *)
Definition get_png_screenshot (d : AltDriver) (path : string) : M unit :=
  data <- lift_driver (alt_get_png_screenshot d path) ;;
  write_file path data.

Definition take_screenshot (custom_name : option string) : M unit :=
  w <- get_world ;;
  match reporter_alt_driver w with
  | None => log_plain "Cannot take screenshot: AltDriver not set"
  | Some driver =>
      try_except
        (let project_directory := cwd w in
         let screenshot_directory :=
           OsPath.join project_directory screenshots_dirname in
         present <- os_path_exists screenshot_directory ;;
         (if negb present then os_makedirs screenshot_directory false else ret tt) ;;
         w1 <- get_world ;;
         let timestamp := now_epoch (clock w1) in
         let filename := or_str custom_name ("screenshot_" ++ str_int timestamp) in
         let screenshot_path :=
           OsPath.join screenshot_directory (filename ++ ".png") in
         get_png_screenshot driver screenshot_path ;;
         allure_step ("Screenshot taken: " ++ filename)
           (data <- read_file screenshot_path ;;
            allure_attach data filename PNG))
        (fun ex => log_plain ("Failed to take screenshot: " ++ str_exn ex))
  end.

Definition log (message : string) (with_screenshot : bool) : M unit :=
  w <- get_world ;;
  let timestamp := now_log (clock w) in
  let formatted_message := format_message timestamp message in
  print formatted_message ;;
  allure_step formatted_message
    (if with_screenshot then take_screenshot None else ret tt).

Definition content_type_map : list (string * attachment_type) :=
  [ (".txt", TEXT);
    (".log", TEXT);
    (".json", JSON);
    (".xml", XML);
    (".html", HTML);
    (".csv", CSV) ].

Definition attach_file_to_allure (file_path : string) (custom_name : option string)
  : M unit :=
  let filename :=
    or_str custom_name (fst (OsPath.splitext (OsPath.basename file_path))) in
  allure_step ("Attach file: " ++ filename)
    (try_except
       (present <- os_path_exists file_path ;;
        if negb present then
          log_plain ("Cannot attach file: File not found at " ++ file_path)
        else
          let file_extension := PyStr.lower (snd (OsPath.splitext file_path)) in
          let attachment_type := dict_get content_type_map file_extension TEXT in
          data <- read_file file_path ;;
          allure_attach data filename attachment_type ;;
          log_plain ("File attached to Allure report: " ++ filename))
       (fun ex => log_plain ("Failed to attach file to Allure: " ++ str_exn ex))).

End Reporter.

(** The content type the specification lists for a (lower-cased) extension. *)
Definition spec_content_type (extension : string) : attachment_type :=
  if String.eqb extension ".txt" then TEXT
  else if String.eqb extension ".json" then JSON
  else if String.eqb extension ".xml" then XML
  else if String.eqb extension ".html" then HTML
  else if String.eqb extension ".csv" then CSV
  else TEXT.

(* ================================================================== *)
(** ** [common/test_configuration.py] *)

Inductive PlatformType := ANDROID | IOS | WEBGL.

Definition PlatformType_value (p : PlatformType) : string :=
  match p with
  | ANDROID => "Android"
  | IOS => "iOS"
  | WEBGL => "WebGL"
  end.

Definition PlatformType_eqb (p q : PlatformType) : bool :=
  match p, q with
  | ANDROID, ANDROID | IOS, IOS | WEBGL, WEBGL => true
  | _, _ => false
  end.

(** The class attributes of [TestConfiguration], as evaluated at import. *)
Record TestConfiguration := {
  ALT_TESTER_SERVER_URL : string;
  ALT_TESTER_SERVER_PORT : N;
  ALT_TESTER_APP_NAME : string;
  ALT_TESTER_CONNECT_TIMEOUT : N;
  PLATFORM : PlatformType;
  DEVICE_NAME : string;
  APP_BUNDLE_ID : string;
  RUNNING_WITH_APPIUM : bool;
  RUNNING_WITH_SELENIUM : bool;
  WEBGL_URL : string
}.

(** How the three client libraries answer when a driver is created. *)
Record Env := {
  new_AltDriver : string -> N -> string -> driver_error + AltDriver;
  new_appium_Remote : string -> list (string * cap_value) -> driver_error + AppiumDriver;
  new_Chrome : list string -> driver_error + SeleniumDriver
}.

(** What [request] gives the class fixture.  The name of a class is an
    identifier, so it holds no path separator: a file named after the
    class is a child of the directory it is put in. *)
Record Request := {
  req_cls : option string;     (* request.cls.__name__, None when request.cls is None *)
  req_cls_plain :
    match req_cls with
    | Some name => occurs "/" name = false
    | None => True
    end
}.

(** A log notification pushed by the game. *)
Record Notification := {
  message : string;
  stack_trace : string
}.

Definition nl : string := String (ascii_of_nat 10) EmptyString.

(** [key in d], [d[key] = value] and [d.pop(key, None)] on a dict. *)
Fixpoint dict_mem (key : string) (d : pydict) : bool :=
  match d with
  | [] => false
  | (k, _) :: d' => String.eqb k key || dict_mem key d'
  end.

Fixpoint dict_setitem (key value : string) (d : pydict) : pydict :=
  match d with
  | [] => [(key, value)]
  | (k, v) :: d' =>
      if String.eqb k key then (k, value) :: d' else (k, v) :: dict_setitem key value d'
  end.

Fixpoint dict_pop (key : string) (d : pydict) : pydict :=
  match d with
  | [] => []
  | (k, v) :: d' => if String.eqb k key then d' else (k, v) :: dict_pop key d'
  end.

(* ------------------------------------------------------------------ *)
(** *** Calls on driver handles *)

Definition AltDriver_stop (d : AltDriver) : M unit :=
  emit EvAltStop ;; lift_driver_unit (alt_stop d).

Definition SeleniumDriver_quit (d : SeleniumDriver) : M unit :=
  emit EvSeleniumQuit ;; lift_driver_unit (selenium_quit d).

Definition SeleniumDriver_get (d : SeleniumDriver) (url : string) : M unit :=
  emit (EvSeleniumGet url) ;; lift_driver_unit (selenium_get d url).

Definition AppiumDriver_quit (d : AppiumDriver) : M unit :=
  emit EvAppiumQuit ;; lift_driver_unit (appium_quit d).

(** [pytest.fail(msg)] *)
Definition pytest_fail {A} (msg : string) : M A := raise (mk_exn Failed msg).

(** The fixture is a generator: while it is suspended at [yield] the tests
    of the class run, and pytest resumes it with [next()], so nothing that
    happens meanwhile is raised at the [yield]. *)
Definition yield_ (suspended : M unit) : M unit :=
  fun w => (Ok tt, snd (suspended w)).

(* ================================================================== *)
(** ** [tests/conftest.py] *)

(** [log_callback(notification)], for the closure [l]. *)
Definition log_callback (l : LogListener) (notification : Notification) : M unit :=
  try_except
    (let test_name :=
       match cb_cls l with Some name => name | None => "UnknownTest" end in
     let filename := test_name ++ "-UnityLogs-" ++ cb_timestamp l ++ ".txt" in
     let filepath := OsPath.join (cb_log_directory l) filename in
     append_file filepath
       (message notification ++ nl ++
        "StackTrace : " ++ stack_trace notification ++ nl) ;;
     w <- get_world ;;
     if negb (dict_mem filename (unity_logs w))
     then modify (set_unity_logs (dict_setitem filename filepath (unity_logs w)))
     else ret tt)
    (fun e => Reporter.log ("Error saving Unity log: " ++ str_exn e) false).

Definition stop_all_drivers (drivers : DriverContainer) : M unit :=
  try_except
    ((match alt_driver drivers with
      | Some d => AltDriver_stop d
      | None => ret tt
      end) ;;
     (match selenium_driver drivers with
      | Some d => SeleniumDriver_quit d
      | None => ret tt
      end) ;;
     (match appium_driver drivers with
      | Some d => AppiumDriver_quit d
      | None => ret tt
      end) ;;
     Reporter.log "All drivers stopped successfully" false)
    (fun ex => Reporter.log ("Error stopping drivers: " ++ str_exn ex) false).

Definition setup_unity_log_listener (drivers : DriverContainer) (request : Request)
  : M unit :=
  match alt_driver drivers with
  | None => ret tt
  | Some d =>
      Reporter.log "Setting up Unity log listener" false ;;
      w <- get_world ;;
      let project_directory := cwd w in
      let log_directory := OsPath.join project_directory "screenshots-and-logs" in
      os_makedirs log_directory true ;;
      w1 <- get_world ;;
      let timestamp := now_run (clock w1) in
      emit EvAltAddListener ;;
      lift_driver_unit (alt_add_notification_listener d) ;;
      modify (add_listener {| cb_cls := req_cls request;
                              cb_timestamp := timestamp;
                              cb_log_directory := log_directory |})
  end.

(** The loop of [add_unity_logs_to_allure] over [logs_copy.items()]. *)
Fixpoint add_unity_logs_loop (logs_copy : pydict) : M unit :=
  match logs_copy with
  | [] => ret tt
  | (filename, filepath) :: rest =>
      try_except
        (let attachment_name := filename in
         Reporter.attach_file_to_allure filepath (Some attachment_name))
        (fun _ => Reporter.log "No Unity logs found." false) ;;
      w <- get_world ;;
      modify (set_unity_logs (dict_pop filename (unity_logs w))) ;;
      add_unity_logs_loop rest
  end.

Definition add_unity_logs_to_allure : M unit :=
  w <- get_world ;;
  let logs_copy := unity_logs w in
  add_unity_logs_loop logs_copy.

Section Drivers.

Variable cfg : TestConfiguration.
Variable env : Env.

(** [AltDriver(host=..., port=..., app_name=..., enable_logging=False)]:
    a new connection, which has no listener yet. *)
Definition AltDriver_new (host : string) (port : N) (app_name : string)
  : M AltDriver :=
  emit (EvAltConnect host port app_name) ;;
  driver <- lift_driver (new_AltDriver env host port app_name) ;;
  modify (set_listeners []) ;;
  ret driver.

Definition start_alttester_driver : M AltDriver :=
  allure_step "Start AltTester Driver"
    (Reporter.log
       ("Connecting to AltTester at " ++ ALT_TESTER_SERVER_URL cfg ++ ":" ++
        str_int (ALT_TESTER_SERVER_PORT cfg)) false ;;
     driver <- AltDriver_new (ALT_TESTER_SERVER_URL cfg)
                 (ALT_TESTER_SERVER_PORT cfg) (ALT_TESTER_APP_NAME cfg) ;;
     modify (set_reporter_alt_driver (Some driver)) ;;
     Reporter.log "Successfully connected to the game." false ;;
     ret driver).

Definition appium_url : string := "http://127.0.0.1:4723/wd/hub".

Definition appium_Remote (url : string) (caps : list (string * cap_value))
  : M AppiumDriver :=
  emit (EvAppiumRemote url caps) ;; lift_driver (new_appium_Remote env url caps).

Definition start_appium_driver : M (option AppiumDriver) :=
  allure_step "Start Appium Driver"
    (Reporter.log "Setting up Appium driver..." false ;;
     if PlatformType_eqb (PLATFORM cfg) ANDROID then
       let desired_caps :=
         [ ("platformName", CapStr "Android");
           ("automationName", CapStr "UiAutomator2");
           ("newCommandTimeout", CapInt 2000%N);
           ("autoGrantPermissions", CapBool true);
           ("deviceName", CapStr (DEVICE_NAME cfg));
           ("appPackage", CapStr (APP_BUNDLE_ID cfg)) ] in
       driver <- appium_Remote appium_url desired_caps ;;
       ret (Some driver)
     else if PlatformType_eqb (PLATFORM cfg) IOS then
       let desired_caps :=
         [ ("platformName", CapStr "iOS");
           ("deviceName", CapStr (DEVICE_NAME cfg));
           ("bundleId", CapStr (APP_BUNDLE_ID cfg)) ] in
       driver <- appium_Remote appium_url desired_caps ;;
       ret (Some driver)
     else
       Reporter.log "Appium not supported for current platform" false ;;
       ret None).

Definition start_selenium_driver : M (option SeleniumDriver) :=
  allure_step "Start Selenium Driver"
    (if PlatformType_eqb (PLATFORM cfg) WEBGL then
       Reporter.log "Setting up Chrome driver for WebGL testing..." false ;;
       let chrome_options := ["--no-sandbox"; "--disable-dev-shm-usage"] in
       emit (EvChrome chrome_options) ;;
       driver <- lift_driver (new_Chrome env chrome_options) ;;
       SeleniumDriver_get driver (WEBGL_URL cfg) ;;
       ret (Some driver)
     else
       Reporter.log "Selenium not needed for current platform" false ;;
       ret None).

Definition start_all_drivers : M DriverContainer :=
  Reporter.log "Setting up test environment..." false ;;
  Reporter.log ("Platform: " ++ PlatformType_value (PLATFORM cfg)) false ;;
  Reporter.log
    ("Running tests with Appium: " ++ str_bool (RUNNING_WITH_APPIUM cfg)) false ;;
  Reporter.log
    ("Running tests with Selenium: " ++ str_bool (RUNNING_WITH_SELENIUM cfg)) false ;;
  appium_driver <-
    (if RUNNING_WITH_APPIUM cfg then start_appium_driver else ret None) ;;
  selenium_driver <-
    (if RUNNING_WITH_SELENIUM cfg then start_selenium_driver else ret None) ;;
  alt_driver <- start_alttester_driver ;;
  let drivers := mkDriverContainer (Some alt_driver) appium_driver selenium_driver in
  Reporter.log "All drivers started successfully" false ;;
  ret drivers.

(** [request.cls.drivers = value] *)
Definition set_request_cls_drivers (request : Request)
    (value : option DriverContainer) : M unit :=
  match req_cls request with
  | Some _ => modify (set_cls_drivers value)
  | None =>
      raise (mk_exn AttributeError "'NoneType' object has no attribute 'drivers'")
  end.

(** Delivery of one notification by the client to the registered
    callbacks. *)
Fixpoint notify (ls : list LogListener) (n : Notification) : M unit :=
  match ls with
  | [] => ret tt
  | l :: ls' => log_callback l n ;; notify ls' n
  end.

(** What happens while the class fixture is suspended: the tests run and
    the game pushes the notifications [ns], in this order. *)
Fixpoint tests_run (ns : list Notification) : M unit :=
  match ns with
  | [] => ret tt
  | n :: ns' =>
      w <- get_world ;;
      notify (listeners w) n ;;
      tests_run ns'
  end.

(** The three blocks of the class-scoped fixture [setup_drivers]: the
    [with allure.step] block under [try], the [except Exception as ex]
    handler, and the [finally] block.  [ns] are the notifications pushed
    while the fixture is suspended at [yield]. *)
Definition setup_drivers_try (request : Request) (ns : list Notification) : M unit :=
  allure_step "Initialize Test Configuration and Start All Drivers"
    (drivers <- start_all_drivers ;;
     modify (set_local_drivers (Some drivers)) ;;
     setup_unity_log_listener drivers request ;;
     set_request_cls_drivers request (Some drivers) ;;
     yield_ (tests_run ns)).

Definition setup_drivers_except (request : Request) (ex : exn) : M unit :=
  @pytest_fail unit ("Exception during driver setup: " ++ str_exn ex) ;;
  set_request_cls_drivers request None.

Definition setup_drivers_finally : M unit :=
  add_unity_logs_to_allure ;;
  w <- get_world ;;
  (match local_drivers w with
   | Some drivers => stop_all_drivers drivers
   | None => ret tt
   end) ;;
  Reporter.log "All drivers stopped and cleanup completed." false.

(** The fixture, from its first line to the end of its [finally]. *)
Definition setup_drivers (request : Request) (ns : list Notification) : M unit :=
  modify (set_local_drivers None) ;;
  modify (set_unity_logs []) ;;
  try_finally
    (try_except (setup_drivers_try request ns) (setup_drivers_except request))
    setup_drivers_finally.

End Drivers.

(** The phases pytest runs a test item in, and the report it makes at the
    end of each, as far as the harness reads it. *)
Inductive phase := Setup | Call | Teardown.

Inductive report_outcome := outcome_passed | outcome_failed | outcome_skipped.

Record TestReport := {
  when : phase;
  outcome : report_outcome
}.

(** [rep.passed] and [rep.failed] *)
Definition passed (rep : TestReport) : bool :=
  match outcome rep with outcome_passed => true | _ => false end.

Definition failed (rep : TestReport) : bool :=
  match outcome rep with outcome_failed => true | _ => false end.

(** The attributes the hook sets on a test item; an attribute that was
    never set is not there. *)
Record Item := {
  rep_setup : option TestReport;
  rep_call : option TestReport;
  rep_teardown : option TestReport
}.

Definition new_item : Item :=
  {| rep_setup := None; rep_call := None; rep_teardown := None |}.

(** [pytest_runtest_makereport(item, call)]: [rep] is the report pytest and
    its other plugins made ([outcome.get_result()]); the hook stores it on
    the item as [rep_<when>]. *)
Definition pytest_runtest_makereport (item : Item) (rep : TestReport) : Item :=
  match when rep with
  | Setup =>
      {| rep_setup := Some rep; rep_call := rep_call item;
         rep_teardown := rep_teardown item |}
  | Call =>
      {| rep_setup := rep_setup item; rep_call := Some rep;
         rep_teardown := rep_teardown item |}
  | Teardown =>
      {| rep_setup := rep_setup item; rep_call := rep_call item;
         rep_teardown := Some rep |}
  end.

(** How pytest reports a phase that ended as given, once the plugins that
    rewrite reports (skip, xfail) have had their say. *)
Definition Verdict := phase -> result unit -> report_outcome.

(** The verdict on a test that no mark skips or expects to fail (the marks
    of the harness, [smoke] and [ui], only label its tests): passed when
    the phase returned, skipped when it raised [Skipped], failed when it
    raised anything else. *)
Definition plain_verdict : Verdict :=
  fun _ phase_result =>
    match phase_result with
    | Ok _ => outcome_passed
    | Raise e =>
        match exn_cls e with
        | Skipped => outcome_skipped
        | _ => outcome_failed
        end
    end.

(** What pytest runs while a function-scoped fixture is suspended at its
    [yield]: the set-up of the fixtures that come after it, then the test
    function, when that set-up passed.  Each phase ends with its report,
    which the hook stores; nothing raised meanwhile is raised at the
    [yield].  The answer is the item as the fixture finds it when it is
    resumed. *)
Definition run_until_teardown (verdict : Verdict) (later_setup test_body : M unit)
  : M Item :=
  fun w =>
    match later_setup w with
    | (setup_result, w1) =>
        let rep := {| when := Setup; outcome := verdict Setup setup_result |} in
        let item := pytest_runtest_makereport new_item rep in
        if passed rep then
          match test_body w1 with
          | (call_result, w2) =>
              let rep := {| when := Call; outcome := verdict Call call_result |} in
              (Ok (pytest_runtest_makereport item rep), w2)
          end
        else (Ok item, w1)
    end.

(** [request.node.rep_call] *)
Definition get_rep_call (node : Item) : M TestReport :=
  match rep_call node with
  | Some rep => ret rep
  | None =>
      raise (mk_exn AttributeError "'Function' object has no attribute 'rep_call'")
  end.

(** The per-test fixture of the test named [node_name], whose function is
    [test_body] and whose phases pytest reports by [verdict];
    [later_setup] is the set-up of the fixtures that come after this one,
    which for the tests of the harness is [setup_method] of [BaseTest]
    (their teardown, [teardown_method], does nothing). *)
Definition auto_screenshot_on_failure (verdict : Verdict) (node_name : string)
    (later_setup test_body : M unit) : M unit :=
  node <- run_until_teardown verdict later_setup test_body ;;
  rep_call <- get_rep_call node ;;
  if failed rep_call then
    let test_name := node_name in
    Reporter.take_screenshot (Some (test_name ++ "_Failed"))
  else ret tt.

(* ================================================================== *)
(** ** [views/base_view.py] *)

Inductive view_class := BaseView_class | MainMenuView_class | GameplayView_class.

Definition class_name (c : view_class) : string :=
  match c with
  | BaseView_class => "BaseView"
  | MainMenuView_class => "MainMenuView"
  | GameplayView_class => "GameplayView"
  end.

(** A view object: its class and the container given to [__init__]. *)
Record BaseView := {
  view_class_of : view_class;
  drivers : DriverContainer
}.

(** [self.alt_driver.<method>(...)]: the property returns
    [self.drivers.alt_driver], and a call on [None] is an
    [AttributeError]. *)
Definition on_alt_driver {A} (self : BaseView) (method : string)
    (call : AltDriver -> M A) : M A :=
  match alt_driver (drivers self) with
  | Some d => call d
  | None =>
      raise (mk_exn AttributeError
               ("'NoneType' object has no attribute '" ++ method ++ "'"))
  end.

(** [alt_object.click()] *)
Definition AltObject_click (o : AltObject) : M unit :=
  emit (EvClick (obj_name o)) ;; lift_driver_unit (click_answer o).

Definition wait_for_object (self : BaseView) (locator : locator)
    (timeout interval : seconds) : M AltObject :=
  allure_step "Wait for object"
    (Reporter.log ("Waiting for element " ++ snd locator ++ " to be present.") false ;;
     try_except
       (on_alt_driver self "wait_for_object"
          (fun d =>
             lift_driver
               (alt_wait_for_object d (fst locator) (snd locator) timeout interval)))
       (fun _ =>
          Reporter.log
            ("Element " ++ snd locator ++ " was not found within " ++ timeout ++
             " seconds") true ;;
          raise (mk_exn AssertionError
                   ("Element '" ++ snd locator ++ "' was not found within " ++
                    timeout ++ " seconds. " ++
                    "Please check if the element exists or if the game loaded correctly.")))).

Definition is_object_present (self : BaseView) (locator : locator) : M bool :=
  allure_step "Check if object is present"
    (try_except
       (on_alt_driver self "find_object"
          (fun d => lift_driver (alt_find_object d (fst locator) (snd locator))) ;;
        ret true)
       (fun _ => ret false)).

Definition find_element (self : BaseView) (locator : locator) : M AltObject :=
  allure_step "Find element by locator"
    (try_except
       (on_alt_driver self "find_object"
          (fun d => lift_driver (alt_find_object d (fst locator) (snd locator))))
       (fun _ =>
          Reporter.log ("Element " ++ snd locator ++ " not found") true ;;
          raise (mk_exn AssertionError
                   ("Element '" ++ snd locator ++ "' was not found. " ++
                    "Please verify the element exists in the current scene.")))).

(* ------------------------------------------------------------------ *)
(** *** Attribute lookup on a view object *)

(** The value of an attribute: a bound method that takes one locator and
    returns an [AltObject], or anything else. *)
Inductive attr :=
| Lookup (call : locator -> M AltObject)
| Other.

(** The attributes [BaseView] gives every view: [drivers], set by
    [__init__], then the properties and methods of the class body. *)
Definition BaseView_attrs (self : BaseView) : list (string * attr) :=
  [ ("drivers", Other);
    ("alt_driver", Other);
    ("appium_driver", Other);
    ("selenium_driver", Other);
    ("click_object", Other);
    ("tap_object", Other);
    ("wait_for_object", Lookup (fun l => wait_for_object self l "20.0" "0.5"));
    ("wait_for_object_which_contains", Other);
    ("wait_for_object_not_be_present", Other);
    ("set_text", Other);
    ("get_text", Other);
    ("is_object_present", Other);
    ("find_element", Lookup (find_element self));
    ("get_current_scene", Other);
    ("load_scene", Other);
    ("take_screenshot", Other);
    ("wait", Other) ].

(** The names a subclass adds: the locators set in [__init__] and the
    methods of its class body. *)
Definition own_names (c : view_class) : list string :=
  match c with
  | BaseView_class => []
  | MainMenuView_class =>
      [ "play_button_locator"; "main_menu_panel_locator";
        "player_name_input_locator"; "settings_button_locator";
        "click_play_button"; "is_main_menu_visible"; "enter_player_name";
        "navigate_to_settings"; "wait_for_main_menu_ready"; "start_new_game" ]
  | GameplayView_class =>
      [ "pause_button_locator"; "resume_button_locator";
        "main_character_locator"; "game_hud_locator";
        "pause_game"; "resume_game"; "is_game_paused";
        "is_main_character_present"; "get_main_character_position";
        "wait_for_gameplay_ready"; "is_gameplay_hud_visible" ]
  end.

Fixpoint assoc {V} (key : string) (d : list (string * V)) : option V :=
  match d with
  | [] => None
  | (k, v) :: d' => if String.eqb k key then Some v else assoc key d'
  end.

(** [self.<name>]: the object's own names first, then [BaseView]. *)
Definition getattr (self : BaseView) (name : string) : M attr :=
  match assoc name (map (fun n => (n, Other)) (own_names (view_class_of self))
                      ++ BaseView_attrs self) with
  | Some a => ret a
  | None =>
      raise (mk_exn AttributeError
               ("'" ++ class_name (view_class_of self) ++
                "' object has no attribute '" ++ name ++ "'"))
  end.

(** [attribute(locator)] *)
Definition call_attr (a : attr) (l : locator) : M AltObject :=
  match a with
  | Lookup call => call l
  | Other => raise (mk_exn TypeError "object is not a lookup method")
  end.

(* ------------------------------------------------------------------ *)
(** *** The other verbs of [BaseView] *)

(** Calls of the client library whose answers the handles above do not
    carry: what the game would answer to each. *)
Record Position := { pos_x : string; pos_y : string; pos_z : string }.

Record AltLibrary := {
  lib_set_text : AltObject -> string -> bool -> option driver_error;
  lib_get_text : AltObject -> driver_error + string;
  lib_get_world_position : AltObject -> driver_error + Position;
  lib_get_current_scene : AltDriver -> driver_error + string
}.

(** [time.sleep(seconds)]: time is not part of the world. *)
Definition time_sleep (duration : seconds) : M unit := ret tt.

Definition click_object (self : BaseView) (locator : locator) (timeout : seconds)
    (wait_for_click : bool) : M unit :=
  allure_step "Click on object"
    (alt_object <- wait_for_object self locator timeout "0.5" ;;
     AltObject_click alt_object ;;
     time_sleep "0.5").

Definition set_text (lib : AltLibrary) (self : BaseView) (locator : locator)
    (text : string) (timeout : seconds) : M unit :=
  allure_step "Set text on object"
    (alt_object <- wait_for_object self locator timeout "0.5" ;;
     lift_driver_unit (lib_set_text lib alt_object text false)).

Definition get_text (lib : AltLibrary) (self : BaseView) (locator : locator)
    (timeout : seconds) : M string :=
  allure_step "Get text from object"
    (alt_object <- wait_for_object self locator timeout "0.5" ;;
     lift_driver (lib_get_text lib alt_object)).

Definition get_current_scene (lib : AltLibrary) (self : BaseView) : M string :=
  allure_step "Get current scene"
    (on_alt_driver self "get_current_scene"
       (fun d => lift_driver (lib_get_current_scene lib d))).

(* ================================================================== *)
(** ** [views/main_menu_view.py] *)

Module MainMenuView.

Definition play_button_locator : locator := (By_NAME, "PlayButton").
Definition main_menu_panel_locator : locator := (By_NAME, "MainMenuPanel").
Definition player_name_input_locator : locator := (By_NAME, "PlayerNameInput").
Definition settings_button_locator : locator := (By_NAME, "SettingsButton").

Definition new (drivers : DriverContainer) : BaseView :=
  {| view_class_of := MainMenuView_class; drivers := drivers |}.

Definition click_play_button (self : BaseView) : M unit :=
  allure_step "Click play button"
    (find_object <- getattr self "find_object" ;;
     play_button <- call_attr find_object play_button_locator ;;
     AltObject_click play_button ;;
     Reporter.log "Clicked play button" false).

Definition is_main_menu_visible (self : BaseView) : M bool :=
  allure_step "Check if main menu is visible"
    (try_except
       (find_object <- getattr self "find_object" ;;
        main_menu_panel <- call_attr find_object main_menu_panel_locator ;;
        let is_visible := enabled main_menu_panel in
        Reporter.log ("Main menu panel visible: " ++ str_bool is_visible) false ;;
        ret is_visible)
       (fun _ =>
          Reporter.log "Main menu panel not found" false ;;
          ret false)).

Definition enter_player_name (lib : AltLibrary) (self : BaseView)
    (player_name : string) : M unit :=
  allure_step "Enter player name"
    (find_object <- getattr self "find_object" ;;
     input_field <- call_attr find_object player_name_input_locator ;;
     lift_driver_unit (lib_set_text lib input_field player_name true) ;;
     Reporter.log ("Entered player name: " ++ player_name) false).

Definition navigate_to_settings (self : BaseView) : M unit :=
  allure_step "Navigate to settings"
    (find_object <- getattr self "find_object" ;;
     settings_button <- call_attr find_object settings_button_locator ;;
     AltObject_click settings_button ;;
     Reporter.log "Navigated to settings" false).

Definition wait_for_main_menu_ready (self : BaseView) (timeout_seconds : seconds)
  : M unit :=
  allure_step "Wait for main menu to be ready"
    (wait_for_object self main_menu_panel_locator timeout_seconds "0.5" ;;
     Reporter.log "Main menu is ready" false).

Definition start_new_game (lib : AltLibrary) (self : BaseView) (player_name : string)
  : M unit :=
  allure_step "Start new game"
    (wait_for_main_menu_ready self "10.0" ;;
     visible <- is_main_menu_visible self ;;
     (if negb visible
      then raise (mk_exn PlainException
                    "Main menu is not visible, cannot start new game")
      else ret tt) ;;
     enter_player_name lib self player_name ;;
     click_play_button self ;;
     Reporter.log ("Started new game for player: " ++ player_name) false).

End MainMenuView.

(* ================================================================== *)
(** ** [views/gameplay_view.py] *)

Module GameplayView.

Definition pause_button_locator : locator := (By_NAME, "PauseButton").
Definition resume_button_locator : locator := (By_NAME, "ResumeButton").
Definition main_character_locator : locator := (By_NAME, "MainCharacter").
Definition game_hud_locator : locator := (By_NAME, "GameHUD").

Definition new (driver_container : DriverContainer) : BaseView :=
  {| view_class_of := GameplayView_class; drivers := driver_container |}.

Definition is_game_paused (self : BaseView) : M bool :=
  allure_step "Check if game is paused"
    (try_except
       (find_object <- getattr self "find_object" ;;
        resume_button <- call_attr find_object resume_button_locator ;;
        let is_visible := enabled resume_button in
        Reporter.log ("Game paused: " ++ str_bool is_visible) false ;;
        ret is_visible)
       (fun _ =>
          Reporter.log "Resume button not found - game is not paused" false ;;
          ret false)).

Definition pause_game (self : BaseView) : M unit :=
  allure_step "Pause the game"
    (find_object <- getattr self "find_object" ;;
     pause_button <- call_attr find_object pause_button_locator ;;
     AltObject_click pause_button ;;
     Reporter.log "Game paused" false).

Definition resume_game (self : BaseView) : M unit :=
  allure_step "Resume the game"
    (find_object <- getattr self "find_object" ;;
     resume_button <- call_attr find_object resume_button_locator ;;
     AltObject_click resume_button ;;
     Reporter.log "Game resumed" false).

Definition is_main_character_present (self : BaseView) : M bool :=
  allure_step "Check if main character is present"
    (try_except
       (find_object <- getattr self "find_object" ;;
        main_character <- call_attr find_object main_character_locator ;;
        let is_present := enabled main_character in
        Reporter.log ("Main character present: " ++ str_bool is_present) false ;;
        ret is_present)
       (fun _ =>
          Reporter.log "Main character not found" false ;;
          ret false)).

Definition get_main_character_position (lib : AltLibrary) (self : BaseView)
  : M (string * string * string) :=
  allure_step "Get main character position"
    (find_object <- getattr self "find_object" ;;
     main_character <- call_attr find_object main_character_locator ;;
     position <- lift_driver (lib_get_world_position lib main_character) ;;
     Reporter.log
       ("Main character position: " ++ pos_x position ++ ", " ++
        pos_y position ++ ", " ++ pos_z position) false ;;
     ret (pos_x position, pos_y position, pos_z position)).

Definition wait_for_gameplay_ready (self : BaseView) (timeout_seconds : seconds)
  : M unit :=
  allure_step "Wait for gameplay to be ready"
    (wait_for_object self game_hud_locator timeout_seconds "0.5" ;;
     Reporter.log "Gameplay is ready" false).

Definition is_gameplay_hud_visible (self : BaseView) : M bool :=
  allure_step "Check if gameplay HUD is visible"
    (try_except
       (find_object <- getattr self "find_object" ;;
        game_hud <- call_attr find_object game_hud_locator ;;
        let is_visible := enabled game_hud in
        Reporter.log ("Gameplay HUD visible: " ++ str_bool is_visible) false ;;
        ret is_visible)
       (fun _ =>
          Reporter.log "Gameplay HUD not found" false ;;
          ret false)).

End GameplayView.

(* ================================================================== *)
(** ** [tests/base_test.py] *)

Module BaseTest.

(** [setup_method(self, method)] and [teardown_method(self, method)]: the
    body of each is [pass]. *)
Definition setup_method : M unit := ret tt.

Definition teardown_method : M unit := ret tt.

End BaseTest.

(* ================================================================== *)
(** ** [tests/test_main_menu.py] *)

Module TestMainMenu.

(** The attributes of a [TestMainMenu] object: the methods of the class
    and of [BaseTest], and [drivers], which the class fixture sets.  None
    of them is a view. *)
Definition attrs : list (string * option BaseView) :=
  [ ("test_main_menu_loads_successfully", None);
    ("test_can_start_new_game", None);
    ("setup_method", None);
    ("teardown_method", None);
    ("drivers", None) ].

(** [self.<name>], where the test goes on to call a view method on it. *)
Definition getattr_view (name : string) : M BaseView :=
  match assoc name attrs with
  | Some (Some view) => ret view
  | Some None =>
      raise (mk_exn AttributeError ("attribute '" ++ name ++ "' is not a view"))
  | None =>
      raise (mk_exn AttributeError
               ("'TestMainMenu' object has no attribute '" ++ name ++ "'"))
  end.

(** [self.drivers.alt_driver.get_current_scene()] *)
Definition current_scene_of_class (lib : AltLibrary) : M string :=
  w <- get_world ;;
  match cls_drivers w with
  | Some drivers =>
      match alt_driver drivers with
      | Some d => lift_driver (lib_get_current_scene lib d)
      | None =>
          raise (mk_exn AttributeError
                   "'NoneType' object has no attribute 'get_current_scene'")
      end
  | None =>
      raise (mk_exn AttributeError "'NoneType' object has no attribute 'alt_driver'")
  end.

Definition test_main_menu_loads_successfully (lib : AltLibrary) : M unit :=
  Reporter.log "Testing main menu loads successfully" true ;;
  current_scene <- current_scene_of_class lib ;;
  match current_scene with
  | EmptyString =>
      raise (mk_exn AssertionError
               "Game did not launch successfully, expected to have a scene loaded.")
  | String _ _ => ret tt
  end.

Definition test_can_start_new_game (lib : AltLibrary) : M unit :=
  main_menu_view <- getattr_view "main_menu_view" ;;
  MainMenuView.wait_for_main_menu_ready main_menu_view "2" ;;
  main_menu_view <- getattr_view "main_menu_view" ;;
  MainMenuView.start_new_game lib main_menu_view "TestPlayer" ;;
  gameplay_view <- getattr_view "gameplay_view" ;;
  GameplayView.wait_for_gameplay_ready gameplay_view "2" ;;
  gameplay_view <- getattr_view "gameplay_view" ;;
  present <- GameplayView.is_main_character_present gameplay_view ;;
  if present then ret tt
  else raise (mk_exn AssertionError
                "Main character should be present after starting a new game").

End TestMainMenu.

(* ================================================================== *)
(** ** [common/test_configuration.py]: reading the environment *)

(** [os.environ] *)
Definition environ := string -> option string.

(** [os.getenv(name, default)] *)
Definition os_getenv (vars : environ) (name default : string) : string :=
  match vars name with
  | Some value => value
  | None => default
  end.

Definition get_environment_variable_or_default (vars : environ)
    (variable_name default_value : string) : string :=
  let value := os_getenv vars variable_name EmptyString in
  match value with
  | EmptyString => default_value
  | String _ _ => value
  end.

(** [PlatformType(value)]: the member with that value; [None] stands for
    the [ValueError] of a value that no member has. *)
Definition PlatformType_of_value (value : string) : option PlatformType :=
  if String.eqb value "Android" then Some ANDROID
  else if String.eqb value "iOS" then Some IOS
  else if String.eqb value "WebGL" then Some WEBGL
  else None.

(** The class attributes of [TestConfiguration] that are not parsed as
    integers, as the class body computes them from the environment. *)
Definition read_ALT_TESTER_SERVER_URL (vars : environ) : string :=
  os_getenv vars "ALT_TESTER_SERVER_URL" "127.0.0.1".

Definition read_ALT_TESTER_APP_NAME (vars : environ) : string :=
  os_getenv vars "ALT_TESTER_APP_NAME" "__default__".

Definition read_PLATFORM (vars : environ) : option PlatformType :=
  PlatformType_of_value (os_getenv vars "TEST_PLATFORM" "Android").

Definition read_DEVICE_NAME (vars : environ) : string :=
  os_getenv vars "DEVICE_NAME" "android".

Definition read_APP_BUNDLE_ID (vars : environ) : string :=
  os_getenv vars "APP_BUNDLE_ID" "com.example.app".

Definition read_RUNNING_WITH_APPIUM (vars : environ) : bool :=
  String.eqb (PyStr.lower (os_getenv vars "RUN_TESTS_WITH_APPIUM" "false")) "true".

Definition read_RUNNING_WITH_SELENIUM (vars : environ) : bool :=
  String.eqb (PyStr.lower (os_getenv vars "RUN_TESTS_WITH_SELENIUM" "false")) "true".

Definition read_WEBGL_URL (vars : environ) : string :=
  os_getenv vars "WEBGL_URL" "https://example.com/game".

(* ================================================================== *)
(** ** Sample worlds, used to run the embedding *)

Module Sample.

Definition clock0 : Clock :=
  {| now_log := "2025-03-01 09:30:00";
     now_run := "20250301_093000";
     now_run_plain := eq_refl;
     now_epoch := 1740821400%N |}.

Definition world0 : World :=
  {| reporter_alt_driver := None; stdout := []; allure_steps := [];
     allure_attachments := []; fs := fun _ => None; cwd := "/srv/project";
     clock := clock0; events := []; listeners := []; unity_logs := [];
     local_drivers := None; cls_drivers := None |}.

Definition not_found (name : string) : driver_error :=
  mk_driver_error "NotFoundException" ("Object " ++ name ++ " not found").

(** A game whose scene has a [MainMenuPanel] and nothing else. *)
Definition game_find (by_ : By) (value : string) : driver_error + AltObject :=
  if String.eqb value "MainMenuPanel"
  then inr {| obj_name := value; enabled := true; click_answer := None |}
  else inl (not_found value).

Definition alt0 : AltDriver :=
  {| alt_find_object := game_find;
     alt_wait_for_object := fun b v _ _ => game_find b v;
     alt_get_png_screenshot := fun _ => inr "PNG-bytes";
     alt_add_notification_listener := None;
     alt_stop := None |}.

(** The same game, on a connection that fails when it is closed. *)
Definition alt_stop_fails : AltDriver :=
  {| alt_find_object := game_find;
     alt_wait_for_object := fun b v _ _ => game_find b v;
     alt_get_png_screenshot := fun _ => inr "PNG-bytes";
     alt_add_notification_listener := None;
     alt_stop := Some (mk_driver_error "ConnectionError" "connection lost") |}.

Definition appium0 : AppiumDriver := {| appium_quit := None |}.

Definition selenium0 : SeleniumDriver :=
  {| selenium_get := fun _ => None; selenium_quit := None |}.

Definition cfg_android : TestConfiguration :=
  {| ALT_TESTER_SERVER_URL := "127.0.0.1";
     ALT_TESTER_SERVER_PORT := 13000%N;
     ALT_TESTER_APP_NAME := "__default__";
     ALT_TESTER_CONNECT_TIMEOUT := 60%N;
     PLATFORM := ANDROID;
     DEVICE_NAME := "android";
     APP_BUNDLE_ID := "com.example.app";
     RUNNING_WITH_APPIUM := true;
     RUNNING_WITH_SELENIUM := false;
     WEBGL_URL := "https://example.com/game" |}.

Definition cfg_webgl : TestConfiguration :=
  {| ALT_TESTER_SERVER_URL := "127.0.0.1";
     ALT_TESTER_SERVER_PORT := 13000%N;
     ALT_TESTER_APP_NAME := "__default__";
     ALT_TESTER_CONNECT_TIMEOUT := 60%N;
     PLATFORM := WEBGL;
     DEVICE_NAME := "android";
     APP_BUNDLE_ID := "com.example.app";
     RUNNING_WITH_APPIUM := false;
     RUNNING_WITH_SELENIUM := true;
     WEBGL_URL := "https://example.com/game" |}.

(** Every client library answers. *)
Definition env_up : Env :=
  {| new_AltDriver := fun _ _ _ => inr alt0;
     new_appium_Remote := fun _ _ => inr appium0;
     new_Chrome := fun _ => inr selenium0 |}.

(** The game is not reachable; Appium and Chrome answer. *)
Definition env_game_down : Env :=
  {| new_AltDriver := fun _ _ _ =>
       inl (mk_driver_error "ConnectionError" "could not connect to AltTester");
     new_appium_Remote := fun _ _ => inr appium0;
     new_Chrome := fun _ => inr selenium0 |}.

Definition request0 : Request :=
  {| req_cls := Some "TestMainMenu"; req_cls_plain := eq_refl |}.

(** A request without a class. *)
Definition request_no_class : Request := {| req_cls := None; req_cls_plain := I |}.

End Sample.

(* ================================================================== *)
(** ** Vocabulary of the properties

    Functions and relations the statements below are written with; none
    of them is part of the harness. *)

(** *** Stopping and starting drivers *)

(** The stops [stop_all_drivers] has to make for a container, in the order
    of its body, each with the answer the driver will give. *)
Definition stops_planned (drivers : DriverContainer)
  : list (event * option driver_error) :=
  (match alt_driver drivers with
   | Some d => [(EvAltStop, alt_stop d)]
   | None => []
   end ++
   match selenium_driver drivers with
   | Some d => [(EvSeleniumQuit, selenium_quit d)]
   | None => []
   end ++
   match appium_driver drivers with
   | Some d => [(EvAppiumQuit, appium_quit d)]
   | None => []
   end)%list.

(** The stops that are made: up to and including the first that raises. *)
Fixpoint attempted (plan : list (event * option driver_error)) : list event :=
  match plan with
  | [] => []
  | (e, None) :: rest => e :: attempted rest
  | (e, Some _) :: _ => [e]
  end.

Fixpoint first_failure (plan : list (event * option driver_error))
  : option driver_error :=
  match plan with
  | [] => None
  | (_, None) :: rest => first_failure rest
  | (_, Some d) :: _ => Some d
  end.

Definition stop_message (plan : list (event * option driver_error)) : string :=
  match first_failure plan with
  | None => "All drivers stopped successfully"
  | Some d => "Error stopping drivers: " ++ de_msg d
  end.

(** All three drivers started, on a connection that fails to close. *)
Definition all_started_stop_fails : DriverContainer :=
  mkDriverContainer (Some Sample.alt_stop_fails) (Some Sample.appium0)
    (Some Sample.selenium0).

(** The options [start_selenium_driver] gives Chrome. *)
Definition chrome_arguments : list string := ["--no-sandbox"; "--disable-dev-shm-usage"].

(** The calls made to the browser client. *)
Definition browser_event (e : event) : bool :=
  match e with
  | EvChrome _ | EvSeleniumGet _ | EvSeleniumQuit => true
  | _ => false
  end.

(** *** Paths of the log file and of the screenshots *)

Fixpoint last_char (s : string) : option ascii :=
  match s with
  | EmptyString => None
  | String c EmptyString => Some c
  | String _ s' => last_char s'
  end.

Definition log_directory_of (cwd : string) : string :=
  OsPath.join cwd "screenshots-and-logs".

(** The file name the callback of listener [l] computes, and its path. *)
Definition listener_filename (l : LogListener) : string :=
  match cb_cls l with Some name => name | None => "UnknownTest" end
  ++ "-UnityLogs-" ++ cb_timestamp l ++ ".txt".

Definition listener_path (l : LogListener) : string :=
  OsPath.join (cb_log_directory l) (listener_filename l).

(** What one notification adds to the file. *)
Definition log_record (n : Notification) : string :=
  message n ++ nl ++ "StackTrace : " ++ stack_trace n ++ nl.

(** The content of the file at [p], empty when there is none. *)
Definition file_content (f : filesystem) (p : string) : string :=
  match f p with
  | Some (File c) => c
  | _ => EmptyString
  end.

(** The listener [setup_unity_log_listener] registers for [request] in [w]. *)
Definition listener_of (request : Request) (w : World) : LogListener :=
  {| cb_cls := req_cls request;
     cb_timestamp := now_run (clock w);
     cb_log_directory := log_directory_of (cwd w) |}.

(** Two notifications of a game. *)
Definition sample_notification : Notification :=
  {| message := "NullReferenceException: object not set";
     stack_trace := "at Player.Update ()" |}.

(** The path [take_screenshot] writes for the name [filename]. *)
Definition screenshot_path (cwd filename : string) : string :=
  OsPath.join (OsPath.join cwd "screenshots-and-logs") (filename ++ ".png").

(** Does a decimal digit occur in [s]? *)
Definition is_digit (c : ascii) : bool :=
  let n := nat_of_ascii c in ((48 <=? n)%nat && (n <=? 57)%nat)%bool.

Fixpoint has_digit (s : string) : bool :=
  match s with
  | EmptyString => false
  | String c s' => is_digit c || has_digit s'
  end.

(** The exception of the fixture that finds no report of the call. *)
Definition no_rep_call : exn :=
  mk_exn AttributeError "'Function' object has no attribute 'rep_call'".

(** The messages of the two assertions of [BaseView]. *)
Definition find_element_message (name : string) : string :=
  "Element '" ++ name ++ "' was not found. " ++
  "Please verify the element exists in the current scene.".

Definition wait_for_object_message (name : string) (timeout : seconds) : string :=
  "Element '" ++ name ++ "' was not found within " ++ timeout ++ " seconds. " ++
  "Please check if the element exists or if the game loaded correctly.".

(** *** A main menu view on a connected game *)

Definition menu_view : BaseView :=
  MainMenuView.new (mkDriverContainer (Some Sample.alt0) None None).

Definition connected_world : World :=
  set_reporter_alt_driver (Some Sample.alt0) Sample.world0.

(** A test body that waits ten seconds for the play button. *)
Definition test_waits_for_play_button : M unit :=
  wait_for_object menu_view MainMenuView.play_button_locator "10.0" "0.5" ;;
  ret tt.

(** *** Relations between the world before and after a computation *)

Class WorldPreorder (R : World -> World -> Prop) : Prop := {
  R_refl : forall w, R w w;
  R_trans : forall w1 w2 w3, R w1 w2 -> R w2 w3 -> R w1 w3
}.

(** [steady R m]: whatever [m] returns or raises, the world it leaves is
    related by [R] to the world it started in.  For a preorder [R] this is
    preserved by every construct of the embedding. *)
Definition steady (R : World -> World -> Prop) {A} (m : M A) : Prop :=
  forall w, R w (snd (m w)).

(** *** The class fixture *)

Definition cleanup_message : string := "All drivers stopped and cleanup completed.".

(** The line the [finally] block of [setup_drivers] ends with. *)
Definition cleanup_line (c : Clock) : string :=
  Reporter.format_message (now_log c) cleanup_message.

(** The calls that stop a driver. *)
Definition stop_event (e : event) : bool :=
  match e with
  | EvAltStop | EvSeleniumQuit | EvAppiumQuit => true
  | _ => false
  end.

(** What the fixture does to the outside before its last lines: it may
    print, but not the cleanup line; it may call the drivers, but not to
    stop them. *)
Record outward (w w' : World) : Prop := {
  ow_clock : clock w' = clock w;
  ow_cwd : cwd w' = cwd w;
  ow_stdout : exists l, stdout w' = (stdout w ++ l)%list /\
                        Forall (fun s => s <> cleanup_line (clock w)) l;
  ow_events : exists evs, events w' = (events w ++ evs)%list /\
                          forallb (fun e => negb (stop_event e)) evs = true
}.

(** ... and, for everything but the assignment itself, leaves the
    fixture's [drivers] variable alone. *)
Definition harmless (w w' : World) : Prop :=
  outward w w' /\ local_drivers w' = local_drivers w.

(** Computations that leave the files, the log buffer, the report
    attachments and the fixture's variables as they are. *)
Record preserving (w w' : World) : Prop := {
  pv_fs : fs w' = fs w;
  pv_logs : unity_logs w' = unity_logs w;
  pv_attachments : allure_attachments w' = allure_attachments w;
  pv_cwd : cwd w' = cwd w;
  pv_clock : clock w' = clock w;
  pv_local : local_drivers w' = local_drivers w
}.

(** Computations that leave the log buffer as it is. *)
Definition keeps_logs (w w' : World) : Prop := unity_logs w' = unity_logs w.

(** One turn of the loop of the flush, without the pop. *)
Definition attach_unity_log (filename filepath : string) : M unit :=
  try_except
    (let attachment_name := filename in
     Reporter.attach_file_to_allure filepath (Some attachment_name))
    (fun _ => Reporter.log "No Unity logs found." false).

(** The title of the step the [try] block opens. *)
Definition setup_step_title : string :=
  "Initialize Test Configuration and Start All Drivers".

(** The world in which the fixture calls [start_all_drivers]. *)
Definition fixture_start_world (w : World) : World :=
  add_step setup_step_title (set_unity_logs [] (set_local_drivers None w)).

(** What follows [start_all_drivers] in the [try] block. *)
Definition after_start (request : Request) (ns : list Notification)
    (c : DriverContainer) : M unit :=
  setup_unity_log_listener c request ;;
  set_request_cls_drivers request (Some c) ;;
  yield_ (tests_run ns).

(** The records of the notifications [ns], in their order. *)
Fixpoint concat_records (ns : list Notification) : string :=
  match ns with
  | [] => EmptyString
  | n :: ns' => log_record n ++ concat_records ns'
  end.

(** The buffer while one listener is registered: empty, or the one entry
    of its file. *)
Definition buffer_of (l : LogListener) (logged : bool) : pydict :=
  if logged then [(listener_filename l, listener_path l)] else [].

(** [not l], for a list. *)
Definition is_nil {A} (l : list A) : bool :=
  match l with [] => true | _ => false end.

Definition second_notification : Notification :=
  {| message := "Player died"; stack_trace := "at Game.OnDeath ()" |}.

(** *** The views *)

(** What the game answers to the wait a view makes: the object, or nothing
    when there is no driver or the wait fails. *)
Definition wait_answer (self : BaseView) (loc : locator) (timeout interval : seconds)
  : option AltObject :=
  match alt_driver (drivers self) with
  | Some d =>
      match alt_wait_for_object d (fst loc) (snd loc) timeout interval with
      | inr o => Some o
      | inl _ => None
      end
  | None => None
  end.

(** The world after a log line without screenshot. *)
Definition logged (message : string) (w : World) : World :=
  add_step (Reporter.format_message (now_log (clock w)) message)
    (add_stdout (Reporter.format_message (now_log (clock w)) message) w).

(** The world in which a wait that succeeds returns. *)
Definition waited (loc : locator) (w : World) : World :=
  logged ("Waiting for element " ++ snd loc ++ " to be present.")
    (add_step "Wait for object" w).

(** The exception of a lookup through [find_object] on [self]. *)
Definition no_find_object (self : BaseView) : exn :=
  mk_exn AttributeError
    ("'" ++ class_name (view_class_of self) ++
     "' object has no attribute 'find_object'").

(** Computations that make no call that the trace records. *)
Definition same_events (w w' : World) : Prop := events w' = events w.

(** *** The reporter *)

(** The name [take_screenshot] gives the capture. *)
Definition screenshot_name (custom_name : option string) (w : World) : string :=
  or_str custom_name ("screenshot_" ++ str_int (now_epoch (clock w))).

(** Computations that only add to what was printed. *)
Definition stdout_grows (w w' : World) : Prop :=
  exists l, stdout w' = (stdout w ++ l)%list.

(** *** Starting drivers and failing setups *)

(** The capabilities [start_appium_driver] asks Appium for. *)
Definition appium_caps (cfg : TestConfiguration) : list (string * cap_value) :=
  match PLATFORM cfg with
  | ANDROID =>
      [ ("platformName", CapStr "Android");
        ("automationName", CapStr "UiAutomator2");
        ("newCommandTimeout", CapInt 2000%N);
        ("autoGrantPermissions", CapBool true);
        ("deviceName", CapStr (DEVICE_NAME cfg));
        ("appPackage", CapStr (APP_BUNDLE_ID cfg)) ]
  | IOS =>
      [ ("platformName", CapStr "iOS");
        ("deviceName", CapStr (DEVICE_NAME cfg));
        ("bundleId", CapStr (APP_BUNDLE_ID cfg)) ]
  | WEBGL => []
  end.

(** [raises_only m]: every exception [m] raises is an [Exception], the
    kind an [except Exception] clause catches. *)
Definition raises_only {A} (m : M A) : Prop :=
  forall w e w', m w = (Raise e, w') -> is_Exception e = true.

(** Computations that leave the registered primary driver as it is. *)
Definition same_reporter (w w' : World) : Prop :=
  reporter_alt_driver w' = reporter_alt_driver w.

(** The message [pytest.fail] is given for the cause [ex]. *)
Definition setup_failure (ex : exn) : exn :=
  mk_exn Failed ("Exception during driver setup: " ++ str_exn ex).

(** What the flush attaches for a buffer: one attachment for each entry
    whose path holds a file, in the order of the buffer. *)
Definition flush_attachments (f : filesystem) (buffer : pydict) : list attachment :=
  flat_map
    (fun entry =>
       match f (snd entry) with
       | Some (File content) =>
           [ {| att_body := content;
                att_name :=
                  or_str (Some (fst entry))
                    (fst (OsPath.splitext (OsPath.basename (snd entry))));
                att_type :=
                  dict_get Reporter.content_type_map
                    (PyStr.lower (snd (OsPath.splitext (snd entry)))) TEXT |} ]
       | _ => []
       end)
    buffer.

(** *** Paths, the environment and the tests *)

(** A word that [lower()] turns into [true]. *)
Definition spelled_true (value : string) : Prop :=
  exists c1 c2 c3 c4,
    value = String c1 (String c2 (String c3 (String c4 EmptyString))) /\
    (c1 = "t"%char \/ c1 = "T"%char) /\ (c2 = "r"%char \/ c2 = "R"%char) /\
    (c3 = "u"%char \/ c3 = "U"%char) /\ (c4 = "e"%char \/ c4 = "E"%char).

(** Computations that leave the attributes of the test class as they are. *)
Definition same_class (w w' : World) : Prop := cls_drivers w' = cls_drivers w.

(** *** More sample games *)

(** A game whose captures fail. *)
Definition camera_broken : AltDriver :=
  {| alt_find_object := Sample.game_find;
     alt_wait_for_object := fun b v _ _ => Sample.game_find b v;
     alt_get_png_screenshot := fun _ =>
       inl (mk_driver_error "AltException" "screenshot timed out");
     alt_add_notification_listener := None;
     alt_stop := None |}.

(** Appium refuses the session; the game and Chrome answer. *)
Definition env_appium_down : Env :=
  {| new_AltDriver := fun _ _ _ => inr Sample.alt0;
     new_appium_Remote := fun _ _ =>
       inl (mk_driver_error "WebDriverException" "connection refused");
     new_Chrome := fun _ => inr Sample.selenium0 |}.

(** A main menu view on that game, which is also the registered driver. *)
Definition broken_camera_view : BaseView :=
  MainMenuView.new (mkDriverContainer (Some camera_broken) None None).

Definition broken_camera_world : World :=
  set_reporter_alt_driver (Some camera_broken) Sample.world0.

(** A connected game, in a project where [screenshots-and-logs] is a
    regular file. *)
Definition directory_is_file_world : World :=
  set_fs (fs_set "/srv/project/screenshots-and-logs" (File "notes") (fs Sample.world0))
    connected_world.

(** A game that is in its main menu scene. *)
Definition lib_menu_scene : AltLibrary :=
  {| lib_set_text := fun _ _ _ => None;
     lib_get_text := fun o => inr (obj_name o);
     lib_get_world_position := fun _ =>
       inr {| pos_x := "0.0"; pos_y := "1.0"; pos_z := "0.0" |};
     lib_get_current_scene := fun _ => inr "MainMenu" |}.

(* ================================================================== *)
(** ** Properties *)

(** *** Paths and strings *)

Example splitext_txt :
  OsPath.splitext "/srv/project/screenshots-and-logs/a.txt"
  = ("/srv/project/screenshots-and-logs/a", ".txt").
Proof. reflexivity. Qed.

Example splitext_two_dots : OsPath.splitext "logs/x.tar.gz" = ("logs/x.tar", ".gz").
Proof. reflexivity. Qed.

Example splitext_hidden : OsPath.splitext "/home/u/.bashrc" = ("/home/u/.bashrc", EmptyString).
Proof. reflexivity. Qed.

Example splitext_dir_dot : OsPath.splitext "/srv/v1.2/readme" = ("/srv/v1.2/readme", EmptyString).
Proof. reflexivity. Qed.

Example basename_ex : OsPath.basename "/srv/project/run.JSON" = "run.JSON".
Proof. reflexivity. Qed.

Example join_ex :
  OsPath.join "/srv/project" "screenshots-and-logs" = "/srv/project/screenshots-and-logs".
Proof. reflexivity. Qed.

Example join_root : OsPath.join "/" "screenshots-and-logs" = "/screenshots-and-logs".
Proof. reflexivity. Qed.

Example dirname_ex :
  OsPath.dirname "/srv/project/screenshots-and-logs/menu.png"
  = "/srv/project/screenshots-and-logs".
Proof. reflexivity. Qed.

Example dirname_slash_in_name :
  OsPath.dirname "/srv/project/screenshots-and-logs/t[a/b]_Failed.png"
  = "/srv/project/screenshots-and-logs/t[a".
Proof. reflexivity. Qed.

Example dirname_root : OsPath.dirname "/menu.png" = "/".
Proof. reflexivity. Qed.

Example dirname_relative : OsPath.dirname "menu.png" = EmptyString.
Proof. reflexivity. Qed.

Example dirname_doubled : OsPath.dirname "logs//menu.png" = "logs".
Proof. reflexivity. Qed.

Example lower_ex : PyStr.lower ".JSON" = ".json".
Proof. reflexivity. Qed.

Lemma string_app_assoc (a b c : string) : (a ++ b) ++ c = a ++ (b ++ c).
Proof. induction a as [|x a IH]; simpl; [reflexivity | now rewrite IH]. Qed.

Lemma string_app_nil_r (a : string) : a ++ EmptyString = a.
Proof. induction a as [|x a IH]; simpl; [reflexivity | now rewrite IH]. Qed.

Lemma rfind_opt_app (c : ascii) (a b : string) :
  PyStr.rfind_opt c (a ++ b)
  = match PyStr.rfind_opt c b with
    | Some j => Some (String.length a + j)
    | None => PyStr.rfind_opt c a
    end.
Proof.
  induction a as [|x a IH]; simpl.
  - destruct (PyStr.rfind_opt c b); reflexivity.
  - rewrite IH. destruct (PyStr.rfind_opt c b); reflexivity.
Qed.

Lemma drop_length_app (a b : string) : PyStr.drop (String.length a) (a ++ b) = b.
Proof. induction a as [|x a IH]; simpl; [destruct b; reflexivity | exact IH]. Qed.

Lemma rfind_opt_absent (c : ascii) (s : string) :
  occurs c s = false -> PyStr.rfind_opt c s = None.
Proof.
  induction s as [|a s IH]; cbn [occurs PyStr.rfind_opt]; [reflexivity|].
  intros H. apply orb_false_iff in H as [Ha Hs]. now rewrite (IH Hs), Ha.
Qed.

Lemma occurs_app (c : ascii) (a b : string) :
  occurs c (a ++ b) = (occurs c a || occurs c b)%bool.
Proof.
  induction a as [|x a IH]; cbn [occurs append]; [reflexivity|].
  now rewrite IH, orb_assoc.
Qed.

Lemma rfind_app_char (c : ascii) (a b : string) :
  occurs c b = false ->
  PyStr.rfind c (a ++ String c b) = Z.of_nat (String.length a).
Proof.
  intros Hb. unfold PyStr.rfind. rewrite rfind_opt_app.
  cbn [PyStr.rfind_opt]. rewrite (rfind_opt_absent c b Hb), Ascii.eqb_refl.
  now rewrite Nat.add_0_r.
Qed.

Lemma drop_S_length_app (a b : string) (c : ascii) :
  PyStr.drop (S (String.length a)) (a ++ String c b) = b.
Proof. induction a as [|x a IH]; cbn; [destruct b; reflexivity | exact IH]. Qed.

Lemma take_length_app (a b : string) : PyStr.take (String.length a) (a ++ b) = a.
Proof. induction a as [|x a IH]; cbn; [reflexivity | now rewrite IH]. Qed.

Lemma get_length_app (a b : string) (c : ascii) :
  String.get (String.length a) (a ++ String c b) = Some c.
Proof. induction a as [|x a IH]; cbn; [reflexivity | exact IH]. Qed.

Lemma string_length_app (a b : string) :
  String.length (a ++ b) = String.length a + String.length b.
Proof. induction a as [|x a IH]; cbn; [reflexivity | now rewrite IH]. Qed.

Lemma last_char_app (a b : string) :
  b <> EmptyString -> last_char (a ++ b) = last_char b.
Proof.
  intros Hb; induction a as [|c a IH]; simpl; [reflexivity|].
  rewrite <- IH. destruct (a ++ b) eqn:Hab; [|reflexivity].
  destruct a; simpl in Hab; [contradiction|discriminate].
Qed.

Lemma last_char_join (a b : string) :
  b <> EmptyString -> last_char (OsPath.join a b) = last_char b.
Proof.
  intros Hb; unfold OsPath.join.
  destruct (PyStr.startswith OsPath.sep b); [reflexivity|].
  destruct (String.eqb a EmptyString || PyStr.endswith OsPath.sep a)%bool.
  - now apply last_char_app.
  - rewrite (last_char_app a (String OsPath.sep b)) by discriminate.
    simpl. destruct b; [contradiction|reflexivity].
Qed.

Lemma last_char_nonempty (s : string) (c : ascii) : last_char s = Some c -> s <> EmptyString.
Proof. intros H Hs; subst s; discriminate. Qed.

Lemma fs_set_same (p : string) (n : node) (f : filesystem) : fs_set p n f p = Some n.
Proof. unfold fs_set. now rewrite String.eqb_refl. Qed.

Lemma fs_set_other (p q : string) (n : node) (f : filesystem) :
  q <> p -> fs_set p n f q = f q.
Proof. intros H. unfold fs_set. apply String.eqb_neq in H. now rewrite H. Qed.

(** *** What a joined path is made of *)

Lemma last_char_repeat (c x : ascii) (n : nat) :
  last_char (PyStr.repeat c n) = Some x -> x = c.
Proof.
  induction n as [|n IH]; cbn [PyStr.repeat last_char]; [discriminate|].
  destruct n as [|n]; cbn [PyStr.repeat] in *; [congruence | exact IH].
Qed.

Lemma app_repeat_prefix (c : ascii) (a b : string) :
  forall n, a ++ b = PyStr.repeat c n -> a = PyStr.repeat c (String.length a).
Proof.
  induction a as [|x a IH]; intros n H; [reflexivity|].
  destruct n as [|n]; cbn in H; [discriminate|].
  inversion H; subst. cbn. f_equal. now apply (IH n).
Qed.

Lemma rstrip_last (c x : ascii) (a : string) :
  last_char a = Some x -> x <> c -> PyStr.rstrip c a = a.
Proof.
  intros Hlast Hx. induction a as [|y a IH]; [reflexivity|].
  cbn [PyStr.rstrip]. destruct a as [|z a].
  - cbn in *. inversion Hlast; subst.
    apply Ascii.eqb_neq in Hx. now rewrite Hx.
  - rewrite IH by exact Hlast. reflexivity.
Qed.

Lemma rstrip_app_sep (c x : ascii) (a : string) :
  last_char a = Some x -> x <> c ->
  PyStr.rstrip c (a ++ String c EmptyString) = a.
Proof.
  intros Hlast Hx. induction a as [|y a IH]; [discriminate|].
  cbn [append PyStr.rstrip]. destruct a as [|z a].
  - cbn in *. inversion Hlast; subst. rewrite Ascii.eqb_refl.
    apply Ascii.eqb_neq in Hx. now rewrite Hx.
  - rewrite IH by exact Hlast. reflexivity.
Qed.

Lemma endswith_last (c x : ascii) (a : string) :
  last_char a = Some x -> x <> c -> PyStr.endswith c a = false.
Proof.
  intros Hlast Hx. induction a as [|y a IH]; [reflexivity|].
  cbn [PyStr.endswith]. destruct a as [|z a].
  - cbn in Hlast. inversion Hlast; subst. now apply Ascii.eqb_neq.
  - apply IH. exact Hlast.
Qed.

Lemma startswith_absent (c : ascii) (s : string) :
  occurs c s = false -> PyStr.startswith c s = false.
Proof.
  destruct s as [|a s]; [reflexivity|]. cbn [occurs PyStr.startswith].
  intros H. now apply orb_false_iff in H.
Qed.

(** A directory that does not end in a slash and a name without slashes
    are joined by one slash, and [dirname] gives the directory back. *)
Lemma join_plain (dir name : string) (x : ascii) :
  last_char dir = Some x -> x <> "/"%char -> occurs "/"%char name = false ->
  OsPath.join dir name = dir ++ String "/"%char name.
Proof.
  intros Hlast Hx Hname. unfold OsPath.join, OsPath.sep.
  rewrite (startswith_absent _ _ Hname), (endswith_last _ _ _ Hlast Hx).
  destruct dir; [discriminate|reflexivity].
Qed.

Lemma dirname_joined (dir name : string) (x : ascii) :
  last_char dir = Some x -> x <> "/"%char -> occurs "/"%char name = false ->
  OsPath.dirname (dir ++ String "/"%char name) = dir.
Proof.
  intros Hlast Hx Hname. unfold OsPath.dirname, OsPath.sep.
  rewrite (rfind_app_char "/"%char dir name Hname).
  replace (Z.to_nat (Z.of_nat (String.length dir) + 1))
    with (String.length (dir ++ "/")) by (rewrite string_length_app; cbn; lia).
  change (dir ++ String "/"%char name) with (dir ++ "/" ++ name).
  rewrite <- string_app_assoc, take_length_app. cbv zeta.
  assert (Hne : String.eqb (dir ++ "/") EmptyString = false)
    by (apply String.eqb_neq; destruct dir; discriminate).
  assert (Hrep : String.eqb (dir ++ "/")
                   (PyStr.repeat "/"%char (String.length (dir ++ "/"))) = false).
  { apply String.eqb_neq. intros H. apply app_repeat_prefix in H.
    rewrite H in Hlast. apply last_char_repeat in Hlast. contradiction. }
  rewrite Hne, Hrep. cbn [negb andb].
  now apply rstrip_app_sep with (x := x).
Qed.

Lemma dirname_join (dir name : string) (x : ascii) :
  last_char dir = Some x -> x <> "/"%char -> occurs "/"%char name = false ->
  OsPath.dirname (OsPath.join dir name) = dir.
Proof.
  intros Hlast Hx Hname.
  rewrite (join_plain dir name x Hlast Hx Hname).
  now apply dirname_joined with (x := x).
Qed.

Lemma log_directory_last (cwd : string) :
  last_char (log_directory_of cwd) = Some "s"%char.
Proof. unfold log_directory_of. now rewrite last_char_join by discriminate. Qed.

(** The decimal rendering of a number holds no slash. *)
Lemma occurs_string_of_uint (d : Decimal.uint) :
  occurs "/"%char (NilEmpty.string_of_uint d) = false.
Proof. induction d; cbn [NilEmpty.string_of_uint occurs]; auto. Qed.

Lemma occurs_str_int (n : N) : occurs "/"%char (str_int n) = false.
Proof. apply occurs_string_of_uint. Qed.

(** *** Opening a file to write *)

Lemma parent_error_in_directory (f : filesystem) (p : string) :
  f (OsPath.dirname p) = Some Dir -> parent_error f p = None.
Proof.
  intros H. unfold parent_error. cbv zeta. rewrite H.
  now destruct (_ || _)%bool.
Qed.

Lemma open_error_none (f : filesystem) (p : string) :
  f (OsPath.dirname p) = Some Dir -> f p <> Some Dir -> open_error f p = None.
Proof.
  intros Hdir Hp. unfold open_error. rewrite (parent_error_in_directory f p Hdir).
  destruct (f p) as [[c|]|]; [reflexivity | contradiction | reflexivity].
Qed.

Lemma open_error_is_Exception (f : filesystem) (p : string) (e : exn) :
  open_error f p = Some e -> is_Exception e = true.
Proof.
  unfold open_error, parent_error. cbv zeta.
  destruct (_ || _)%bool.
  - destruct (f p) as [[c|]|]; intros H; inversion H; reflexivity.
  - destruct (f (OsPath.dirname p)) as [[c|]|].
    + intros H; inversion H; reflexivity.
    + destruct (f p) as [[c|]|]; intros H; inversion H; reflexivity.
    + intros H; inversion H; reflexivity.
Qed.

(** The table of the reporter agrees with the listing of the
    specification: the [.log] entry falls under its default. *)
Lemma content_type_map_spec (extension : string) :
  dict_get Reporter.content_type_map extension TEXT = spec_content_type extension.
Proof.
  cbv [Reporter.content_type_map dict_get spec_content_type].
  rewrite !(String.eqb_sym extension).
  destruct (String.eqb ".txt" extension); [reflexivity|].
  destruct (String.eqb ".log" extension) eqn:Hlog.
  - apply String.eqb_eq in Hlog; subst extension; reflexivity.
  - reflexivity.
Qed.

(** *** The reporter *)

(** Unfold the monad and the primitive effects, leaving the functions of
    the harness and the string operations folded. *)
Ltac py_step :=
  cbv [bind ret raise try_except try_finally get_world modify allure_step
       print emit lift_driver lift_driver_unit os_path_exists os_makedirs
       read_file append_file write_file allure_attach pytest_fail yield_].

Ltac world_step :=
  cbn [reporter_alt_driver stdout allure_steps allure_attachments fs cwd clock
       events listeners unity_logs local_drivers cls_drivers
       set_reporter_alt_driver add_stdout add_step add_attachment set_fs
       add_event add_listener set_listeners set_unity_logs set_local_drivers set_cls_drivers
       fst snd negb].

Lemma log_false (message : string) :
  Reporter.log message false = Reporter.log_plain message.
Proof. reflexivity. Qed.

Lemma log_plain_run (message : string) (w : World) :
  Reporter.log_plain message w
  = (Ok tt,
     add_step (Reporter.format_message (now_log (clock w)) message)
       (add_stdout (Reporter.format_message (now_log (clock w)) message) w)).
Proof. reflexivity. Qed.

(** C5. With no primary driver registered, [take_screenshot] returns
    normally for every optional name: it prints and records one log line,
    writes no file and attaches nothing. *)
Theorem take_screenshot_no_driver_soft (custom_name : option string) (w : World) :
  reporter_alt_driver w = None ->
  exists w',
    Reporter.take_screenshot custom_name w = (Ok tt, w') /\
    stdout w' = (stdout w ++
      [Reporter.format_message (now_log (clock w))
         "Cannot take screenshot: AltDriver not set"])%list /\
    fs w' = fs w /\
    allure_attachments w' = allure_attachments w /\
    events w' = events w.
Proof.
  intros Hnone.
  unfold Reporter.take_screenshot, bind, get_world; rewrite Hnone.
  rewrite log_plain_run.
  eexists; split; [reflexivity|]; simpl; auto.
Qed.

Lemma take_screenshot_no_driver_soft_witness :
  exists w',
    Reporter.take_screenshot (Some "test_can_start_new_game_Failed") Sample.world0
    = (Ok tt, w') /\
    stdout w' = ["[2025-03-01 09:30:00] Cannot take screenshot: AltDriver not set"] /\
    fs w' = fs Sample.world0 /\
    allure_attachments w' = [] /\
    events w' = [].
Proof.
  exact (take_screenshot_no_driver_soft
           (Some "test_can_start_new_game_Failed") Sample.world0 eq_refl).
Defined.

(** C6. For a path that does not exist, [attach_file_to_allure] returns
    normally for every optional name: it logs that the file was not found
    and attaches nothing. *)
Theorem attach_missing_file_soft (file_path : string) (custom_name : option string)
    (w : World) :
  fs w file_path = None ->
  exists w',
    Reporter.attach_file_to_allure file_path custom_name w = (Ok tt, w') /\
    stdout w' = (stdout w ++
      [Reporter.format_message (now_log (clock w))
         ("Cannot attach file: File not found at " ++ file_path)])%list /\
    allure_attachments w' = allure_attachments w /\
    fs w' = fs w.
Proof.
  intros Hnone.
  unfold Reporter.attach_file_to_allure, allure_step, try_except, bind,
    os_path_exists, get_world, modify, ret; simpl.
  rewrite Hnone; simpl.
  eexists; split; [reflexivity|]; simpl; auto.
Qed.

Lemma attach_missing_file_soft_witness :
  exists w',
    Reporter.attach_file_to_allure "/srv/project/nothing.txt" None Sample.world0
    = (Ok tt, w') /\
    stdout w' =
      ["[2025-03-01 09:30:00] Cannot attach file: File not found at /srv/project/nothing.txt"] /\
    allure_attachments w' = [] /\
    fs w' = fs Sample.world0.
Proof.
  exact (attach_missing_file_soft "/srv/project/nothing.txt" None Sample.world0 eq_refl).
Defined.

(** C9. For a path that holds a file, [attach_file_to_allure] attaches the
    bytes of the file, under the given name or else the base name without
    its extension, with the content type the specification lists for the
    lower-cased extension: text for [.txt], JSON for [.json], XML for
    [.xml], HTML for [.html], CSV for [.csv], text for anything else. *)
Theorem attach_existing_file_content_type (file_path : string)
    (custom_name : option string) (data : string) (w : World) :
  fs w file_path = Some (File data) ->
  exists w',
    Reporter.attach_file_to_allure file_path custom_name w = (Ok tt, w') /\
    allure_attachments w' = (allure_attachments w ++
      [ {| att_body := data;
           att_name :=
             or_str custom_name (fst (OsPath.splitext (OsPath.basename file_path)));
           att_type :=
             spec_content_type (PyStr.lower (snd (OsPath.splitext file_path))) |} ])%list.
Proof.
  intros Hfile.
  unfold Reporter.attach_file_to_allure, Reporter.log_plain.
  py_step; world_step.
  repeat first [rewrite Hfile | progress world_step].
  rewrite content_type_map_spec.
  eexists; split; [reflexivity|]; reflexivity.
Qed.

Lemma attach_existing_file_content_type_witness :
  exists w',
    Reporter.attach_file_to_allure "/srv/project/run.JSON" None
      (set_fs (fs_set "/srv/project/run.JSON" (File "{}") (fs Sample.world0))
         Sample.world0)
    = (Ok tt, w') /\
    allure_attachments w' =
      [ {| att_body := "{}"; att_name := "run"; att_type := JSON |} ].
Proof.
  exact (attach_existing_file_content_type "/srv/project/run.JSON" None "{}"
           (set_fs (fs_set "/srv/project/run.JSON" (File "{}") (fs Sample.world0))
              Sample.world0)
           eq_refl).
Defined.

(** *** The presence checks of the views *)

Lemma driver_error_is_Exception (d : driver_error) :
  is_Exception (exn_of_driver_error d) = true.
Proof. reflexivity. Qed.

(** No view class defines [find_object]: the lookup raises
    [AttributeError] on every view object. *)
Lemma getattr_find_object (self : BaseView) (w : World) :
  getattr self "find_object" w
  = (Raise (mk_exn AttributeError
              ("'" ++ class_name (view_class_of self) ++
               "' object has no attribute 'find_object'")), w).
Proof. destruct self as [[] ?]; reflexivity. Qed.

(** As written, the two visibility checks therefore answer [False] on
    every view and every game. *)
Lemma is_main_menu_visible_false (self : BaseView) (w : World) :
  fst (MainMenuView.is_main_menu_visible self w) = Ok false.
Proof.
  unfold MainMenuView.is_main_menu_visible; py_step.
  rewrite getattr_find_object; reflexivity.
Qed.

Lemma is_game_paused_false (self : BaseView) (w : World) :
  fst (GameplayView.is_game_paused self w) = Ok false.
Proof.
  unfold GameplayView.is_game_paused; py_step.
  rewrite getattr_find_object; reflexivity.
Qed.

(** C10. For every view, locator, game and world, the three boolean checks
    return a bool and do not raise.  [is_object_present] answers [True]
    exactly when the driver found the object, so every exception of the
    lookup (no driver, no such object, a lost connection) gives [False];
    [is_main_menu_visible] and [is_game_paused] give [False] whenever the
    lookup they make raises. *)
Theorem presence_checks_never_raise (self : BaseView) (loc : locator) (w : World) :
  (exists b w',
      is_object_present self loc w = (Ok b, w') /\
      (b = true <->
       exists d o, alt_driver (drivers self) = Some d /\
                   alt_find_object d (fst loc) (snd loc) = inr o)) /\
  (exists b w',
      MainMenuView.is_main_menu_visible self w = (Ok b, w') /\
      ((exists e w1, getattr self "find_object"
                       (add_step "Check if main menu is visible" w) = (Raise e, w1)) ->
       b = false)) /\
  (exists b w',
      GameplayView.is_game_paused self w = (Ok b, w') /\
      ((exists e w1, getattr self "find_object"
                       (add_step "Check if game is paused" w) = (Raise e, w1)) ->
       b = false)).
Proof.
  split; [|split].
  - unfold is_object_present, on_alt_driver; py_step.
    destruct (alt_driver (drivers self)) as [d|] eqn:Hd.
    + destruct (alt_find_object d (fst loc) (snd loc)) as [err|o] eqn:Hfind.
      * cbn. eexists; eexists; split; [reflexivity|].
        split; [discriminate|].
        intros (d' & o' & Hd' & Hfind'). congruence.
      * eexists; eexists; split; [reflexivity|].
        split; [|reflexivity]. intros _. exists d, o. split; [reflexivity|exact Hfind].
    + cbn. eexists; eexists; split; [reflexivity|].
      split; [discriminate|].
      intros (d' & o' & Hd' & _). discriminate.
  - unfold MainMenuView.is_main_menu_visible; py_step.
    rewrite getattr_find_object; cbn.
    eexists; eexists; split; [reflexivity|]. reflexivity.
  - unfold GameplayView.is_game_paused; py_step.
    rewrite getattr_find_object; cbn.
    eexists; eexists; split; [reflexivity|]. reflexivity.
Qed.

Example is_object_present_found :
  fst (is_object_present
         (MainMenuView.new (mkDriverContainer (Some Sample.alt0) None None))
         MainMenuView.main_menu_panel_locator Sample.world0) = Ok true.
Proof. reflexivity. Qed.

Example is_object_present_absent :
  fst (is_object_present
         (MainMenuView.new (mkDriverContainer (Some Sample.alt0) None None))
         MainMenuView.play_button_locator Sample.world0) = Ok false.
Proof. reflexivity. Qed.

(** *** Stopping the drivers *)

(** The world [stop_all_drivers] leaves: the stops made, then one log line. *)
Lemma stop_all_drivers_run (drivers : DriverContainer) (w : World) :
  stop_all_drivers drivers w
  = (Ok tt,
     let w1 := fold_left (fun w e => add_event e w)
                 (attempted (stops_planned drivers)) w in
     let line := Reporter.format_message (now_log (clock w))
                   (stop_message (stops_planned drivers)) in
     add_step line (add_stdout line w1)).
Proof.
  destruct drivers as [[a|] [p|] [s|]];
    unfold stop_all_drivers, stops_planned, stop_message, AltDriver_stop,
      SeleniumDriver_quit, AppiumDriver_quit, Reporter.log;
    cbn [alt_driver selenium_driver appium_driver];
    try destruct (alt_stop a); try destruct (selenium_quit s);
    try destruct (appium_quit p); reflexivity.
Qed.

Lemma events_fold_add_event (evs : list event) (w : World) :
  events (fold_left (fun w e => add_event e w) evs w) = (events w ++ evs)%list.
Proof.
  revert w; induction evs as [|e evs IH]; intros w; simpl.
  - now rewrite app_nil_r.
  - rewrite IH; simpl. now rewrite <- app_assoc.
Qed.

Lemma stdout_fold_add_event (evs : list event) (w : World) :
  stdout (fold_left (fun w e => add_event e w) evs w) = stdout w.
Proof. revert w; induction evs as [|e evs IH]; intros w; simpl; [|rewrite IH]; reflexivity. Qed.

(** C1 (as the code has it).  [stop_all_drivers] never raises.  It attempts
    the stops in the order primary, selenium, appium and gives up at the
    first one that raises: the drivers before it have been stopped, the
    ones after it are not attempted, and the failure is logged, not
    re-raised.  When no stop raises, every started driver is stopped. *)
Theorem stop_all_drivers_until_first_failure (drivers : DriverContainer) (w : World) :
  exists w',
    stop_all_drivers drivers w = (Ok tt, w') /\
    events w' = (events w ++ attempted (stops_planned drivers))%list /\
    stdout w' = (stdout w ++
      [Reporter.format_message (now_log (clock w))
         (stop_message (stops_planned drivers))])%list /\
    (first_failure (stops_planned drivers) = None ->
     attempted (stops_planned drivers) = map fst (stops_planned drivers)).
Proof.
  rewrite stop_all_drivers_run.
  eexists; split; [reflexivity|].
  cbn [add_step add_stdout events stdout].
  rewrite events_fold_add_event, stdout_fold_add_event.
  repeat split.
  generalize (stops_planned drivers) as plan.
  induction plan as [|[e [d|]] plan IH]; simpl; intros H.
  - reflexivity.
  - discriminate.
  - now rewrite IH.
Qed.

(** C1 (as stated) fails: with all three drivers started and a primary
    driver whose [stop] raises, neither [quit] is attempted. *)
Lemma stop_all_drivers_not_independent :
  let drivers := all_started_stop_fails in
  let w' := snd (stop_all_drivers drivers Sample.world0) in
  alt_stop Sample.alt_stop_fails <> None /\
  selenium_driver drivers <> None /\
  appium_driver drivers <> None /\
  events w' = [EvAltStop] /\
  ~ In EvSeleniumQuit (events w') /\
  ~ In EvAppiumQuit (events w') /\
  stdout w' = ["[2025-03-01 09:30:00] Error stopping drivers: connection lost"].
Proof.
  cbv zeta.
  repeat split; try discriminate;
    try (intros [H|[]]; discriminate).
Qed.

(** *** Starting the drivers *)

Lemma PlatformType_eqb_eq (p q : PlatformType) : PlatformType_eqb p q = true <-> p = q.
Proof. destruct p, q; simpl; split; congruence. Qed.

(** [start_selenium_driver] returns a handle exactly on WebGL, and then it
    has created Chrome and navigated it to [WEBGL_URL]. *)
Lemma start_selenium_driver_run (cfg : TestConfiguration) (env : Env) (w : World)
    (r : option SeleniumDriver) (w' : World) :
  start_selenium_driver cfg env w = (Ok r, w') ->
  (r <> None <-> PLATFORM cfg = WEBGL) /\
  (forall d, r = Some d ->
     events w' = (events w ++ [EvChrome chrome_arguments;
                               EvSeleniumGet (WEBGL_URL cfg)])%list /\
     new_Chrome env chrome_arguments = inr d /\
     selenium_get d (WEBGL_URL cfg) = None) /\
  (r = None -> events w' = events w).
Proof.
  unfold start_selenium_driver, SeleniumDriver_get, Reporter.log, chrome_arguments.
  py_step.
  destruct (PlatformType_eqb (PLATFORM cfg) WEBGL) eqn:Hp.
  - apply PlatformType_eqb_eq in Hp.
    destruct (new_Chrome env _) as [err|d] eqn:Hnew; [discriminate|].
    destruct (selenium_get d (WEBGL_URL cfg)) as [err|] eqn:Hget; [discriminate|].
    intros H; inversion H; subst; clear H.
    split; [split; [auto|discriminate]|].
    split; [|discriminate].
    intros d' Hd'; inversion Hd'; subst d'.
    cbn [events add_event add_step add_stdout].
    rewrite <- app_assoc. auto.
  - intros H; inversion H; subst; clear H.
    assert (PLATFORM cfg <> WEBGL)
      by (intros Heq; apply PlatformType_eqb_eq in Heq; congruence).
    split; [split; [congruence|contradiction]|].
    split; [discriminate|reflexivity].
Qed.

Lemma start_appium_driver_events (cfg : TestConfiguration) (env : Env) (w : World) :
  exists evs,
    events (snd (start_appium_driver cfg env w)) = (events w ++ evs)%list /\
    forallb (fun e => negb (browser_event e)) evs = true.
Proof.
  unfold start_appium_driver, appium_Remote, Reporter.log; py_step.
  destruct (PlatformType_eqb (PLATFORM cfg) ANDROID);
    [|destruct (PlatformType_eqb (PLATFORM cfg) IOS)];
    try destruct (new_appium_Remote env _ _);
    cbn [snd events add_event add_step add_stdout];
    first [ exists []; rewrite app_nil_r; split; reflexivity
          | eexists [_]; split; reflexivity ].
Qed.

Lemma start_alttester_driver_events (cfg : TestConfiguration) (env : Env) (w : World) :
  events (snd (start_alttester_driver cfg env w))
  = (events w ++ [EvAltConnect (ALT_TESTER_SERVER_URL cfg)
                    (ALT_TESTER_SERVER_PORT cfg) (ALT_TESTER_APP_NAME cfg)])%list.
Proof.
  unfold start_alttester_driver, AltDriver_new, Reporter.log; py_step.
  destruct (new_AltDriver env _ _ _); reflexivity.
Qed.

(** C8. Whenever [start_all_drivers] returns its container, the selenium
    handle in it is not [None] if and only if [RUNNING_WITH_SELENIUM] is set
    and the platform is WebGL; and then the handle is the Chrome driver that
    was created and navigated to [WEBGL_URL], the only two calls made to the
    browser client. *)
Theorem selenium_handle_iff_enabled_webgl (cfg : TestConfiguration) (env : Env)
    (w : World) (c : DriverContainer) (w' : World) :
  start_all_drivers cfg env w = (Ok c, w') ->
  (selenium_driver c <> None <->
   RUNNING_WITH_SELENIUM cfg = true /\ PLATFORM cfg = WEBGL) /\
  (forall d, selenium_driver c = Some d ->
     new_Chrome env chrome_arguments = inr d /\
     selenium_get d (WEBGL_URL cfg) = None /\
     exists pre post,
       events w' = (events w ++ pre ++
                    [EvChrome chrome_arguments; EvSeleniumGet (WEBGL_URL cfg)] ++
                    post)%list /\
       forallb (fun e => negb (browser_event e)) (pre ++ post) = true).
Proof.
  unfold start_all_drivers, Reporter.log at 1 2 3 4 5; py_step.
  set (w4 := add_step _ (add_stdout _ (add_step _ (add_stdout _
               (add_step _ (add_stdout _ (add_step _ (add_stdout _ w)))))))).
  assert (Hw4 : events w4 = events w) by reflexivity.
  clearbody w4.
  pose proof (start_appium_driver_events cfg env w4) as (pre & Hpre & Hpre_ok).
  assert (Happ : exists pre', events
            (snd ((if RUNNING_WITH_APPIUM cfg then start_appium_driver cfg env
                   else fun w => (Ok None, w)) w4)) = (events w ++ pre')%list /\
            forallb (fun e => negb (browser_event e)) pre' = true).
  { destruct (RUNNING_WITH_APPIUM cfg).
    - exists pre. now rewrite Hpre, Hw4.
    - exists []. cbn [snd]. now rewrite app_nil_r, Hw4. }
  destruct Happ as (pre' & Hpre' & Hpre'_ok).
  destruct ((if RUNNING_WITH_APPIUM cfg then start_appium_driver cfg env
             else fun w => (Ok None, w)) w4) as [[ra|ea] wa]; [|discriminate].
  cbn [snd] in Hpre'.
  destruct (RUNNING_WITH_SELENIUM cfg) eqn:Hsel.
  - destruct (start_selenium_driver cfg env wa) as [[rs|es] ws] eqn:Hrun; [|discriminate].
    apply start_selenium_driver_run in Hrun as (Hiff & Hsome & Hnone).
    pose proof (start_alttester_driver_events cfg env ws) as Halt.
    destruct (start_alttester_driver cfg env ws) as [[a|e] wt]; [|discriminate].
    cbn [snd] in Halt.
    intros H; inversion H; subst; clear H.
    cbn [selenium_driver].
    split; [rewrite Hiff; tauto|].
    intros d Hd. destruct (Hsome d Hd) as (Hev & Hnew & Hget).
    split; [exact Hnew|]. split; [exact Hget|].
    exists pre', [EvAltConnect (ALT_TESTER_SERVER_URL cfg)
                    (ALT_TESTER_SERVER_PORT cfg) (ALT_TESTER_APP_NAME cfg)].
    cbn [events add_step add_stdout].
    rewrite Halt, Hev, Hpre'. rewrite <- !app_assoc. split; [reflexivity|].
    rewrite forallb_app, Hpre'_ok. reflexivity.
  - destruct (start_alttester_driver cfg env wa) as [[a|e] wt]; [|discriminate].
    intros H; inversion H; subst; clear H.
    cbn [selenium_driver].
    split; [split; [congruence|intros [? _]; discriminate]|].
    discriminate.
Qed.

Lemma selenium_handle_iff_enabled_webgl_witness :
  exists c w',
    start_all_drivers Sample.cfg_webgl Sample.env_up Sample.world0 = (Ok c, w') /\
    selenium_driver c = Some Sample.selenium0 /\
    events w' = [EvChrome chrome_arguments;
                 EvSeleniumGet "https://example.com/game";
                 EvAltConnect "127.0.0.1" 13000%N "__default__"] /\
    (selenium_driver c <> None <->
     RUNNING_WITH_SELENIUM Sample.cfg_webgl = true /\
     PLATFORM Sample.cfg_webgl = WEBGL).
Proof.
  eexists; eexists.
  split; [vm_compute; reflexivity|].
  split; [reflexivity|].
  split; [reflexivity|].
  refine (proj1 (selenium_handle_iff_enabled_webgl Sample.cfg_webgl Sample.env_up
                   Sample.world0 _ _ _)).
  vm_compute; reflexivity.
Defined.

Example selenium_disabled_on_android :
  exists c w',
    start_all_drivers Sample.cfg_android Sample.env_up Sample.world0 = (Ok c, w') /\
    selenium_driver c = None /\ appium_driver c = Some Sample.appium0.
Proof. eexists; eexists; split; [vm_compute; reflexivity|]; split; reflexivity. Qed.

(** *** The log file of a run *)

Lemma listener_filename_last (l : LogListener) :
  last_char (listener_filename l) = Some "t"%char.
Proof.
  unfold listener_filename.
  rewrite last_char_app by discriminate.
  change ("-UnityLogs-" ++ cb_timestamp l ++ ".txt")
    with (("-UnityLogs-" ++ cb_timestamp l) ++ ".txt").
  now rewrite last_char_app by discriminate.
Qed.

Lemma listener_path_not_directory (l : LogListener) (cwd : string) :
  cb_log_directory l = log_directory_of cwd ->
  listener_path l <> cb_log_directory l.
Proof.
  intros Hdir Heq.
  assert (Hlast : last_char (listener_path l) = Some "t"%char).
  { unfold listener_path. rewrite last_char_join.
    - apply listener_filename_last.
    - intros Hempty. pose proof (listener_filename_last l) as H.
      rewrite Hempty in H. discriminate. }
  rewrite Heq, Hdir in Hlast. unfold log_directory_of in Hlast.
  rewrite last_char_join in Hlast by discriminate.
  discriminate.
Qed.

(** One notification, when the file of the listener can be opened: the
    record is appended and the file is entered in the buffer. *)
Lemma log_callback_run (l : LogListener) (n : Notification) (w : World) :
  open_error (fs w) (listener_path l) = None ->
  log_callback l n w
  = (Ok tt,
     let w1 := set_fs (fs_set (listener_path l)
                         (File (file_content (fs w) (listener_path l) ++ log_record n))
                         (fs w)) w in
     if dict_mem (listener_filename l) (unity_logs w) then w1
     else set_unity_logs
            (dict_setitem (listener_filename l) (listener_path l) (unity_logs w)) w1).
Proof.
  intros Hopen.
  unfold log_callback; py_step.
  fold (listener_filename l). fold (listener_path l). fold (log_record n).
  rewrite Hopen. unfold file_content. world_step.
  destruct (dict_mem (listener_filename l) (unity_logs w)); reflexivity.
Qed.

(** One notification, when the file cannot be opened: it is dropped and
    the failure is logged. *)
Lemma log_callback_dropped (l : LogListener) (n : Notification) (w : World) (e : exn) :
  open_error (fs w) (listener_path l) = Some e ->
  log_callback l n w = (Ok tt, logged ("Error saving Unity log: " ++ exn_msg e) w).
Proof.
  intros Hopen.
  unfold log_callback; py_step.
  fold (listener_filename l). fold (listener_path l). fold (log_record n).
  rewrite Hopen, (open_error_is_Exception _ _ _ Hopen). reflexivity.
Qed.

Lemma setup_unity_log_listener_run (drivers : DriverContainer) (request : Request)
    (d : AltDriver) (w w1 : World) :
  alt_driver drivers = Some d ->
  setup_unity_log_listener drivers request w = (Ok tt, w1) ->
  listeners w1 = (listeners w ++ [listener_of request w])%list /\
  (fs w1 = fs w \/
   fs w1 = fs_set (log_directory_of (cwd w)) Dir (fs w)) /\
  unity_logs w1 = unity_logs w /\
  local_drivers w1 = local_drivers w /\
  allure_attachments w1 = allure_attachments w /\
  clock w1 = clock w /\ cwd w1 = cwd w /\
  events w1 = (events w ++ [EvAltAddListener])%list.
Proof.
  intros Hd. unfold setup_unity_log_listener, Reporter.log. rewrite Hd.
  py_step; world_step. fold (log_directory_of (cwd w)).
  destruct (fs w (log_directory_of (cwd w))) as [[c|]|]; world_step;
    try discriminate;
    destruct (alt_add_notification_listener d); try discriminate;
    intros H; inversion H; subst; clear H; world_step;
    repeat split; auto.
Qed.

(** Once the listener is set up, the log directory is there. *)
Lemma setup_unity_log_listener_directory (drivers : DriverContainer)
    (request : Request) (d : AltDriver) (w w1 : World) :
  alt_driver drivers = Some d ->
  setup_unity_log_listener drivers request w = (Ok tt, w1) ->
  fs w1 (log_directory_of (cwd w)) = Some Dir.
Proof.
  intros Hd. unfold setup_unity_log_listener, Reporter.log. rewrite Hd.
  py_step; world_step. fold (log_directory_of (cwd w)).
  destruct (fs w (log_directory_of (cwd w))) as [[c|]|] eqn:Hdir; world_step;
    try discriminate;
    destruct (alt_add_notification_listener d); try discriminate;
    intros H; inversion H; subst; clear H; world_step;
    [exact Hdir | apply fs_set_same].
Qed.

(** The name of the log file holds no slash: the log file is a child of
    the log directory. *)
Lemma listener_filename_plain (request : Request) (w : World) :
  occurs "/"%char (listener_filename (listener_of request w)) = false.
Proof.
  unfold listener_filename, listener_of. cbn [cb_cls cb_timestamp].
  pose proof (req_cls_plain request) as Hcls.
  rewrite !occurs_app, (now_run_plain (clock w)).
  destruct (req_cls request) as [name|]; [rewrite Hcls|]; reflexivity.
Qed.

Lemma listener_path_parent (request : Request) (w : World) :
  OsPath.dirname (listener_path (listener_of request w)) = log_directory_of (cwd w).
Proof.
  unfold listener_path. cbn [cb_log_directory listener_of].
  apply dirname_join with (x := "s"%char);
    [apply log_directory_last | discriminate | apply listener_filename_plain].
Qed.

(** Creating the log directory does not touch the log file of the run. *)
Lemma log_file_after_setup (request : Request) (w w1 : World) :
  fs w1 = fs w \/ fs w1 = fs_set (log_directory_of (cwd w)) Dir (fs w) ->
  fs w1 (listener_path (listener_of request w))
  = fs w (listener_path (listener_of request w)).
Proof.
  intros [H|H]; rewrite H; [reflexivity|].
  apply fs_set_other.
  apply (listener_path_not_directory (listener_of request w) (cwd w)).
  reflexivity.
Qed.

(** C4 (as the code has it).  After [setup_unity_log_listener] has
    registered its callback for the class [cls], a notification is appended
    to the file [{cls}-UnityLogs-{timestamp}.txt] in the directory
    [screenshots-and-logs] of the working directory, [timestamp] being the
    time of the setup; no other file is written. *)
Theorem unity_log_file_named (drivers : DriverContainer) (request : Request)
    (d : AltDriver) (cls : string) (w w1 : World) (n : Notification) :
  alt_driver drivers = Some d ->
  req_cls request = Some cls ->
  listeners w = [] ->
  setup_unity_log_listener drivers request w = (Ok tt, w1) ->
  let path :=
    OsPath.join (OsPath.join (cwd w) "screenshots-and-logs")
      (cls ++ "-UnityLogs-" ++ now_run (clock w) ++ ".txt") in
  fs w path <> Some Dir ->
  exists w2,
    tests_run [n] w1 = (Ok tt, w2) /\
    fs w2 path = Some (File (file_content (fs w) path ++ log_record n)) /\
    (forall q, q <> path -> fs w2 q = fs w1 q).
Proof.
  intros Hd Hcls Hls Hsetup path Hnodir.
  destruct (setup_unity_log_listener_run _ _ _ _ _ Hd Hsetup)
    as (Hl & Hfs & Hlogs & _).
  assert (Hpath : listener_path (listener_of request w) = path).
  { unfold listener_path, listener_of, listener_filename; cbn [cb_cls cb_timestamp
      cb_log_directory]. now rewrite Hcls. }
  pose proof (log_file_after_setup request w w1 Hfs) as Hsame.
  rewrite Hpath in Hsame.
  unfold tests_run; py_step. rewrite Hl, Hls. cbn [app notify]. py_step.
  rewrite log_callback_run.
  2: { apply open_error_none.
       - rewrite listener_path_parent.
         exact (setup_unity_log_listener_directory _ _ _ _ _ Hd Hsetup).
       - rewrite Hpath, Hsame. exact Hnodir. }
  rewrite Hpath.
  eexists; split; [reflexivity|].
  unfold file_content. rewrite Hsame.
  destruct (dict_mem _ _); world_step.
  all: split; [apply fs_set_same | intros q Hq; now apply fs_set_other].
Qed.

Lemma unity_log_file_named_witness :
  exists w2,
    tests_run [sample_notification]
      (snd (setup_unity_log_listener
              (mkDriverContainer (Some Sample.alt0) None None)
              Sample.request0 Sample.world0))
    = (Ok tt, w2) /\
    fs w2 "/srv/project/screenshots-and-logs/TestMainMenu-UnityLogs-20250301_093000.txt"
    = Some (File ("NullReferenceException: object not set" ++ nl ++
                  "StackTrace : at Player.Update ()" ++ nl)).
Proof.
  destruct (unity_log_file_named
              (mkDriverContainer (Some Sample.alt0) None None)
              Sample.request0 Sample.alt0 "TestMainMenu" Sample.world0
              (snd (setup_unity_log_listener
                      (mkDriverContainer (Some Sample.alt0) None None)
                      Sample.request0 Sample.world0))
              sample_notification eq_refl eq_refl eq_refl)
    as (w2 & Hrun & Hfile & _).
  - vm_compute; reflexivity.
  - vm_compute; discriminate.
  - exists w2. split; [exact Hrun|exact Hfile].
Defined.

(** C4 (as stated) fails: the file of the run is not named
    [{testClassName}-Logs-{runTimestamp}.txt]. *)
Lemma log_file_not_named_Logs :
  let w := snd (setup_drivers Sample.cfg_webgl Sample.env_up Sample.request0
                  [sample_notification] Sample.world0) in
  fs w "/srv/project/screenshots-and-logs/TestMainMenu-Logs-20250301_093000.txt"
  = None /\
  fs w "/srv/project/screenshots-and-logs/TestMainMenu-UnityLogs-20250301_093000.txt"
  = Some (File (log_record sample_notification)) /\
  forall q, fs w q <> None ->
    q = "/srv/project/screenshots-and-logs" \/
    q = "/srv/project/screenshots-and-logs/TestMainMenu-UnityLogs-20250301_093000.txt".
Proof.
  cbv zeta. split; [vm_compute; reflexivity|]. split; [vm_compute; reflexivity|].
  intros q. 
  set (w := snd _).
  assert (Hfs : fs w = fs_set
            "/srv/project/screenshots-and-logs/TestMainMenu-UnityLogs-20250301_093000.txt"
            (File (log_record sample_notification))
            (fs_set "/srv/project/screenshots-and-logs" Dir (fun _ => None)))
    by (vm_compute; reflexivity).
  rewrite Hfs. unfold fs_set.
  destruct (String.eqb_spec q
    "/srv/project/screenshots-and-logs/TestMainMenu-UnityLogs-20250301_093000.txt");
    [auto|].
  destruct (String.eqb_spec q "/srv/project/screenshots-and-logs"); [auto|].
  intros H; contradiction.
Qed.

(** *** Screenshots and failing lookups *)

(** [take_screenshot] returns normally whatever happens inside it: every
    exception of its body is an [Exception] and is logged. *)
Lemma take_screenshot_total (custom_name : option string) (w : World) :
  exists w', Reporter.take_screenshot custom_name w = (Ok tt, w').
Proof.
  unfold Reporter.take_screenshot, Reporter.get_png_screenshot, Reporter.log_plain.
  py_step.
  destruct (reporter_alt_driver w) as [d|]; [|eexists; reflexivity].
  destruct (fs w (OsPath.join (cwd w) Reporter.screenshots_dirname)) as [[c|]|]
    eqn:Hdir; world_step; rewrite ?Hdir; world_step.
  all: match goal with
       | |- context [alt_get_png_screenshot ?d' ?p] =>
           destruct (alt_get_png_screenshot d' p) as [err|data]
       end; world_step; try (eexists; reflexivity).
  all: match goal with
       | |- context [open_error ?f ?p] =>
           destruct (open_error f p) as [e|] eqn:Hopen;
           [rewrite (open_error_is_Exception _ _ _ Hopen)|]
       end; world_step; try (eexists; reflexivity).
  all: rewrite fs_set_same; world_step; eexists; reflexivity.
Qed.

Lemma log_total (message : string) (with_screenshot : bool) (w : World) :
  exists w', Reporter.log message with_screenshot w = (Ok tt, w').
Proof.
  unfold Reporter.log; py_step.
  destruct with_screenshot; [|eexists; reflexivity].
  destruct (take_screenshot_total None
              (add_step (Reporter.format_message (now_log (clock w)) message)
                 (add_stdout (Reporter.format_message (now_log (clock w)) message) w)))
    as (w' & H).
  rewrite H. eexists; reflexivity.
Qed.

Lemma or_str_some (s y : string) : s <> EmptyString -> or_str (Some s) y = s.
Proof. destruct s; [contradiction|reflexivity]. Qed.

Lemma screenshot_path_not_directory (cwd filename : string) :
  screenshot_path cwd filename <> OsPath.join cwd "screenshots-and-logs".
Proof.
  intros Heq.
  assert (Hpng : last_char (filename ++ ".png") = Some "g"%char)
    by (now rewrite last_char_app by discriminate).
  assert (Hlast : last_char (screenshot_path cwd filename) = Some "g"%char).
  { unfold screenshot_path. rewrite last_char_join; [exact Hpng|].
    now apply last_char_nonempty with (c := "g"%char). }
  rewrite Heq, last_char_join in Hlast by discriminate.
  discriminate.
Qed.

(** The path of a capture whose name holds no slash is a child of the
    directory of the screenshots. *)
Lemma screenshot_path_parent (cwd filename : string) :
  occurs "/"%char filename = false ->
  OsPath.dirname (screenshot_path cwd filename) = log_directory_of cwd.
Proof.
  intros Hplain. unfold screenshot_path. fold (log_directory_of cwd).
  apply dirname_join with (x := "s"%char);
    [apply log_directory_last | discriminate |].
  rewrite occurs_app, Hplain. reflexivity.
Qed.

(** With a registered driver that answers, a name without slashes, a
    directory of the screenshots that is there or can be made, and a path
    that is not a directory, the capture is saved and attached. *)
Lemma take_screenshot_saves (custom_name : option string) (d : AltDriver)
    (data : string) (w : World) :
  reporter_alt_driver w = Some d ->
  occurs "/"%char (screenshot_name custom_name w) = false ->
  (forall content, fs w (log_directory_of (cwd w)) <> Some (File content)) ->
  alt_get_png_screenshot d (screenshot_path (cwd w) (screenshot_name custom_name w))
  = inr data ->
  fs w (screenshot_path (cwd w) (screenshot_name custom_name w)) <> Some Dir ->
  exists w',
    Reporter.take_screenshot custom_name w = (Ok tt, w') /\
    fs w' (screenshot_path (cwd w) (screenshot_name custom_name w))
    = Some (File data) /\
    allure_attachments w' = (allure_attachments w ++
      [ {| att_body := data; att_name := screenshot_name custom_name w;
           att_type := PNG |} ])%list /\
    fs w' (log_directory_of (cwd w)) = Some Dir.
Proof.
  intros Hd Hplain Hdirok Hpng Hnodir.
  assert (Hne : screenshot_path (cwd w) (screenshot_name custom_name w)
                <> OsPath.join (cwd w) "screenshots-and-logs")
    by apply screenshot_path_not_directory.
  assert (Hne' : OsPath.join (cwd w) "screenshots-and-logs"
                 <> screenshot_path (cwd w) (screenshot_name custom_name w))
    by (intros H; now apply Hne).
  pose proof (screenshot_path_parent (cwd w) _ Hplain) as Hparent.
  unfold log_directory_of in Hparent, Hdirok.
  unfold Reporter.take_screenshot, Reporter.get_png_screenshot.
  py_step. rewrite Hd. unfold Reporter.screenshots_dirname.
  destruct (fs w (OsPath.join (cwd w) "screenshots-and-logs")) as [[c|]|] eqn:Hdir;
    [now elim (Hdirok c) | |];
    world_step; rewrite ?Hdir; world_step;
    fold (screenshot_name custom_name w);
    fold (screenshot_path (cwd w) (screenshot_name custom_name w));
    rewrite Hpng; world_step.
  - rewrite open_error_none by (rewrite ?Hparent; assumption).
    world_step. rewrite fs_set_same. world_step.
    eexists; (split; [reflexivity|]); world_step.
    split; [apply fs_set_same|]. split; [reflexivity|].
    unfold log_directory_of. now rewrite (fs_set_other _ _ _ (fs w) Hne').
  - rewrite open_error_none.
    2: { rewrite Hparent. apply fs_set_same. }
    2: { rewrite (fs_set_other _ _ Dir (fs w) Hne). exact Hnodir. }
    world_step. rewrite fs_set_same. world_step.
    eexists; (split; [reflexivity|]); world_step.
    split; [apply fs_set_same|]. split; [reflexivity|].
    unfold log_directory_of. rewrite (fs_set_other _ _ _ _ Hne'). apply fs_set_same.
Qed.

Lemma take_screenshot_run (filename : string) (d : AltDriver) (data : string)
    (w : World) :
  filename <> EmptyString ->
  occurs "/"%char filename = false ->
  reporter_alt_driver w = Some d ->
  (forall content, fs w (log_directory_of (cwd w)) <> Some (File content)) ->
  alt_get_png_screenshot d (screenshot_path (cwd w) filename) = inr data ->
  fs w (screenshot_path (cwd w) filename) <> Some Dir ->
  exists w',
    Reporter.take_screenshot (Some filename) w = (Ok tt, w') /\
    fs w' (screenshot_path (cwd w) filename) = Some (File data) /\
    allure_attachments w' = (allure_attachments w ++
      [ {| att_body := data; att_name := filename; att_type := PNG |} ])%list.
Proof.
  intros Hname Hplain Hd Hdirok Hpng Hnodir.
  assert (Hn : screenshot_name (Some filename) w = filename)
    by (apply or_str_some; exact Hname).
  pose proof (take_screenshot_saves (Some filename) d data w Hd) as H.
  rewrite Hn in H.
  destruct (H Hplain Hdirok Hpng Hnodir) as (w' & Hrun & Hfile & Hatt & _).
  exists w'. auto.
Qed.

Lemma find_element_absent (self : BaseView) (d : AltDriver) (loc : locator)
    (err : driver_error) (w : World) :
  alt_driver (drivers self) = Some d ->
  alt_find_object d (fst loc) (snd loc) = inl err ->
  exists w',
    find_element self loc w
    = (Raise (mk_exn AssertionError (find_element_message (snd loc))), w').
Proof.
  intros Hd Hfind. unfold find_element, on_alt_driver. rewrite Hd, Hfind.
  py_step. cbn [exn_of_driver_error is_Exception exn_cls].
  match goal with
  | |- context [Reporter.log ?m true ?w0] =>
      destruct (log_total m true w0) as (w1 & Hlog); rewrite Hlog
  end.
  eexists; reflexivity.
Qed.

Lemma wait_for_object_absent (self : BaseView) (d : AltDriver) (loc : locator)
    (timeout interval : seconds) (err : driver_error) (w : World) :
  alt_driver (drivers self) = Some d ->
  alt_wait_for_object d (fst loc) (snd loc) timeout interval = inl err ->
  exists w',
    wait_for_object self loc timeout interval w
    = (Raise (mk_exn AssertionError (wait_for_object_message (snd loc) timeout)), w').
Proof.
  intros Hd Hwait. unfold wait_for_object, on_alt_driver. rewrite Hd, Hwait.
  unfold Reporter.log at 1.
  py_step. cbn [exn_of_driver_error is_Exception exn_cls].
  match goal with
  | |- context [Reporter.log ?m true ?w0] =>
      destruct (log_total m true w0) as (w1 & Hlog); rewrite Hlog
  end.
  eexists; reflexivity.
Qed.

(** The per-test fixture, by what pytest reported while it was suspended:
    without a report of the call it raises, after a call that did not fail
    it does nothing, after one that failed it takes the screenshot. *)
Lemma auto_screenshot_on_failure_cases (verdict : Verdict) (node_name : string)
    (later_setup test_body : M unit) (w : World) :
  auto_screenshot_on_failure verdict node_name later_setup test_body w
  = match later_setup w with
    | (setup_result, w1) =>
        match verdict Setup setup_result with
        | outcome_passed =>
            match test_body w1 with
            | (call_result, w2) =>
                match verdict Call call_result with
                | outcome_failed =>
                    Reporter.take_screenshot (Some (node_name ++ "_Failed")) w2
                | _ => (Ok tt, w2)
                end
            end
        | _ => (Raise no_rep_call, w1)
        end
    end.
Proof.
  unfold auto_screenshot_on_failure, run_until_teardown, bind, passed.
  destruct (later_setup w) as [setup_result w1]. cbn [outcome].
  destruct (verdict Setup setup_result); try reflexivity.
  destruct (test_body w1) as [call_result w2].
  cbn [pytest_runtest_makereport when get_rep_call rep_call ret failed outcome].
  destruct (verdict Call call_result); reflexivity.
Qed.

Lemma auto_screenshot_on_failure_run (verdict : Verdict) (test_name : string)
    (later_setup test_body : M unit) (setup_result call_result : result unit)
    (d : AltDriver) (data : string) (w w0 w1 : World) :
  later_setup w = (setup_result, w0) ->
  verdict Setup setup_result = outcome_passed ->
  test_body w0 = (call_result, w1) ->
  verdict Call call_result = outcome_failed ->
  occurs "/"%char test_name = false ->
  reporter_alt_driver w1 = Some d ->
  (forall content, fs w1 (log_directory_of (cwd w1)) <> Some (File content)) ->
  alt_get_png_screenshot d (screenshot_path (cwd w1) (test_name ++ "_Failed"))
  = inr data ->
  fs w1 (screenshot_path (cwd w1) (test_name ++ "_Failed")) <> Some Dir ->
  exists w2,
    auto_screenshot_on_failure verdict test_name later_setup test_body w = (Ok tt, w2) /\
    fs w2 (screenshot_path (cwd w1) (test_name ++ "_Failed")) = Some (File data).
Proof.
  intros Hsetup Hpassed Hbody Hfailed Hplain Hd Hdirok Hpng Hnodir.
  rewrite auto_screenshot_on_failure_cases, Hsetup, Hpassed, Hbody, Hfailed.
  destruct (take_screenshot_run (test_name ++ "_Failed") d data w1)
    as (w2 & Hrun & Hfile & _); auto.
  - apply last_char_nonempty with (c := "d"%char).
    now rewrite last_char_app by discriminate.
  - rewrite occurs_app, Hplain. reflexivity.
  - exists w2; split; assumption.
Qed.

Lemma click_play_button_run (self : BaseView) (w : World) :
  MainMenuView.click_play_button self w
  = (Raise (no_find_object self), add_step "Click play button" w).
Proof.
  unfold MainMenuView.click_play_button, no_find_object, allure_step, modify.
  unfold bind at 1; unfold bind at 1. rewrite getattr_find_object. reflexivity.
Qed.

(** C3 (as the code has it).  When the game has no element of the given
    name, [find_element] raises an [AssertionError] whose message names the
    element (and no timeout), and [wait_for_object] raises an
    [AssertionError] whose message names the element and the timeout.
    When the element is [PlayButton], [click_play_button] raises and
    clicks nothing.  After a test whose call was run and reported as
    failed, when the name of the test holds no slash, a primary driver is
    registered, its capture succeeds, [screenshots-and-logs] is not a
    regular file and the path of the capture is not a directory, the file
    [<test>_Failed.png] exists in the directory [screenshots-and-logs] of
    the working directory; a test that calls [click_play_button], and
    that no mark skips or expects to fail, is such a test. *)
Theorem absent_element_assertion_and_screenshot
    (self : BaseView) (d : AltDriver) (name : string) (timeout interval : seconds)
    (err_find err_wait : driver_error) (w : World) :
  alt_driver (drivers self) = Some d ->
  alt_find_object d By_NAME name = inl err_find ->
  alt_wait_for_object d By_NAME name timeout interval = inl err_wait ->
  (exists w',
     find_element self (By_NAME, name) w
     = (Raise (mk_exn AssertionError (find_element_message name)), w')) /\
  (exists w',
     wait_for_object self (By_NAME, name) timeout interval w
     = (Raise (mk_exn AssertionError (wait_for_object_message name timeout)), w')) /\
  (forall (verdict : Verdict) (test_name : string) (later_setup test_body : M unit)
          (setup_result call_result : result unit) (rd : AltDriver)
          (data : string) (w0 w1 : World),
     later_setup w = (setup_result, w0) ->
     verdict Setup setup_result = outcome_passed ->
     test_body w0 = (call_result, w1) ->
     verdict Call call_result = outcome_failed ->
     occurs "/"%char test_name = false ->
     reporter_alt_driver w1 = Some rd ->
     (forall content, fs w1 (log_directory_of (cwd w1)) <> Some (File content)) ->
     alt_get_png_screenshot rd (screenshot_path (cwd w1) (test_name ++ "_Failed"))
     = inr data ->
     fs w1 (screenshot_path (cwd w1) (test_name ++ "_Failed")) <> Some Dir ->
     exists w2,
       auto_screenshot_on_failure verdict test_name later_setup test_body w
       = (Ok tt, w2) /\
       fs w2 (screenshot_path (cwd w1) (test_name ++ "_Failed")) = Some (File data)) /\
  (name = "PlayButton" ->
   (exists e w',
      MainMenuView.click_play_button self w = (Raise e, w') /\
      events w' = events w) /\
   (forall (test_name : string) (later_setup : M unit) (rd : AltDriver)
           (data : string) (w0 : World),
      later_setup w = (Ok tt, w0) ->
      let w1 := snd (MainMenuView.click_play_button self w0) in
      occurs "/"%char test_name = false ->
      reporter_alt_driver w1 = Some rd ->
      (forall content, fs w1 (log_directory_of (cwd w1)) <> Some (File content)) ->
      alt_get_png_screenshot rd (screenshot_path (cwd w1) (test_name ++ "_Failed"))
      = inr data ->
      fs w1 (screenshot_path (cwd w1) (test_name ++ "_Failed")) <> Some Dir ->
      exists w2,
        auto_screenshot_on_failure plain_verdict test_name later_setup
          (MainMenuView.click_play_button self) w
        = (Ok tt, w2) /\
        fs w2 (screenshot_path (cwd w1) (test_name ++ "_Failed"))
        = Some (File data))).
Proof.
  intros Hd Hfind Hwait. split; [|split; [|split]].
  - exact (find_element_absent self d (By_NAME, name) err_find w Hd Hfind).
  - exact (wait_for_object_absent self d (By_NAME, name) timeout interval err_wait w
             Hd Hwait).
  - intros. eapply auto_screenshot_on_failure_run; eassumption.
  - intros _. split.
    + rewrite click_play_button_run. eexists; eexists; split; reflexivity.
    + intros test_name later_setup rd data w0 Hsetup w1 Hplain Hrd Hdirok Hpng Hnodir.
      subst w1. rewrite click_play_button_run in *. cbn [snd] in *.
      eapply auto_screenshot_on_failure_run with (call_result := Raise (no_find_object self));
        try eassumption; try reflexivity.
      apply click_play_button_run.
Qed.

Lemma absent_element_assertion_and_screenshot_witness :
  (exists w',
     find_element menu_view (By_NAME, "PlayButton") connected_world
     = (Raise (mk_exn AssertionError
                 "Element 'PlayButton' was not found. Please verify the element exists in the current scene."),
        w')) /\
  (exists w',
     wait_for_object menu_view (By_NAME, "PlayButton") "10.0" "0.5" connected_world
     = (Raise (mk_exn AssertionError
                 "Element 'PlayButton' was not found within 10.0 seconds. Please check if the element exists or if the game loaded correctly."),
        w')) /\
  (exists w2,
     auto_screenshot_on_failure plain_verdict "test_can_start_new_game"
       BaseTest.setup_method test_waits_for_play_button connected_world = (Ok tt, w2) /\
     fs w2 "/srv/project/screenshots-and-logs/test_can_start_new_game_Failed.png"
     = Some (File "PNG-bytes")) /\
  (exists e w',
     MainMenuView.click_play_button menu_view connected_world = (Raise e, w') /\
     events w' = []) /\
  (exists w2,
     auto_screenshot_on_failure plain_verdict "test_can_start_new_game"
       BaseTest.setup_method (MainMenuView.click_play_button menu_view)
       connected_world = (Ok tt, w2) /\
     fs w2 "/srv/project/screenshots-and-logs/test_can_start_new_game_Failed.png"
     = Some (File "PNG-bytes")).
Proof.
  destruct (absent_element_assertion_and_screenshot menu_view Sample.alt0
              "PlayButton" "10.0" "0.5" (Sample.not_found "PlayButton")
              (Sample.not_found "PlayButton") connected_world
              eq_refl eq_refl eq_refl) as (Hfind & Hwait & Hshot & Hplay).
  destruct (Hplay eq_refl) as (Hclick & Hclick_shot).
  split; [exact Hfind|]. split; [exact Hwait|]. split; [|split; [exact Hclick|]].
  - refine (Hshot plain_verdict "test_can_start_new_game" BaseTest.setup_method
              test_waits_for_play_button (Ok tt)
              (Raise (mk_exn AssertionError
                        (wait_for_object_message "PlayButton" "10.0")))
              Sample.alt0 "PNG-bytes" connected_world
              (snd (test_waits_for_play_button connected_world)) _ _ _ _ _ _ _ _ _).
    + reflexivity.
    + reflexivity.
    + vm_compute; reflexivity.
    + reflexivity.
    + reflexivity.
    + vm_compute; reflexivity.
    + intros content. vm_compute. discriminate.
    + vm_compute; reflexivity.
    + vm_compute; discriminate.
  - refine (Hclick_shot "test_can_start_new_game" BaseTest.setup_method
              Sample.alt0 "PNG-bytes" connected_world _ _ _ _ _ _).
    + reflexivity.
    + reflexivity.
    + vm_compute; reflexivity.
    + intros content. vm_compute. discriminate.
    + vm_compute; reflexivity.
    + vm_compute; discriminate.
Defined.

(** C3 (as stated) fails, on a game that has no [PlayButton].  By design,
    the lookup that takes no timeout, [find_element], raises an assertion
    whose message holds no timeout, and the screenshot is taken on a best
    effort: when the capture fails, the failing test that called
    [click_play_button] leaves no [<test>_Failed.png].  As written,
    [click_play_button] raises an [AttributeError], not an
    [AssertionError]. *)
Lemma click_play_button_no_assertion :
  alt_find_object Sample.alt0 By_NAME "PlayButton"
  = inl (Sample.not_found "PlayButton") /\
  fst (find_element menu_view MainMenuView.play_button_locator connected_world)
  = Raise (mk_exn AssertionError
             "Element 'PlayButton' was not found. Please verify the element exists in the current scene.") /\
  has_digit
    "Element 'PlayButton' was not found. Please verify the element exists in the current scene."
  = false /\
  (let run := auto_screenshot_on_failure plain_verdict "test_can_start_new_game"
                BaseTest.setup_method
                (MainMenuView.click_play_button broken_camera_view)
                broken_camera_world in
   alt_find_object camera_broken By_NAME "PlayButton"
   = inl (Sample.not_found "PlayButton") /\
   (exists e,
      fst (MainMenuView.click_play_button broken_camera_view broken_camera_world)
      = Raise e) /\
   fst run = Ok tt /\
   fs (snd run) "/srv/project/screenshots-and-logs/test_can_start_new_game_Failed.png"
   = None /\
   stdout (snd run)
   = ["[2025-03-01 09:30:00] Failed to take screenshot: screenshot timed out"]) /\
  fst (MainMenuView.click_play_button menu_view connected_world)
  = Raise (mk_exn AttributeError
             "'MainMenuView' object has no attribute 'find_object'") /\
  ~ (exists msg,
       fst (MainMenuView.click_play_button menu_view connected_world)
       = Raise (mk_exn AssertionError msg)).
Proof.
  split; [reflexivity|]. split; [vm_compute; reflexivity|]. split; [reflexivity|].
  split.
  - cbv zeta. split; [reflexivity|]. split; [eexists; vm_compute; reflexivity|].
    split; [vm_compute; reflexivity|]. split; vm_compute; reflexivity.
  - split; [reflexivity|].
    intros (msg & H). vm_compute in H. discriminate.
Qed.

(* ================================================================== *)
(** ** What a computation leaves unchanged *)

Section Steady.

Context {R : World -> World -> Prop} {HR : WorldPreorder R}.

Lemma steady_ret {A} (a : A) : steady R (ret a).
Proof. intros w; apply R_refl. Qed.

Lemma steady_raise {A} (e : exn) : steady R (@raise A e).
Proof. intros w; apply R_refl. Qed.

Lemma steady_get_world : steady R get_world.
Proof. intros w; apply R_refl. Qed.

Lemma steady_modify (f : World -> World) :
  (forall w, R w (f w)) -> steady R (modify f).
Proof. intros H w; apply H. Qed.

Lemma steady_bind {A B} (m : M A) (k : A -> M B) :
  steady R m -> (forall a, steady R (k a)) -> steady R (bind m k).
Proof.
  intros Hm Hk w. unfold bind. specialize (Hm w).
  destruct (m w) as [[a|e] w1]; cbn [snd] in *.
  - eapply R_trans; [exact Hm | apply Hk].
  - exact Hm.
Qed.

Lemma steady_try_except {A} (body : M A) (handler : exn -> M A) :
  steady R body -> (forall e, steady R (handler e)) ->
  steady R (try_except body handler).
Proof.
  intros Hb Hh w. unfold try_except. specialize (Hb w).
  destruct (body w) as [[a|e] w1]; cbn [snd] in *; [exact Hb|].
  destruct (is_Exception e); [|exact Hb].
  eapply R_trans; [exact Hb | apply Hh].
Qed.

Lemma steady_try_finally {A} (body : M A) (fin : M unit) :
  steady R body -> steady R fin -> steady R (try_finally body fin).
Proof.
  intros Hb Hf w. unfold try_finally. specialize (Hb w).
  destruct (body w) as [r w1]; cbn [snd] in *.
  specialize (Hf w1). destruct (fin w1) as [[u|e] w2]; cbn [snd] in *;
    eapply R_trans; eassumption.
Qed.

Lemma steady_yield (suspended : M unit) :
  steady R suspended -> steady R (yield_ suspended).
Proof. intros H w. apply H. Qed.

Lemma steady_allure_step {A} (title : string) (body : M A) :
  (forall w, R w (add_step title w)) -> steady R body ->
  steady R (allure_step title body).
Proof.
  intros Hs Hb. unfold allure_step.
  apply steady_bind; [apply steady_modify, Hs | intros _; exact Hb].
Qed.

Lemma steady_lift_driver {A} (r : driver_error + A) : steady R (lift_driver r).
Proof. destruct r; [apply steady_raise | apply steady_ret]. Qed.

Lemma steady_lift_driver_unit (r : option driver_error) :
  steady R (lift_driver_unit r).
Proof. destruct r; [apply steady_raise | apply steady_ret]. Qed.

Lemma steady_os_path_exists (p : string) : steady R (os_path_exists p).
Proof.
  unfold os_path_exists.
  apply steady_bind; [apply steady_get_world | intros; apply steady_ret].
Qed.

Lemma steady_read_file (p : string) : steady R (read_file p).
Proof.
  unfold read_file. apply steady_bind; [apply steady_get_world|].
  intros w. destruct (fs w p) as [[c|]|];
    [apply steady_ret | apply steady_raise | apply steady_raise].
Qed.

Lemma steady_os_makedirs (p : string) (exist_ok : bool) :
  (forall f w, R w (set_fs f w)) -> steady R (os_makedirs p exist_ok).
Proof.
  intros R_fs.
  unfold os_makedirs. apply steady_bind; [apply steady_get_world|].
  intros w. destruct (fs w p) as [[c|]|].
  - apply steady_raise.
  - destruct exist_ok; [apply steady_ret | apply steady_raise].
  - apply steady_modify. intros; apply R_fs.
Qed.

Lemma steady_append_file (p text : string) :
  (forall f w, R w (set_fs f w)) -> steady R (append_file p text).
Proof.
  intros R_fs.
  unfold append_file. apply steady_bind; [apply steady_get_world|].
  intros w. destruct (open_error (fs w) p);
    [apply steady_raise | apply steady_modify; intros; apply R_fs].
Qed.

Lemma steady_write_file (p data : string) :
  (forall f w, R w (set_fs f w)) -> steady R (write_file p data).
Proof.
  intros R_fs.
  unfold write_file. apply steady_bind; [apply steady_get_world|].
  intros w. destruct (open_error (fs w) p);
    [apply steady_raise | apply steady_modify; intros; apply R_fs].
Qed.

(** A log line without screenshot. *)
Lemma steady_log (message : string) :
  (forall w,
      R w (add_step (Reporter.format_message (now_log (clock w)) message)
             (add_stdout (Reporter.format_message (now_log (clock w)) message) w))) ->
  steady R (Reporter.log message false).
Proof. intros H w. rewrite log_false, log_plain_run. apply H. Qed.

End Steady.

(** Decompose a [steady] goal along the structure of the computation;
    [prim] closes the goals about single updates of the world. *)
Ltac steady_walk prim :=
  repeat
    match goal with
    | |- steady _ (bind _ _) => apply steady_bind; [|intros ?]
    | |- steady _ (ret _) => apply steady_ret
    | |- steady _ (raise _) => apply steady_raise
    | |- steady _ (pytest_fail _) => apply steady_raise
    | |- steady _ get_world => apply steady_get_world
    | |- steady _ (modify _) => apply steady_modify; intros ?; prim
    | |- steady _ (emit _) => apply steady_modify; intros ?; prim
    | |- steady _ (try_except _ _) => apply steady_try_except; [|intros ?]
    | |- steady _ (try_finally _ _) => apply steady_try_finally
    | |- steady _ (yield_ _) => apply steady_yield
    | |- steady _ (allure_step _ _) => apply steady_allure_step; [intros ?; prim|]
    | |- steady _ (lift_driver _) => apply steady_lift_driver
    | |- steady _ (lift_driver_unit _) => apply steady_lift_driver_unit
    | |- steady _ (os_path_exists _) => apply steady_os_path_exists
    | |- steady _ (read_file _) => apply steady_read_file
    | |- steady _ (os_makedirs _ _) => apply steady_os_makedirs; intros ? ?; prim
    | |- steady _ (append_file _ _) => apply steady_append_file; intros ? ?; prim
    | |- steady _ (write_file _ _) => apply steady_write_file; intros ? ?; prim
    | |- steady _ (allure_attach _ _ _) => apply steady_modify; intros ?; prim
    | |- steady _ (Reporter.log _ false) => apply steady_log; intros ?; prim
    | |- steady _ (Reporter.log_plain _) =>
        rewrite <- log_false; apply steady_log; intros ?; prim
    | |- steady _ (if ?b then _ else _) => destruct b
    | |- steady _ (match ?x with _ => _ end) => destruct x
    | |- steady _ (let _ := _ in _) => cbv zeta
    end.

(* ================================================================== *)
(** ** The class fixture *)

#[export] Instance outward_preorder : WorldPreorder outward.
Proof.
  split.
  - intros w. split; try reflexivity.
    + exists []. now rewrite app_nil_r.
    + exists []. now rewrite app_nil_r.
  - intros w1 w2 w3 [Hc1 Hd1 (l1 & Hs1 & Hf1) (e1 & He1 & Hn1)]
                    [Hc2 Hd2 (l2 & Hs2 & Hf2) (e2 & He2 & Hn2)].
    split; try congruence.
    + exists (l1 ++ l2)%list. split.
      * now rewrite Hs2, Hs1, app_assoc.
      * apply Forall_app; split; [exact Hf1|]. now rewrite <- Hc1.
    + exists (e1 ++ e2)%list. split.
      * now rewrite He2, He1, app_assoc.
      * now rewrite forallb_app, Hn1, Hn2.
Qed.

#[export] Instance harmless_preorder : WorldPreorder harmless.
Proof.
  split.
  - intros w. split; [apply R_refl | reflexivity].
  - intros w1 w2 w3 [Ho1 Hl1] [Ho2 Hl2].
    split; [eapply R_trans; eassumption | congruence].
Qed.

Lemma append_inj_l (s a b : string) : s ++ a = s ++ b -> a = b.
Proof. induction s as [|c s IH]; simpl; intros H; [exact H|]. inversion H; auto. Qed.

Lemma format_message_inj (timestamp a b : string) :
  Reporter.format_message timestamp a = Reporter.format_message timestamp b -> a = b.
Proof.
  unfold Reporter.format_message. intros H.
  apply append_inj_l in H. apply append_inj_l in H. apply append_inj_l in H. exact H.
Qed.

Lemma outward_silent (w w' : World) :
  clock w' = clock w -> cwd w' = cwd w ->
  stdout w' = stdout w -> events w' = events w -> outward w w'.
Proof.
  intros Hc Hd Hs He. split; auto.
  - exists []. now rewrite app_nil_r.
  - exists []. now rewrite app_nil_r.
Qed.

Lemma harmless_silent (w w' : World) :
  clock w' = clock w -> cwd w' = cwd w -> local_drivers w' = local_drivers w ->
  stdout w' = stdout w -> events w' = events w -> harmless w w'.
Proof. intros Hc Hd Hl Hs He. split; [now apply outward_silent | exact Hl]. Qed.

Lemma harmless_log (message : string) (w : World) :
  message <> cleanup_message ->
  harmless w
    (add_step (Reporter.format_message (now_log (clock w)) message)
       (add_stdout (Reporter.format_message (now_log (clock w)) message) w)).
Proof.
  intros Hm. split; [|reflexivity]. split; try reflexivity.
  - eexists [_]. split; [reflexivity|].
    constructor; [|constructor].
    intros H. apply format_message_inj in H. contradiction.
  - exists []. cbn. now rewrite app_nil_r.
Qed.

Lemma harmless_event (e : event) (w : World) :
  stop_event e = false -> harmless w (add_event e w).
Proof.
  intros He. split; [|reflexivity]. split; try reflexivity.
  - exists []. cbn. now rewrite app_nil_r.
  - exists [e]. split; [reflexivity|]. cbn. now rewrite He.
Qed.

(** Closes the goals about one update of the world. *)
Ltac harmless_prim :=
  first
    [ apply harmless_silent; reflexivity
    | apply harmless_event; reflexivity
    | apply harmless_log;
      let H := fresh in
      intros H; unfold cleanup_message in H; cbn [append] in H; discriminate H ].

Ltac harmless_walk := steady_walk harmless_prim.

Lemma harmless_start_appium_driver (cfg : TestConfiguration) (env : Env) :
  steady harmless (start_appium_driver cfg env).
Proof. unfold start_appium_driver, appium_Remote. harmless_walk. Qed.

Lemma harmless_start_selenium_driver (cfg : TestConfiguration) (env : Env) :
  steady harmless (start_selenium_driver cfg env).
Proof. unfold start_selenium_driver, SeleniumDriver_get. harmless_walk. Qed.

Lemma harmless_start_alttester_driver (cfg : TestConfiguration) (env : Env) :
  steady harmless (start_alttester_driver cfg env).
Proof. unfold start_alttester_driver, AltDriver_new. harmless_walk. Qed.

Lemma harmless_start_all_drivers (cfg : TestConfiguration) (env : Env) :
  steady harmless (start_all_drivers cfg env).
Proof.
  unfold start_all_drivers. harmless_walk;
    auto using harmless_start_appium_driver, harmless_start_selenium_driver,
      harmless_start_alttester_driver.
Qed.

Lemma harmless_setup_unity_log_listener (drivers : DriverContainer) (request : Request) :
  steady harmless (setup_unity_log_listener drivers request).
Proof. unfold setup_unity_log_listener. harmless_walk. Qed.

Lemma harmless_log_callback (l : LogListener) (n : Notification) :
  steady harmless (log_callback l n).
Proof. unfold log_callback. harmless_walk. Qed.

Lemma harmless_notify (ls : list LogListener) (n : Notification) :
  steady harmless (notify ls n).
Proof.
  induction ls as [|l ls IH]; cbn [notify]; harmless_walk;
    auto using harmless_log_callback.
Qed.

Lemma harmless_tests_run (ns : list Notification) : steady harmless (tests_run ns).
Proof.
  induction ns as [|n ns IH]; cbn [tests_run]; harmless_walk;
    auto using harmless_notify.
Qed.

Lemma harmless_attach_file_to_allure (file_path : string) (custom_name : option string) :
  steady harmless (Reporter.attach_file_to_allure file_path custom_name).
Proof. unfold Reporter.attach_file_to_allure. harmless_walk. Qed.

Lemma harmless_add_unity_logs_loop (logs_copy : pydict) :
  steady harmless (add_unity_logs_loop logs_copy).
Proof.
  induction logs_copy as [|[filename filepath] rest IH]; cbn [add_unity_logs_loop];
    harmless_walk; auto using harmless_attach_file_to_allure.
Qed.

Lemma harmless_add_unity_logs_to_allure : steady harmless add_unity_logs_to_allure.
Proof.
  unfold add_unity_logs_to_allure. harmless_walk.
  apply harmless_add_unity_logs_loop.
Qed.

Lemma harmless_set_request_cls_drivers (request : Request)
    (value : option DriverContainer) :
  steady harmless (set_request_cls_drivers request value).
Proof. unfold set_request_cls_drivers. harmless_walk. Qed.

#[export] Instance preserving_preorder : WorldPreorder preserving.
Proof.
  split.
  - intros w; split; reflexivity.
  - intros w1 w2 w3 [] []; split; congruence.
Qed.

#[export] Instance keeps_logs_preorder : WorldPreorder keeps_logs.
Proof. split; unfold keeps_logs; intros; congruence. Qed.

Ltac preserving_walk := steady_walk ltac:(split; reflexivity).
Ltac keeps_logs_walk := steady_walk ltac:(reflexivity).

Lemma preserving_start_all_drivers (cfg : TestConfiguration) (env : Env) :
  steady preserving (start_all_drivers cfg env).
Proof.
  unfold start_all_drivers, start_appium_driver, appium_Remote,
    start_selenium_driver, SeleniumDriver_get, start_alttester_driver, AltDriver_new.
  preserving_walk.
Qed.

Lemma preserving_stop_all_drivers (drivers : DriverContainer) :
  steady preserving (stop_all_drivers drivers).
Proof.
  unfold stop_all_drivers, AltDriver_stop, SeleniumDriver_quit, AppiumDriver_quit.
  preserving_walk.
Qed.

Lemma keeps_logs_attach_file_to_allure (file_path : string)
    (custom_name : option string) :
  steady keeps_logs (Reporter.attach_file_to_allure file_path custom_name).
Proof. unfold Reporter.attach_file_to_allure. keeps_logs_walk. Qed.

Lemma keeps_logs_stop_all_drivers (drivers : DriverContainer) :
  steady keeps_logs (stop_all_drivers drivers).
Proof. intros w. apply (preserving_stop_all_drivers drivers w). Qed.

(** [attach_file_to_allure] returns normally on every input. *)
Lemma attach_file_to_allure_total (file_path : string) (custom_name : option string)
    (w : World) :
  exists w', Reporter.attach_file_to_allure file_path custom_name w = (Ok tt, w').
Proof.
  unfold Reporter.attach_file_to_allure, Reporter.log_plain. py_step; world_step.
  destruct (fs w file_path) as [[c|]|] eqn:Hfile; world_step;
    rewrite ?Hfile; world_step; eexists; reflexivity.
Qed.

Lemma attach_unity_log_run (filename filepath : string) (w : World) :
  attach_unity_log filename filepath w
  = Reporter.attach_file_to_allure filepath (Some filename) w.
Proof.
  unfold attach_unity_log, try_except. cbv zeta.
  destruct (attach_file_to_allure_total filepath (Some filename) w) as (w' & H).
  now rewrite H.
Qed.

Lemma add_unity_logs_loop_cons (filename filepath : string) (rest : pydict) (w : World) :
  add_unity_logs_loop ((filename, filepath) :: rest) w
  = add_unity_logs_loop rest
      (let w1 := snd (Reporter.attach_file_to_allure filepath (Some filename) w) in
       set_unity_logs (dict_pop filename (unity_logs w1)) w1).
Proof.
  cbn [add_unity_logs_loop]. fold (attach_unity_log filename filepath).
  unfold bind at 1. rewrite attach_unity_log_run.
  destruct (attach_file_to_allure_total filepath (Some filename) w) as (w' & H).
  rewrite H. reflexivity.
Qed.

(** The loop of the flush pops every entry it visits. *)
Lemma add_unity_logs_loop_empties (logs_copy : pydict) (w : World) :
  unity_logs w = logs_copy ->
  unity_logs (snd (add_unity_logs_loop logs_copy w)) = [].
Proof.
  revert w. induction logs_copy as [|[filename filepath] rest IH]; intros w Hw.
  - exact Hw.
  - rewrite add_unity_logs_loop_cons. apply IH. cbv zeta. world_step.
    rewrite (keeps_logs_attach_file_to_allure filepath (Some filename) w), Hw.
    cbn [dict_pop]. now rewrite String.eqb_refl.
Qed.

Lemma add_unity_logs_loop_total (logs_copy : pydict) (w : World) :
  exists w', add_unity_logs_loop logs_copy w = (Ok tt, w').
Proof.
  revert w. induction logs_copy as [|[filename filepath] rest IH]; intros w.
  - eexists; reflexivity.
  - rewrite add_unity_logs_loop_cons. apply IH.
Qed.

(** The flush returns normally and leaves the buffer empty. *)
Lemma add_unity_logs_to_allure_empties (w : World) :
  exists w',
    add_unity_logs_to_allure w = (Ok tt, w') /\ unity_logs w' = [].
Proof.
  unfold add_unity_logs_to_allure, bind, get_world.
  destruct (add_unity_logs_loop_total (unity_logs w) w) as (w' & H).
  exists w'. split; [exact H|].
  pose proof (add_unity_logs_loop_empties (unity_logs w) w eq_refl) as He.
  now rewrite H in He.
Qed.

Lemma harmless_after_start (request : Request) (ns : list Notification)
    (c : DriverContainer) :
  steady harmless
    (setup_unity_log_listener c request ;;
     set_request_cls_drivers request (Some c) ;;
     yield_ (tests_run ns)).
Proof.
  harmless_walk;
    auto using harmless_setup_unity_log_listener, harmless_set_request_cls_drivers,
      harmless_tests_run.
Qed.

Lemma setup_drivers_except_world (request : Request) (ex : exn) (w : World) :
  snd (setup_drivers_except request ex w) = w.
Proof. reflexivity. Qed.

(** [try ... except Exception], as a case analysis on its two stages. *)
Lemma setup_drivers_try_cases (cfg : TestConfiguration) (env : Env)
    (request : Request) (ns : list Notification) (w0 : World) :
  try_except (setup_drivers_try cfg env request ns) (setup_drivers_except request) w0
  = match start_all_drivers cfg env (add_step setup_step_title w0) with
    | (Ok c, wa) =>
        match after_start request ns c (set_local_drivers (Some c) wa) with
        | (Ok u, wb) => (Ok u, wb)
        | (Raise e, wb) =>
            if is_Exception e then setup_drivers_except request e wb
            else (Raise e, wb)
        end
    | (Raise e, wa) =>
        if is_Exception e then setup_drivers_except request e wa else (Raise e, wa)
    end.
Proof.
  unfold try_except, setup_drivers_try, allure_step, after_start, setup_step_title.
  unfold bind at 1. unfold modify at 1. unfold bind at 1.
  destruct (start_all_drivers cfg env _) as [[c|e] wa]; [|reflexivity].
  unfold bind at 1. unfold modify at 1. reflexivity.
Qed.

Lemma handler_world (request : Request) (e : exn) (w : World) :
  snd (if is_Exception e then setup_drivers_except request e w else (Raise e, w)) = w.
Proof. destruct (is_Exception e); reflexivity. Qed.

(** The [try] block with its handler: what it does outward, and what the
    fixture's [drivers] variable holds when the [finally] block starts. *)
Lemma setup_drivers_try_world (cfg : TestConfiguration) (env : Env)
    (request : Request) (ns : list Notification) (w : World) :
  let w0 := set_unity_logs [] (set_local_drivers None w) in
  let w1 := snd (try_except (setup_drivers_try cfg env request ns)
                   (setup_drivers_except request) w0) in
  outward w w1 /\
  local_drivers w1
  = match fst (start_all_drivers cfg env (fixture_start_world w)) with
    | Ok c => Some c
    | Raise _ => None
    end.
Proof.
  cbv zeta. rewrite setup_drivers_try_cases.
  change (add_step setup_step_title (set_unity_logs [] (set_local_drivers None w)))
    with (fixture_start_world w).
  assert (Hw0 : outward w (fixture_start_world w))
    by (apply outward_silent; reflexivity).
  assert (Hl0 : local_drivers (fixture_start_world w) = None) by reflexivity.
  pose proof (harmless_start_all_drivers cfg env (fixture_start_world w)) as [Hs Hsl].
  destruct (start_all_drivers cfg env (fixture_start_world w)) as [[c|e] wa];
    cbn [fst snd] in *.
  - pose proof (harmless_after_start request ns c (set_local_drivers (Some c) wa))
      as [Hr Hrl].
    fold (after_start request ns c) in Hr, Hrl.
    assert (Hb : outward wa (set_local_drivers (Some c) wa))
      by (apply outward_silent; reflexivity).
    destruct (after_start request ns c (set_local_drivers (Some c) wa))
      as [[u|e] wb]; cbn [fst snd] in *; rewrite ?handler_world.
    all: split; [|exact Hrl].
    all: eapply R_trans; [exact Hw0|]; eapply R_trans; [exact Hs|];
         eapply R_trans; [exact Hb|exact Hr].
  - rewrite handler_world. split; [|congruence].
    eapply R_trans; [exact Hw0|exact Hs].
Qed.

(** The [finally] block: the flush, the stops when the fixture holds a
    container, and the cleanup line; it returns normally. *)
Lemma setup_drivers_finally_run (w1 : World) :
  exists w2,
    add_unity_logs_to_allure w1 = (Ok tt, w2) /\
    unity_logs w2 = [] /\
    setup_drivers_finally w1
    = (Ok tt,
       let w3 := match local_drivers w2 with
                 | Some c => snd (stop_all_drivers c w2)
                 | None => w2
                 end in
       add_step (cleanup_line (clock w3)) (add_stdout (cleanup_line (clock w3)) w3)).
Proof.
  destruct (add_unity_logs_to_allure_empties w1) as (w2 & Hflush & Hempty).
  exists w2. split; [exact Hflush|]. split; [exact Hempty|].
  unfold setup_drivers_finally. unfold bind at 1. rewrite Hflush.
  unfold bind at 1, get_world at 1. unfold bind at 1.
  destruct (local_drivers w2) as [c|].
  - rewrite stop_all_drivers_run. cbn [snd]. rewrite log_false, log_plain_run.
    reflexivity.
  - cbn [ret snd]. rewrite log_false, log_plain_run. reflexivity.
Qed.

Lemma clock_fold_add_event (evs : list event) (w : World) :
  clock (fold_left (fun w e => add_event e w) evs w) = clock w.
Proof. revert w; induction evs as [|e evs IH]; intros w; simpl; [|rewrite IH]; reflexivity. Qed.

Lemma stop_all_drivers_world (c : DriverContainer) (w : World) :
  let w' := snd (stop_all_drivers c w) in
  clock w' = clock w /\
  stdout w' = (stdout w ++ [Reporter.format_message (now_log (clock w))
                              (stop_message (stops_planned c))])%list /\
  events w' = (events w ++ attempted (stops_planned c))%list.
Proof.
  cbv zeta. rewrite stop_all_drivers_run. cbn [snd]. cbv zeta.
  cbn [clock stdout events add_step add_stdout].
  now rewrite clock_fold_add_event, stdout_fold_add_event, events_fold_add_event.
Qed.

Lemma stop_message_not_cleanup (plan : list (event * option driver_error)) :
  stop_message plan <> cleanup_message.
Proof.
  unfold stop_message, cleanup_message.
  destruct (first_failure plan); intros H; cbn [append] in H; discriminate H.
Qed.

Lemma count_occ_absent (l : list string) (x : string) :
  Forall (fun s => s <> x) l -> count_occ string_dec l x = 0.
Proof.
  intros H. apply count_occ_not_In. intros Hin.
  rewrite Forall_forall in H. now apply (H x).
Qed.

Lemma setup_drivers_unfold (cfg : TestConfiguration) (env : Env)
    (request : Request) (ns : list Notification) (w : World) :
  setup_drivers cfg env request ns w
  = try_finally
      (try_except (setup_drivers_try cfg env request ns) (setup_drivers_except request))
      setup_drivers_finally
      (set_unity_logs [] (set_local_drivers None w)).
Proof. reflexivity. Qed.

(** C2 (as the code has it).  For every configuration, every behaviour of
    the client libraries and every outcome of the setup, the [finally]
    block of the class fixture runs to its end exactly once: its closing
    line is printed once.  It stops drivers exactly when
    [start_all_drivers] had returned its container, and then in the order
    primary, selenium, appium up to the first stop that raises; nothing
    else in the fixture stops a driver. *)
Theorem setup_drivers_cleanup_once (cfg : TestConfiguration) (env : Env)
    (request : Request) (ns : list Notification) (w : World) :
  let w' := snd (setup_drivers cfg env request ns w) in
  count_occ string_dec (stdout w') (cleanup_line (clock w))
  = S (count_occ string_dec (stdout w) (cleanup_line (clock w))) /\
  exists evs,
    events w'
    = (events w ++ evs ++
       match fst (start_all_drivers cfg env (fixture_start_world w)) with
       | Ok c => attempted (stops_planned c)
       | Raise _ => []
       end)%list /\
    forallb (fun e => negb (stop_event e)) evs = true.
Proof.
  cbv zeta. rewrite setup_drivers_unfold. unfold try_finally.
  destruct (setup_drivers_try_world cfg env request ns w) as [Ho Hlocal].
  cbv zeta in Ho, Hlocal.
  destruct (try_except (setup_drivers_try cfg env request ns)
              (setup_drivers_except request)
              (set_unity_logs [] (set_local_drivers None w))) as [r w1].
  cbn [snd] in Ho, Hlocal.
  destruct (setup_drivers_finally_run w1) as (w2 & Hflush & _ & Hfin).
  rewrite Hfin. cbn [snd]. cbv zeta.
  pose proof (harmless_add_unity_logs_to_allure w1) as [Ho2 Hl2].
  rewrite Hflush in Ho2, Hl2. cbn [snd] in Ho2, Hl2.
  assert (Ho12 : outward w w2) by (eapply R_trans; eassumption).
  destruct Ho12 as [Hclock _ (l & Hout & Hquiet) (evs & Hev & Hunst)].
  rewrite Hl2, Hlocal.
  destruct (fst (start_all_drivers cfg env (fixture_start_world w))) as [c|e].
  - destruct (stop_all_drivers_world c w2) as (Hc3 & Hs3 & He3).
    cbv zeta in Hc3, Hs3, He3.
    cbn [stdout events add_step add_stdout].
    rewrite Hc3, Hs3, He3, Hout, Hev, Hclock. split.
    + rewrite !count_occ_app.
      rewrite (count_occ_absent l) by exact Hquiet.
      rewrite (count_occ_absent [_]).
      * cbn [count_occ].
        destruct (string_dec (cleanup_line (clock w)) (cleanup_line (clock w)));
          [lia|contradiction].
      * constructor; [|constructor]. intros H.
        apply format_message_inj in H.
        now apply stop_message_not_cleanup in H.
    + exists evs. now rewrite app_assoc.
  - cbn [stdout events add_step add_stdout].
    rewrite Hout, Hev, Hclock. split.
    + rewrite !count_occ_app.
      rewrite (count_occ_absent l) by exact Hquiet.
      cbn [count_occ].
      destruct (string_dec (cleanup_line (clock w)) (cleanup_line (clock w)));
        [lia|contradiction].
    + exists evs. now rewrite app_nil_r.
Qed.

(** C2 (as stated) fails: on Android with Appium enabled and a game that
    cannot be reached, the Appium driver is started, the setup fails, the
    cleanup runs, and no [quit] of the Appium driver is attempted. *)
Lemma partial_start_not_stopped :
  let run := setup_drivers Sample.cfg_android Sample.env_game_down Sample.request0 []
               Sample.world0 in
  fst run = Raise (mk_exn Failed
                     "Exception during driver setup: could not connect to AltTester") /\
  (exists caps, events (snd run)
                = [EvAppiumRemote "http://127.0.0.1:4723/wd/hub" caps;
                   EvAltConnect "127.0.0.1" 13000%N "__default__"]) /\
  ~ In EvAppiumQuit (events (snd run)) /\
  count_occ string_dec (stdout (snd run)) (cleanup_line Sample.clock0) = 1.
Proof.
  cbv zeta. split; [vm_compute; reflexivity|].
  split; [eexists; vm_compute; reflexivity|].
  split; [|vm_compute; reflexivity].
  intros H. vm_compute in H.
  repeat (destruct H as [H|H]; [discriminate H|]). exact H.
Qed.

(* ================================================================== *)
(** ** The log buffer and its flush *)

(** The extension of a path that ends in [.txt] is [.txt], or empty when
    the base name is [.txt] itself. *)
Lemma splitext_txt_cases (s : string) :
  snd (OsPath.splitext (s ++ ".txt")) = ".txt" \/
  snd (OsPath.splitext (s ++ ".txt")) = EmptyString.
Proof.
  unfold OsPath.splitext.
  assert (Hdot : PyStr.rfind OsPath.extsep (s ++ ".txt") = Z.of_nat (String.length s)).
  { unfold PyStr.rfind. rewrite rfind_opt_app. cbn. now rewrite Nat.add_0_r. }
  rewrite Hdot. cbv zeta. rewrite Nat2Z.id.
  destruct (_ <? _)%Z; [|now right].
  destruct (OsPath.has_non_dot _ _ _); [|now right].
  left. cbn [snd]. apply drop_length_app.
Qed.

Lemma content_type_txt (s : string) :
  dict_get Reporter.content_type_map (PyStr.lower (snd (OsPath.splitext (s ++ ".txt"))))
    TEXT = TEXT.
Proof. destruct (splitext_txt_cases s) as [H|H]; rewrite H; reflexivity. Qed.

Lemma join_suffix (a b t : string) : exists s, OsPath.join a (b ++ t) = s ++ t.
Proof.
  unfold OsPath.join.
  destruct (PyStr.startswith OsPath.sep (b ++ t)); [now exists b|].
  destruct (String.eqb a EmptyString || PyStr.endswith OsPath.sep a)%bool.
  - exists (a ++ b). now rewrite string_app_assoc.
  - exists (a ++ String OsPath.sep b). now rewrite string_app_assoc.
Qed.

Lemma listener_path_txt (l : LogListener) : exists s, listener_path l = s ++ ".txt".
Proof.
  unfold listener_path, listener_filename.
  rewrite <- (string_app_assoc "-UnityLogs-"), <- string_app_assoc.
  apply join_suffix.
Qed.

Lemma listener_filename_nonempty (l : LogListener) : listener_filename l <> EmptyString.
Proof.
  apply last_char_nonempty with (c := "t"%char). apply listener_filename_last.
Qed.

(** The world [attach_file_to_allure] leaves for a path that holds a file. *)
Lemma attach_file_to_allure_run (file_path : string) (custom_name : option string)
    (data : string) (w : World) :
  fs w file_path = Some (File data) ->
  exists w',
    Reporter.attach_file_to_allure file_path custom_name w = (Ok tt, w') /\
    allure_attachments w' = (allure_attachments w ++
      [ {| att_body := data;
           att_name :=
             or_str custom_name (fst (OsPath.splitext (OsPath.basename file_path)));
           att_type :=
             dict_get Reporter.content_type_map
               (PyStr.lower (snd (OsPath.splitext file_path))) TEXT |} ])%list /\
    fs w' = fs w /\ unity_logs w' = unity_logs w /\
    local_drivers w' = local_drivers w.
Proof.
  intros Hfile.
  unfold Reporter.attach_file_to_allure, Reporter.log_plain.
  py_step; world_step.
  repeat first [rewrite Hfile | progress world_step].
  eexists; split; [reflexivity|]. repeat split.
Qed.

(** The tests of a class, with the callback of the fixture as the only
    listener: every notification is appended to the file of the run, in
    the order of arrival, and the file is in the buffer once the first has
    arrived. *)
Lemma tests_run_single_listener (l : LogListener) (ns : list Notification) :
  forall (w : World) (logged : bool),
    listeners w = [l] ->
    fs w (OsPath.dirname (listener_path l)) = Some Dir ->
    fs w (listener_path l) <> Some Dir ->
    unity_logs w = buffer_of l logged ->
    exists w',
      tests_run ns w = (Ok tt, w') /\
      listeners w' = [l] /\
      fs w' (listener_path l) <> Some Dir /\
      file_content (fs w') (listener_path l)
      = file_content (fs w) (listener_path l) ++ concat_records ns /\
      (ns <> [] -> exists c, fs w' (listener_path l) = Some (File c)) /\
      unity_logs w' = buffer_of l (logged || negb (is_nil ns)) /\
      allure_attachments w' = allure_attachments w /\
      local_drivers w' = local_drivers w.
Proof.
  induction ns as [|n ns IH]; intros w logged Hl Hparent Hnodir Hbuf.
  - exists w. cbn [tests_run ret concat_records is_nil negb].
    rewrite orb_false_r.
    repeat split; auto.
    + now rewrite string_app_nil_r.
    + intros H; contradiction.
  - cbn [tests_run]. unfold bind at 1, get_world at 1. rewrite Hl.
    cbn [notify]. unfold bind at 1. unfold bind at 1.
    rewrite log_callback_run by (now apply open_error_none). cbv zeta.
    set (w1 := if dict_mem _ _ then _ else _).
    assert (H1 : listeners w1 = [l] /\
                 fs w1 = fs_set (listener_path l)
                           (File (file_content (fs w) (listener_path l) ++ log_record n))
                           (fs w) /\
                 unity_logs w1 = buffer_of l true /\
                 allure_attachments w1 = allure_attachments w /\
                 local_drivers w1 = local_drivers w).
    { subst w1. rewrite Hbuf. destruct logged; cbn [buffer_of dict_mem].
      - rewrite String.eqb_refl. cbn [orb]. world_step. repeat split; auto.
      - world_step. cbn [dict_setitem buffer_of]. repeat split; auto. }
    destruct H1 as (Hl1 & Hfs1 & Hbuf1 & Hatt1 & Hloc1).
    assert (Hfile1 : fs w1 (listener_path l)
                     = Some (File (file_content (fs w) (listener_path l)
                                   ++ log_record n)))
      by (rewrite Hfs1; apply fs_set_same).
    cbn [ret]. 
    destruct (IH w1 true Hl1) as (w' & Hrun & Hl' & Hnodir' & Hcont & _ & Hbuf' & Hatt' & Hloc').
    + rewrite Hfs1, fs_set_other; [exact Hparent|].
      intros Heq. rewrite Heq in Hparent. contradiction.
    + rewrite Hfile1; discriminate.
    + exact Hbuf1.
    + exists w'. split; [exact Hrun|].
      split; [exact Hl'|]. split; [exact Hnodir'|].
      split.
      { rewrite Hcont. unfold file_content at 1. rewrite Hfile1.
        cbn [concat_records]. now rewrite string_app_assoc. }
      split.
      { intros _. unfold file_content in Hcont.
        destruct (fs w' (listener_path l)) as [[c|]|] eqn:Hf; [eauto | contradiction |].
        exfalso. rewrite Hfile1 in Hcont.
        destruct (file_content (fs w) (listener_path l)); cbn in Hcont.
        - unfold log_record in Hcont.
          destruct (message n); cbn in Hcont; discriminate.
        - discriminate. }
      split; [|split; congruence].
      rewrite Hbuf'. cbn [is_nil negb orb]. now rewrite orb_true_r.
Qed.

Lemma start_alttester_driver_ok (cfg : TestConfiguration) (env : Env)
    (w : World) (d : AltDriver) (w' : World) :
  start_alttester_driver cfg env w = (Ok d, w') -> listeners w' = [].
Proof.
  unfold start_alttester_driver, AltDriver_new, Reporter.log. py_step.
  destruct (new_AltDriver env _ _ _); [discriminate|].
  intros H; inversion H; reflexivity.
Qed.

(** A returned container holds a primary driver, which has no listener yet. *)
Lemma start_all_drivers_ok (cfg : TestConfiguration) (env : Env)
    (w : World) (c : DriverContainer) (wa : World) :
  start_all_drivers cfg env w = (Ok c, wa) ->
  listeners wa = [] /\ exists d, alt_driver c = Some d.
Proof.
  unfold start_all_drivers, Reporter.log at 1 2 3 4 5. py_step.
  match goal with
  | |- context [(if RUNNING_WITH_APPIUM cfg then ?a else ?b) ?w0] =>
      destruct ((if RUNNING_WITH_APPIUM cfg then a else b) w0) as [[ra|ea] w1];
      [|discriminate]
  end.
  match goal with
  | |- context [(if RUNNING_WITH_SELENIUM cfg then ?a else ?b) ?w0] =>
      destruct ((if RUNNING_WITH_SELENIUM cfg then a else b) w0) as [[rs|es] w2];
      [|discriminate]
  end.
  destruct (start_alttester_driver cfg env w2) as [[d|e] w3] eqn:Halt; [|discriminate].
  apply start_alttester_driver_ok in Halt.
  intros H; inversion H; subst; clear H.
  split; [exact Halt | now exists d].
Qed.

Lemma setup_unity_log_listener_succeeds (drivers : DriverContainer)
    (request : Request) (d : AltDriver) (w : World) :
  alt_driver drivers = Some d ->
  alt_add_notification_listener d = None ->
  (forall content, fs w (log_directory_of (cwd w)) <> Some (File content)) ->
  exists w1, setup_unity_log_listener drivers request w = (Ok tt, w1).
Proof.
  intros Hd Hadd Hdir. unfold setup_unity_log_listener, Reporter.log. rewrite Hd.
  py_step; world_step. fold (log_directory_of (cwd w)). rewrite Hadd.
  destruct (fs w (log_directory_of (cwd w))) as [[c|]|] eqn:Hfs; world_step.
  - now destruct (Hdir c).
  - eexists; reflexivity.
  - eexists; reflexivity.
Qed.

(** The flush, when the buffer is that of one listener. *)
Lemma add_unity_logs_to_allure_single (l : LogListener) (logged : bool) (w : World) :
  unity_logs w = buffer_of l logged ->
  (logged = true -> exists c, fs w (listener_path l) = Some (File c)) ->
  exists w',
    add_unity_logs_to_allure w = (Ok tt, w') /\
    fs w' = fs w /\
    local_drivers w' = local_drivers w /\
    unity_logs w' = [] /\
    allure_attachments w'
    = (allure_attachments w ++
       if logged
       then [ {| att_body := file_content (fs w) (listener_path l);
                 att_name := listener_filename l;
                 att_type := TEXT |} ]
       else [])%list.
Proof.
  intros Hbuf Hfile.
  unfold add_unity_logs_to_allure, bind, get_world. rewrite Hbuf.
  destruct logged; cbn [buffer_of].
  - destruct (Hfile eq_refl) as (c & Hc).
    rewrite add_unity_logs_loop_cons. cbn [add_unity_logs_loop ret]. cbv zeta.
    destruct (attach_file_to_allure_run (listener_path l)
                (Some (listener_filename l)) c w Hc)
      as (w1 & Hrun & Hatt & Hfs & Hlogs & Hloc).
    rewrite Hrun. cbn [snd].
    eexists; split; [reflexivity|]. world_step.
    rewrite Hlogs, Hbuf. cbn [buffer_of dict_pop]. rewrite String.eqb_refl.
    repeat split; auto.
    rewrite Hatt. unfold file_content. rewrite Hc.
    rewrite or_str_some by apply listener_filename_nonempty.
    destruct (listener_path_txt l) as (s & Hs). rewrite Hs, content_type_txt.
    reflexivity.
  - exists w. cbn [add_unity_logs_loop ret].
    repeat split; auto. now rewrite app_nil_r.
Qed.

(** C7. When the setup of the class succeeds and the log file of the run
    can be opened, every notification pushed while the tests run is in the
    file, message then stack trace, in the order of arrival; the flush of
    the teardown attaches exactly that content to the report, as text,
    under the name of the file; and the buffer is empty when the fixture
    is done. *)
Theorem unity_logs_flushed_in_order (cfg : TestConfiguration) (env : Env)
    (request : Request) (cls : string) (ns : list Notification)
    (w : World) (c : DriverContainer) (wa : World) :
  req_cls request = Some cls ->
  start_all_drivers cfg env (fixture_start_world w) = (Ok c, wa) ->
  (forall d, alt_driver c = Some d -> alt_add_notification_listener d = None) ->
  (forall content, fs w (log_directory_of (cwd w)) <> Some (File content)) ->
  let filename := cls ++ "-UnityLogs-" ++ now_run (clock w) ++ ".txt" in
  let path := OsPath.join (OsPath.join (cwd w) "screenshots-and-logs") filename in
  fs w path <> Some Dir ->
  let w' := snd (setup_drivers cfg env request ns w) in
  let content := file_content (fs w) path ++ concat_records ns in
  unity_logs w' = [] /\
  (ns <> [] ->
   fs w' path = Some (File content) /\
   allure_attachments w'
   = (allure_attachments w ++
      [ {| att_body := content; att_name := filename; att_type := TEXT |} ])%list) /\
  (ns = [] -> allure_attachments w' = allure_attachments w).
Proof.
  intros Hcls Hstart Hadd Hdir filename path Hnodir. cbv zeta.
  set (l := {| cb_cls := Some cls; cb_timestamp := now_run (clock w);
               cb_log_directory := log_directory_of (cwd w) |}).
  assert (Hpath : listener_path l = path) by reflexivity.
  assert (Hname : listener_filename l = filename) by reflexivity.
  remember (setup_drivers cfg env request ns w) as run eqn:Hrun0.
  rewrite setup_drivers_unfold in Hrun0. unfold try_finally in Hrun0.
  rewrite setup_drivers_try_cases in Hrun0.
  change (add_step setup_step_title (set_unity_logs [] (set_local_drivers None w)))
    with (fixture_start_world w) in Hrun0.
  rewrite Hstart in Hrun0.
  pose proof (preserving_start_all_drivers cfg env (fixture_start_world w)) as Hp.
  rewrite Hstart in Hp. cbn [snd] in Hp.
  destruct Hp as [Hfs_a Hlogs_a Hatt_a Hcwd_a Hclock_a _].
  unfold fixture_start_world in Hfs_a, Hlogs_a, Hatt_a, Hcwd_a, Hclock_a.
  cbn [fs unity_logs allure_attachments cwd clock add_step set_unity_logs
       set_local_drivers] in Hfs_a, Hlogs_a, Hatt_a, Hcwd_a, Hclock_a.
  destruct (start_all_drivers_ok _ _ _ _ _ Hstart) as (Hls_a & d & Hd).
  set (wb0 := set_local_drivers (Some c) wa).
  assert (Hlis : listener_of request wb0 = l).
  { unfold listener_of. subst l wb0. cbn [clock cwd set_local_drivers].
    now rewrite Hcls, Hclock_a, Hcwd_a. }
  destruct (setup_unity_log_listener_succeeds c request d wb0 Hd (Hadd d Hd))
    as (w1 & Hsetup).
  { intros content. subst wb0. cbn [fs cwd set_local_drivers].
    rewrite Hfs_a, Hcwd_a. apply Hdir. }
  destruct (setup_unity_log_listener_run c request d wb0 w1 Hd Hsetup)
    as (Hl1 & Hfs1 & Hlogs1 & Hloc1 & Hatt1 & _).
  pose proof (log_file_after_setup request wb0 w1 Hfs1) as Hsame1.
  rewrite Hlis, Hpath in Hsame1.
  rewrite Hlis in Hl1.
  subst wb0. cbn [fs listeners unity_logs allure_attachments local_drivers
                  set_local_drivers] in Hsame1, Hl1, Hlogs1, Hatt1, Hloc1.
  rewrite Hfs_a in Hsame1. rewrite Hls_a in Hl1. cbn [app] in Hl1.
  unfold after_start in Hrun0. unfold bind at 1 in Hrun0. rewrite Hsetup in Hrun0.
  unfold bind at 1 in Hrun0. unfold set_request_cls_drivers in Hrun0.
  rewrite Hcls in Hrun0. unfold modify at 1, yield_ in Hrun0.
  set (w2 := set_cls_drivers (Some c) w1) in *.
  destruct (tests_run_single_listener l ns w2 false)
    as (w3 & Hrun & _ & _ & Hcont3 & Hfile3 & Hbuf3 & Hatt3 & Hloc3).
  { exact Hl1. }
  { subst w2. cbn [fs set_cls_drivers]. rewrite <- Hlis, listener_path_parent.
    exact (setup_unity_log_listener_directory _ _ _ _ _ Hd Hsetup). }
  { rewrite Hpath. subst w2. cbn [fs set_cls_drivers]. now rewrite Hsame1. }
  { subst w2. cbn [unity_logs set_cls_drivers buffer_of]. congruence. }
  rewrite Hrun in Hrun0. cbn [snd] in Hrun0.
  destruct (setup_drivers_finally_run w3) as (w4 & Hflush & Hempty & Hfin).
  rewrite Hfin in Hrun0. cbv zeta in Hrun0. subst run. cbn [snd].
  destruct (add_unity_logs_to_allure_single l (false || negb (is_nil ns)) w3 Hbuf3)
    as (w4' & Hflush' & Hfs4 & _ & _ & Hatt4).
  { intros Hlogged. apply Hfile3. destruct ns; [discriminate|discriminate]. }
  rewrite Hflush in Hflush'. inversion Hflush'; subst w4'; clear Hflush'.
  set (w5 := match local_drivers w4 with
             | Some c0 => snd (stop_all_drivers c0 w4)
             | None => w4
             end).
  assert (Hp5 : preserving w4 w5).
  { subst w5. destruct (local_drivers w4);
      [apply preserving_stop_all_drivers | apply R_refl]. }
  destruct Hp5 as [Hfs5 Hlogs5 Hatt5 _ _ _]. clearbody w5.
  cbn [unity_logs fs allure_attachments add_step add_stdout].
  rewrite Hlogs5, Hfs5, Hatt5, Hfs4, Hatt4, Hatt3.
  subst w2. cbn [allure_attachments fs set_cls_drivers] in *.
  rewrite Hatt1, Hatt_a. rewrite Hpath in *.
  assert (Hold : file_content (fs w1) path = file_content (fs w) path)
    by (unfold file_content; now rewrite Hsame1).
  rewrite Hold in Hcont3.
  split; [exact Hempty|]. split.
  - intros Hne. destruct (Hfile3 Hne) as (c3 & Hc3).
    assert (Hc3' : c3 = file_content (fs w) path ++ concat_records ns).
    { rewrite <- Hcont3. unfold file_content. now rewrite Hc3. }
    split; [now rewrite Hc3, Hc3'|].
    destruct ns as [|n ns']; [contradiction|].
    cbn [is_nil negb orb]. now rewrite Hcont3, Hname.
  - intros Hnil. subst ns. cbn [is_nil negb orb]. now rewrite app_nil_r.
Qed.

Lemma unity_logs_flushed_in_order_witness :
  let w' := snd (setup_drivers Sample.cfg_webgl Sample.env_up Sample.request0
                   [sample_notification; second_notification] Sample.world0) in
  unity_logs w' = [] /\
  fs w' "/srv/project/screenshots-and-logs/TestMainMenu-UnityLogs-20250301_093000.txt"
  = Some (File ("NullReferenceException: object not set" ++ nl ++
                "StackTrace : at Player.Update ()" ++ nl ++
                "Player died" ++ nl ++
                "StackTrace : at Game.OnDeath ()" ++ nl)) /\
  allure_attachments w'
  = [ {| att_body := "NullReferenceException: object not set" ++ nl ++
                     "StackTrace : at Player.Update ()" ++ nl ++
                     "Player died" ++ nl ++
                     "StackTrace : at Game.OnDeath ()" ++ nl;
         att_name := "TestMainMenu-UnityLogs-20250301_093000.txt";
         att_type := TEXT |} ].
Proof.
  destruct (unity_logs_flushed_in_order Sample.cfg_webgl Sample.env_up
              Sample.request0 "TestMainMenu"
              [sample_notification; second_notification] Sample.world0
              (mkDriverContainer (Some Sample.alt0) None (Some Sample.selenium0))
              (snd (start_all_drivers Sample.cfg_webgl Sample.env_up
                      (fixture_start_world Sample.world0))))
    as (Hempty & Hfile & _).
  - reflexivity.
  - vm_compute; reflexivity.
  - intros d Hd. inversion Hd. reflexivity.
  - intros content. vm_compute. discriminate.
  - vm_compute. discriminate.
  - destruct (Hfile ltac:(discriminate)) as (Hf & Hatt).
    split; [exact Hempty|]. split; [exact Hf|exact Hatt].
Defined.

(** The buffer is empty when the fixture is done, whatever the setup did. *)
Lemma setup_drivers_buffer_empty (cfg : TestConfiguration) (env : Env)
    (request : Request) (ns : list Notification) (w : World) :
  unity_logs (snd (setup_drivers cfg env request ns w)) = [].
Proof.
  rewrite setup_drivers_unfold. unfold try_finally.
  destruct (try_except _ _ _) as [r w1].
  destruct (setup_drivers_finally_run w1) as (w2 & _ & Hempty & Hfin).
  rewrite Hfin. cbn [snd]. cbv zeta.
  cbn [unity_logs add_step add_stdout].
  destruct (local_drivers w2) as [c|]; [|exact Hempty].
  rewrite (pv_logs _ _ (preserving_stop_all_drivers c w2)). exact Hempty.
Qed.


(* ================================================================== *)
(** ** The views, beyond the presence checks *)

#[export] Instance same_events_preorder : WorldPreorder same_events.
Proof. split; unfold same_events; intros; congruence. Qed.

Ltac same_events_walk := steady_walk ltac:(reflexivity).

Lemma same_events_take_screenshot (custom_name : option string) :
  steady same_events (Reporter.take_screenshot custom_name).
Proof.
  unfold Reporter.take_screenshot, Reporter.get_png_screenshot.
  same_events_walk.
Qed.

Lemma same_events_log (message : string) (with_screenshot : bool) :
  steady same_events (Reporter.log message with_screenshot).
Proof.
  unfold Reporter.log, print. same_events_walk.
  apply same_events_take_screenshot.
Qed.

(** [wait_for_object], by what the game answers. *)
Lemma wait_for_object_cases (self : BaseView) (loc : locator)
    (timeout interval : seconds) (w : World) :
  match wait_answer self loc timeout interval with
  | Some o => wait_for_object self loc timeout interval w = (Ok o, waited loc w)
  | None =>
      exists w',
        wait_for_object self loc timeout interval w
        = (Raise (mk_exn AssertionError (wait_for_object_message (snd loc) timeout)),
           w') /\
        events w' = events w
  end.
Proof.
  unfold wait_answer, wait_for_object, on_alt_driver.
  destruct (alt_driver (drivers self)) as [d|].
  - destruct (alt_wait_for_object d (fst loc) (snd loc) timeout interval) as [err|o].
    + unfold Reporter.log at 1. py_step.
      cbn [exn_of_driver_error is_Exception exn_cls].
      match goal with
      | |- context [Reporter.log ?m true ?w0] =>
          pose proof (same_events_log m true w0) as Hev;
          destruct (log_total m true w0) as (w1 & Hlog); rewrite Hlog in *
      end.
      eexists; split; [reflexivity|]. exact Hev.
    + reflexivity.
  - unfold Reporter.log at 1. py_step. cbn [is_Exception exn_cls].
    match goal with
    | |- context [Reporter.log ?m true ?w0] =>
        pose proof (same_events_log m true w0) as Hev;
        destruct (log_total m true w0) as (w1 & Hlog); rewrite Hlog in *
    end.
    eexists; split; [reflexivity|]. exact Hev.
Qed.

(** X1. [click_object] clicks the object the wait returned, once, and
    raises what the click raises; when the wait fails it raises the
    assertion of [wait_for_object] and clicks nothing. *)
Theorem click_object_clicks_what_it_found (self : BaseView) (loc : locator)
    (timeout : seconds) (wait_for_click : bool) (w : World) :
  match wait_answer self loc timeout "0.5" with
  | Some o =>
      click_object self loc timeout wait_for_click w
      = (match click_answer o with
         | None => Ok tt
         | Some err => Raise (exn_of_driver_error err)
         end,
         add_event (EvClick (obj_name o)) (waited loc (add_step "Click on object" w)))
  | None =>
      exists w',
        click_object self loc timeout wait_for_click w
        = (Raise (mk_exn AssertionError (wait_for_object_message (snd loc) timeout)),
           w') /\
        events w' = events w
  end.
Proof.
  pose proof (wait_for_object_cases self loc timeout "0.5"
                (add_step "Click on object" w)) as Hwait.
  unfold click_object, allure_step.
  destruct (wait_answer self loc timeout "0.5") as [o|].
  - unfold bind at 1, modify at 1. unfold bind at 1.
    rewrite Hwait. unfold AltObject_click, time_sleep. py_step.
    destruct (click_answer o); reflexivity.
  - destruct Hwait as (w' & Hrun & Hev).
    unfold bind at 1, modify at 1. unfold bind at 1. rewrite Hrun.
    exists w'. split; [reflexivity|exact Hev].
Qed.

(** X2. Every method of the two views that looks its element up through
    [self.find_object] raises [AttributeError] as soon as its step is
    opened, on every view and every game: nothing is clicked, typed or
    logged. *)
Theorem find_object_methods_raise (lib : AltLibrary) (self : BaseView)
    (player_name : string) (w : World) :
  MainMenuView.click_play_button self w
  = (Raise (no_find_object self), add_step "Click play button" w) /\
  MainMenuView.enter_player_name lib self player_name w
  = (Raise (no_find_object self), add_step "Enter player name" w) /\
  MainMenuView.navigate_to_settings self w
  = (Raise (no_find_object self), add_step "Navigate to settings" w) /\
  GameplayView.pause_game self w
  = (Raise (no_find_object self), add_step "Pause the game" w) /\
  GameplayView.resume_game self w
  = (Raise (no_find_object self), add_step "Resume the game" w) /\
  GameplayView.get_main_character_position lib self w
  = (Raise (no_find_object self), add_step "Get main character position" w).
Proof.
  unfold MainMenuView.click_play_button, MainMenuView.enter_player_name,
    MainMenuView.navigate_to_settings, GameplayView.pause_game,
    GameplayView.resume_game, GameplayView.get_main_character_position,
    no_find_object, allure_step, modify.
  repeat split; unfold bind at 1; unfold bind at 1;
    rewrite getattr_find_object; reflexivity.
Qed.

(** X3. The four visibility checks that go through [self.find_object]
    answer [False] on every view and every game, and log that the element
    was not found. *)
Theorem visibility_checks_always_false (self : BaseView) (w : World) :
  MainMenuView.is_main_menu_visible self w
  = (Ok false, logged "Main menu panel not found"
                 (add_step "Check if main menu is visible" w)) /\
  GameplayView.is_game_paused self w
  = (Ok false, logged "Resume button not found - game is not paused"
                 (add_step "Check if game is paused" w)) /\
  GameplayView.is_main_character_present self w
  = (Ok false, logged "Main character not found"
                 (add_step "Check if main character is present" w)) /\
  GameplayView.is_gameplay_hud_visible self w
  = (Ok false, logged "Gameplay HUD not found"
                 (add_step "Check if gameplay HUD is visible" w)).
Proof.
  unfold MainMenuView.is_main_menu_visible, GameplayView.is_game_paused,
    GameplayView.is_main_character_present, GameplayView.is_gameplay_hud_visible,
    allure_step, modify, try_except.
  repeat split; unfold bind at 1; unfold bind at 1;
    rewrite getattr_find_object; reflexivity.
Qed.

(** [wait_for_main_menu_ready], by what the game answers. *)
Lemma wait_for_main_menu_ready_cases (self : BaseView) (timeout_seconds : seconds)
    (w : World) :
  match wait_answer self MainMenuView.main_menu_panel_locator timeout_seconds "0.5" with
  | Some _ =>
      MainMenuView.wait_for_main_menu_ready self timeout_seconds w
      = (Ok tt,
         logged "Main menu is ready"
           (waited MainMenuView.main_menu_panel_locator
              (add_step "Wait for main menu to be ready" w)))
  | None =>
      exists w',
        MainMenuView.wait_for_main_menu_ready self timeout_seconds w
        = (Raise (mk_exn AssertionError
                    (wait_for_object_message "MainMenuPanel" timeout_seconds)), w') /\
        events w' = events w
  end.
Proof.
  pose proof (wait_for_object_cases self MainMenuView.main_menu_panel_locator
                timeout_seconds "0.5"
                (add_step "Wait for main menu to be ready" w)) as Hwait.
  unfold MainMenuView.wait_for_main_menu_ready, allure_step.
  destruct (wait_answer self MainMenuView.main_menu_panel_locator timeout_seconds "0.5").
  - unfold bind at 1, modify at 1. unfold bind at 1. rewrite Hwait. reflexivity.
  - destruct Hwait as (w' & Hrun & Hev).
    unfold bind at 1, modify at 1. unfold bind at 1. rewrite Hrun.
    exists w'. split; [reflexivity|exact Hev].
Qed.

(** X4. The two waits for a screen return when the game shows its panel
    within the timeout, after logging that the screen is ready; otherwise
    they raise the assertion of [wait_for_object], which names the panel
    and the timeout, and call nothing else. *)
Theorem ready_waits_follow_the_game (self : BaseView) (timeout_seconds : seconds)
    (w : World) :
  match wait_answer self MainMenuView.main_menu_panel_locator timeout_seconds "0.5" with
  | Some _ =>
      MainMenuView.wait_for_main_menu_ready self timeout_seconds w
      = (Ok tt,
         logged "Main menu is ready"
           (waited MainMenuView.main_menu_panel_locator
              (add_step "Wait for main menu to be ready" w)))
  | None =>
      exists w',
        MainMenuView.wait_for_main_menu_ready self timeout_seconds w
        = (Raise (mk_exn AssertionError
                    (wait_for_object_message "MainMenuPanel" timeout_seconds)), w') /\
        events w' = events w
  end /\
  match wait_answer self GameplayView.game_hud_locator timeout_seconds "0.5" with
  | Some _ =>
      GameplayView.wait_for_gameplay_ready self timeout_seconds w
      = (Ok tt,
         logged "Gameplay is ready"
           (waited GameplayView.game_hud_locator
              (add_step "Wait for gameplay to be ready" w)))
  | None =>
      exists w',
        GameplayView.wait_for_gameplay_ready self timeout_seconds w
        = (Raise (mk_exn AssertionError
                    (wait_for_object_message "GameHUD" timeout_seconds)), w') /\
        events w' = events w
  end.
Proof.
  split; [apply wait_for_main_menu_ready_cases|].
  pose proof (wait_for_object_cases self GameplayView.game_hud_locator
                timeout_seconds "0.5"
                (add_step "Wait for gameplay to be ready" w)) as Hwait.
  unfold GameplayView.wait_for_gameplay_ready, allure_step.
  destruct (wait_answer self GameplayView.game_hud_locator timeout_seconds "0.5").
  - unfold bind at 1, modify at 1. unfold bind at 1. rewrite Hwait. reflexivity.
  - destruct Hwait as (w' & Hrun & Hev).
    unfold bind at 1, modify at 1. unfold bind at 1. rewrite Hrun.
    exists w'. split; [reflexivity|exact Hev].
Qed.

Lemma is_main_menu_visible_run (self : BaseView) (w : World) :
  MainMenuView.is_main_menu_visible self w
  = (Ok false, logged "Main menu panel not found"
                 (add_step "Check if main menu is visible" w)).
Proof.
  unfold MainMenuView.is_main_menu_visible, allure_step, modify, try_except.
  unfold bind at 1; unfold bind at 1. rewrite getattr_find_object. reflexivity.
Qed.

(** X5. [start_new_game] never starts a game.  When the main menu panel
    does not appear within ten seconds it raises the assertion of the
    wait; when the panel appears it raises [Main menu is not visible],
    because the visibility check always answers [False].  Either way
    nothing is typed and nothing is clicked. *)
Theorem start_new_game_never_starts (lib : AltLibrary) (self : BaseView)
    (player_name : string) (w : World) :
  exists w',
    MainMenuView.start_new_game lib self player_name w
    = (Raise
         match wait_answer self MainMenuView.main_menu_panel_locator "10.0" "0.5" with
         | Some _ =>
             mk_exn PlainException "Main menu is not visible, cannot start new game"
         | None =>
             mk_exn AssertionError (wait_for_object_message "MainMenuPanel" "10.0")
         end,
       w') /\
    events w' = events w.
Proof.
  pose proof (wait_for_main_menu_ready_cases self "10.0"
                (add_step "Start new game" w)) as Hready.
  unfold MainMenuView.start_new_game, allure_step.
  unfold bind at 1, modify at 1. unfold bind at 1.
  destruct (wait_answer self MainMenuView.main_menu_panel_locator "10.0" "0.5").
  - rewrite Hready. unfold bind at 1. rewrite is_main_menu_visible_run.
    cbn [negb]. unfold bind at 1, raise.
    eexists; split; [reflexivity|]. reflexivity.
  - destruct Hready as (w' & Hrun & Hev). rewrite Hrun.
    exists w'. split; [reflexivity|exact Hev].
Qed.

(* ================================================================== *)
(** ** The reporter, beyond its soft failures *)

#[export] Instance stdout_grows_preorder : WorldPreorder stdout_grows.
Proof.
  split.
  - intros w. exists []. now rewrite app_nil_r.
  - intros w1 w2 w3 (l1 & H1) (l2 & H2). exists (l1 ++ l2)%list.
    now rewrite H2, H1, app_assoc.
Qed.

Lemma stdout_grows_silent (w w' : World) : stdout w' = stdout w -> stdout_grows w w'.
Proof. intros H. exists []. now rewrite app_nil_r. Qed.

Lemma stdout_grows_logged (message : string) (w : World) :
  stdout_grows w (logged message w).
Proof. eexists [_]. reflexivity. Qed.

Ltac stdout_grows_walk :=
  steady_walk ltac:(first [ apply stdout_grows_silent; reflexivity
                          | apply stdout_grows_logged ]).

Lemma stdout_grows_take_screenshot (custom_name : option string) :
  steady stdout_grows (Reporter.take_screenshot custom_name).
Proof.
  unfold Reporter.take_screenshot, Reporter.get_png_screenshot.
  stdout_grows_walk.
Qed.

(** X6. [Reporter.log] never raises, and the formatted message is the
    first thing it prints; without screenshot it does nothing but print
    the line and record it as a step. *)
Theorem log_prints_line_first (message : string) (with_screenshot : bool) (w : World) :
  exists w' rest,
    Reporter.log message with_screenshot w = (Ok tt, w') /\
    stdout w' = (stdout w ++
                 Reporter.format_message (now_log (clock w)) message :: rest)%list /\
    (with_screenshot = false -> w' = logged message w) /\
    (with_screenshot = true -> reporter_alt_driver w = None ->
     rest = [Reporter.format_message (now_log (clock w))
               "Cannot take screenshot: AltDriver not set"]).
Proof.
  destruct with_screenshot.
  - unfold Reporter.log. unfold bind at 1, get_world at 1.
    unfold bind at 1, print, modify at 1. unfold allure_step.
    unfold bind at 1, modify at 1.
    set (w1 := add_step _ (add_stdout _ w)).
    pose proof (stdout_grows_take_screenshot None w1) as (rest & Hrest).
    destruct (take_screenshot_total None w1) as (w' & Hrun).
    rewrite Hrun in *. cbn [snd] in Hrest.
    exists w', rest. split; [reflexivity|].
    split; [|split; [discriminate|]].
    + rewrite Hrest. subst w1. cbn [stdout add_step add_stdout].
      now rewrite <- app_assoc.
    + intros _ Hnone.
      assert (Hnone1 : reporter_alt_driver w1 = None) by exact Hnone.
      unfold Reporter.take_screenshot, bind, get_world in Hrun.
      rewrite Hnone1, log_plain_run in Hrun. inversion Hrun; subst w'.
      cbn [stdout add_step add_stdout] in Hrest.
      apply app_inv_head in Hrest. subst w1. now rewrite <- Hrest.
  - exists (logged message w), []. repeat split; try discriminate.
Qed.

(** X7. Without a name, or with the empty name, when the directory
    [screenshots-and-logs] is there or can be made (it is not a regular
    file), the capture is saved in it as
    [screenshot_<seconds since the epoch>.png] and attached under that
    name. *)
Theorem take_screenshot_default_name (custom_name : option string) (d : AltDriver)
    (data : string) (w : World) :
  custom_name = None \/ custom_name = Some EmptyString ->
  reporter_alt_driver w = Some d ->
  (forall content,
     fs w (OsPath.join (cwd w) "screenshots-and-logs") <> Some (File content)) ->
  let name := "screenshot_" ++ str_int (now_epoch (clock w)) in
  alt_get_png_screenshot d (screenshot_path (cwd w) name) = inr data ->
  fs w (screenshot_path (cwd w) name) <> Some Dir ->
  exists w',
    Reporter.take_screenshot custom_name w = (Ok tt, w') /\
    fs w' (screenshot_path (cwd w) name) = Some (File data) /\
    allure_attachments w' = (allure_attachments w ++
      [ {| att_body := data; att_name := name; att_type := PNG |} ])%list /\
    fs w' (OsPath.join (cwd w) "screenshots-and-logs") = Some Dir.
Proof.
  intros Hname Hd Hdirok name Hpng Hnodir.
  assert (Hn : screenshot_name custom_name w = name)
    by (destruct Hname; subst custom_name; reflexivity).
  rewrite <- Hn in *.
  apply take_screenshot_saves with (d := d); try assumption.
  rewrite Hn. unfold name. rewrite occurs_app, occurs_str_int. reflexivity.
Qed.

Lemma take_screenshot_default_name_witness :
  exists w',
    Reporter.take_screenshot (Some EmptyString) connected_world = (Ok tt, w') /\
    fs w' "/srv/project/screenshots-and-logs/screenshot_1740821400.png"
    = Some (File "PNG-bytes") /\
    allure_attachments w'
    = [ {| att_body := "PNG-bytes"; att_name := "screenshot_1740821400";
           att_type := PNG |} ] /\
    fs w' "/srv/project/screenshots-and-logs" = Some Dir.
Proof.
  refine (take_screenshot_default_name (Some EmptyString) Sample.alt0 "PNG-bytes"
            connected_world (or_intror eq_refl) eq_refl _ _ _).
  - intros content. vm_compute. discriminate.
  - vm_compute; reflexivity.
  - vm_compute; discriminate.
Defined.

(** The capture is not saved when its file cannot be opened: under a
    name that holds a slash the file would be in a directory that is not
    there, and a regular file in the place of [screenshots-and-logs] is
    not a directory.  The failure is logged and nothing is attached. *)
Example take_screenshot_slash_in_name :
  let w' := snd (Reporter.take_screenshot (Some "t[a/b]_Failed") connected_world) in
  stdout w'
  = ["[2025-03-01 09:30:00] Failed to take screenshot: [Errno 2] No such file or directory: '/srv/project/screenshots-and-logs/t[a/b]_Failed.png'"] /\
  fs w' "/srv/project/screenshots-and-logs/t[a/b]_Failed.png" = None /\
  allure_attachments w' = [].
Proof. cbv zeta. repeat split; vm_compute; reflexivity. Qed.

Example take_screenshot_directory_is_file :
  let w' := snd (Reporter.take_screenshot (Some "menu") directory_is_file_world) in
  stdout w'
  = ["[2025-03-01 09:30:00] Failed to take screenshot: [Errno 20] Not a directory: '/srv/project/screenshots-and-logs/menu.png'"] /\
  fs w' "/srv/project/screenshots-and-logs/menu.png" = None /\
  fs w' "/srv/project/screenshots-and-logs" = Some (File "notes") /\
  allure_attachments w' = [].
Proof. cbv zeta. repeat split; vm_compute; reflexivity. Qed.

(** X8. When the driver fails to capture, [take_screenshot] returns
    normally: it logs the failure with its cause, writes no file at the
    path of the capture and attaches nothing. *)
Theorem take_screenshot_capture_failure_soft (custom_name : option string)
    (d : AltDriver) (err : driver_error) (w : World) :
  reporter_alt_driver w = Some d ->
  alt_get_png_screenshot d (screenshot_path (cwd w) (screenshot_name custom_name w))
  = inl err ->
  exists w',
    Reporter.take_screenshot custom_name w = (Ok tt, w') /\
    stdout w' = (stdout w ++
      [Reporter.format_message (now_log (clock w))
         ("Failed to take screenshot: " ++ de_msg err)])%list /\
    allure_attachments w' = allure_attachments w /\
    fs w' (screenshot_path (cwd w) (screenshot_name custom_name w))
    = fs w (screenshot_path (cwd w) (screenshot_name custom_name w)).
Proof.
  intros Hd Hpng.
  assert (Hne : screenshot_path (cwd w) (screenshot_name custom_name w)
                <> OsPath.join (cwd w) "screenshots-and-logs")
    by apply screenshot_path_not_directory.
  unfold Reporter.take_screenshot, Reporter.get_png_screenshot, Reporter.log_plain.
  py_step. rewrite Hd. unfold Reporter.screenshots_dirname.
  destruct (fs w (OsPath.join (cwd w) "screenshots-and-logs")) as [[c|]|] eqn:Hdir;
    world_step; rewrite ?Hdir; world_step;
    fold (screenshot_name custom_name w);
    fold (screenshot_path (cwd w) (screenshot_name custom_name w));
    rewrite Hpng; world_step;
    cbn [exn_of_driver_error is_Exception exn_cls str_exn exn_msg]; world_step;
    eexists; (split; [reflexivity|]); world_step;
    repeat split; rewrite ?(fs_set_other _ _ Dir (fs w) Hne); reflexivity.
Qed.

Lemma take_screenshot_capture_failure_soft_witness :
  exists w',
    Reporter.take_screenshot (Some "menu")
      (set_reporter_alt_driver (Some camera_broken) Sample.world0) = (Ok tt, w') /\
    stdout w'
    = ["[2025-03-01 09:30:00] Failed to take screenshot: screenshot timed out"] /\
    allure_attachments w' = [] /\
    fs w' "/srv/project/screenshots-and-logs/menu.png" = None.
Proof.
  exact (take_screenshot_capture_failure_soft (Some "menu") camera_broken
           (mk_driver_error "AltException" "screenshot timed out")
           (set_reporter_alt_driver (Some camera_broken) Sample.world0)
           eq_refl eq_refl).
Defined.

(** X9. For a path that is a directory, [attach_file_to_allure] returns
    normally: opening it fails, the failure is logged with its cause and
    nothing is attached. *)
Theorem attach_directory_soft (file_path : string) (custom_name : option string)
    (w : World) :
  fs w file_path = Some Dir ->
  exists w',
    Reporter.attach_file_to_allure file_path custom_name w = (Ok tt, w') /\
    stdout w' = (stdout w ++
      [Reporter.format_message (now_log (clock w))
         ("Failed to attach file to Allure: [Errno 21] Is a directory: '" ++
          file_path ++ "'")])%list /\
    allure_attachments w' = allure_attachments w /\
    fs w' = fs w.
Proof.
  intros Hdir.
  unfold Reporter.attach_file_to_allure, Reporter.log_plain.
  py_step; world_step.
  repeat first [rewrite Hdir | progress world_step].
  cbn [is_Exception exn_cls str_exn exn_msg].
  eexists; split; [reflexivity|]. repeat split.
Qed.

Lemma attach_directory_soft_witness :
  exists w',
    Reporter.attach_file_to_allure "/srv/project/screenshots-and-logs" None
      (set_fs (fs_set "/srv/project/screenshots-and-logs" Dir (fs Sample.world0))
         Sample.world0)
    = (Ok tt, w') /\
    stdout w' =
      ["[2025-03-01 09:30:00] Failed to attach file to Allure: [Errno 21] Is a directory: '/srv/project/screenshots-and-logs'"] /\
    allure_attachments w' = [] /\
    fs w' = fs_set "/srv/project/screenshots-and-logs" Dir (fs Sample.world0).
Proof.
  exact (attach_directory_soft "/srv/project/screenshots-and-logs" None
           (set_fs (fs_set "/srv/project/screenshots-and-logs" Dir (fs Sample.world0))
              Sample.world0)
           eq_refl).
Defined.


(* ================================================================== *)
(** ** Which exceptions the harness raises *)

Lemma raises_only_ret {A} (a : A) : raises_only (ret a).
Proof. intros w e w' H; discriminate. Qed.

Lemma raises_only_raise {A} (e : exn) :
  is_Exception e = true -> raises_only (@raise A e).
Proof. intros He w e' w' H; inversion H; subst; exact He. Qed.

Lemma raises_only_get_world : raises_only get_world.
Proof. intros w e w' H; discriminate. Qed.

Lemma raises_only_modify (f : World -> World) : raises_only (modify f).
Proof. intros w e w' H; discriminate. Qed.

Lemma raises_only_bind {A B} (m : M A) (k : A -> M B) :
  raises_only m -> (forall a, raises_only (k a)) -> raises_only (bind m k).
Proof.
  intros Hm Hk w e w' H. unfold bind in H.
  destruct (m w) as [[a|e0] w1] eqn:Hmw.
  - exact (Hk a w1 e w' H).
  - inversion H; subst. exact (Hm w e w' Hmw).
Qed.

Lemma raises_only_yield (suspended : M unit) : raises_only (yield_ suspended).
Proof. intros w e w' H; discriminate. Qed.

Lemma raises_only_allure_step {A} (title : string) (body : M A) :
  raises_only body -> raises_only (allure_step title body).
Proof.
  intros Hb. unfold allure_step.
  apply raises_only_bind; [apply raises_only_modify | intros _; exact Hb].
Qed.

Lemma raises_only_lift_driver {A} (r : driver_error + A) : raises_only (lift_driver r).
Proof. destruct r; [now apply raises_only_raise | apply raises_only_ret]. Qed.

Lemma raises_only_lift_driver_unit (r : option driver_error) :
  raises_only (lift_driver_unit r).
Proof. destruct r; [now apply raises_only_raise | apply raises_only_ret]. Qed.

Lemma raises_only_log (message : string) : raises_only (Reporter.log message false).
Proof. intros w e w' H. rewrite log_false, log_plain_run in H. discriminate. Qed.

Lemma raises_only_os_makedirs (p : string) (exist_ok : bool) :
  raises_only (os_makedirs p exist_ok).
Proof.
  unfold os_makedirs. apply raises_only_bind; [apply raises_only_get_world|].
  intros w. destruct (fs w p) as [[c|]|].
  - now apply raises_only_raise.
  - destruct exist_ok; [apply raises_only_ret | now apply raises_only_raise].
  - apply raises_only_modify.
Qed.

Ltac raises_only_walk :=
  repeat
    match goal with
    | |- raises_only (bind _ _) => apply raises_only_bind; [|intros ?]
    | |- raises_only (ret _) => apply raises_only_ret
    | |- raises_only (raise _) => apply raises_only_raise; reflexivity
    | |- raises_only get_world => apply raises_only_get_world
    | |- raises_only (modify _) => apply raises_only_modify
    | |- raises_only (emit _) => apply raises_only_modify
    | |- raises_only (yield_ _) => apply raises_only_yield
    | |- raises_only (allure_step _ _) => apply raises_only_allure_step
    | |- raises_only (lift_driver _) => apply raises_only_lift_driver
    | |- raises_only (lift_driver_unit _) => apply raises_only_lift_driver_unit
    | |- raises_only (os_makedirs _ _) => apply raises_only_os_makedirs
    | |- raises_only (Reporter.log _ false) => apply raises_only_log
    | |- raises_only (if ?b then _ else _) => destruct b
    | |- raises_only (match ?x with _ => _ end) => destruct x
    | |- raises_only (let _ := _ in _) => cbv zeta
    end.

Lemma raises_only_start_all_drivers (cfg : TestConfiguration) (env : Env) :
  raises_only (start_all_drivers cfg env).
Proof.
  unfold start_all_drivers, start_appium_driver, appium_Remote,
    start_selenium_driver, SeleniumDriver_get, start_alttester_driver, AltDriver_new.
  raises_only_walk.
Qed.

Lemma raises_only_after_start (request : Request) (ns : list Notification)
    (c : DriverContainer) :
  raises_only (after_start request ns c).
Proof.
  unfold after_start, setup_unity_log_listener, set_request_cls_drivers.
  raises_only_walk.
Qed.

(* ================================================================== *)
(** ** Starting drivers and failing setups *)

Lemma setup_drivers_except_run (request : Request) (ex : exn) (w : World) :
  setup_drivers_except request ex w = (Raise (setup_failure ex), w).
Proof. reflexivity. Qed.

Lemma add_unity_logs_to_allure_nil (w : World) :
  unity_logs w = [] -> add_unity_logs_to_allure w = (Ok tt, w).
Proof.
  intros H. unfold add_unity_logs_to_allure, bind, get_world. now rewrite H.
Qed.

(** X10. Whatever the configuration, the client libraries and the file
    system do, the class fixture either completes or fails the class
    through [pytest.fail], with the message of the exception that stopped
    the setup: no exception of a driver or of the file system leaves it
    as it was raised. *)
Theorem setup_drivers_outcome (cfg : TestConfiguration) (env : Env)
    (request : Request) (ns : list Notification) (w : World) :
  fst (setup_drivers cfg env request ns w) = Ok tt \/
  exists cause,
    is_Exception cause = true /\
    fst (setup_drivers cfg env request ns w) = Raise (setup_failure cause).
Proof.
  rewrite setup_drivers_unfold. unfold try_finally.
  rewrite setup_drivers_try_cases.
  destruct (start_all_drivers cfg env _) as [[c|e] wa] eqn:Hstart.
  - destruct (after_start request ns c (set_local_drivers (Some c) wa))
      as [[[]|e] wb] eqn:Hafter.
    + destruct (setup_drivers_finally_run wb) as (w2 & _ & _ & Hfin).
      rewrite Hfin. now left.
    + rewrite (raises_only_after_start request ns c _ _ _ Hafter).
      rewrite setup_drivers_except_run.
      destruct (setup_drivers_finally_run wb) as (w2 & _ & _ & Hfin).
      rewrite Hfin. right. exists e. split; [|reflexivity].
      exact (raises_only_after_start request ns c _ _ _ Hafter).
  - rewrite (raises_only_start_all_drivers cfg env _ _ _ Hstart).
    rewrite setup_drivers_except_run.
    destruct (setup_drivers_finally_run wa) as (w2 & _ & _ & Hfin).
    rewrite Hfin. right. exists e. split; [|reflexivity].
    exact (raises_only_start_all_drivers cfg env _ _ _ Hstart).
Qed.

(** X11. When a driver fails to start, the class fails at once through
    [pytest.fail] with the message of that failure as its cause; no
    listener is set up, no driver is stopped, nothing is written to disk
    and nothing is attached. *)
Theorem start_failure_fails_the_class (cfg : TestConfiguration) (env : Env)
    (request : Request) (ns : list Notification) (w : World) (e : exn) (wa : World) :
  start_all_drivers cfg env (fixture_start_world w) = (Raise e, wa) ->
  let run := setup_drivers cfg env request ns w in
  fst run = Raise (setup_failure e) /\
  events (snd run) = events wa /\
  fs (snd run) = fs w /\
  allure_attachments (snd run) = allure_attachments w /\
  unity_logs (snd run) = [].
Proof.
  intros Hstart. cbv zeta.
  remember (setup_drivers cfg env request ns w) as run eqn:Hrun.
  rewrite setup_drivers_unfold in Hrun. unfold try_finally in Hrun.
  rewrite setup_drivers_try_cases in Hrun.
  change (add_step setup_step_title (set_unity_logs [] (set_local_drivers None w)))
    with (fixture_start_world w) in Hrun.
  rewrite Hstart in Hrun.
  rewrite (raises_only_start_all_drivers cfg env _ _ _ Hstart) in Hrun.
  rewrite setup_drivers_except_run in Hrun.
  pose proof (preserving_start_all_drivers cfg env (fixture_start_world w)) as Hp.
  rewrite Hstart in Hp. cbn [snd] in Hp.
  destruct Hp as [Hfs Hlogs Hatt _ _ Hloc].
  unfold setup_drivers_finally in Hrun. unfold bind at 1 in Hrun.
  rewrite add_unity_logs_to_allure_nil in Hrun by (rewrite Hlogs; reflexivity).
  unfold bind at 1, get_world at 1 in Hrun. rewrite Hloc in Hrun.
  cbn [fixture_start_world local_drivers add_step set_unity_logs set_local_drivers]
    in Hrun.
  unfold bind at 1, ret at 1 in Hrun. rewrite log_false, log_plain_run in Hrun.
  subst run. cbn [fst snd events fs allure_attachments unity_logs add_step add_stdout].
  rewrite Hfs, Hatt, Hlogs. repeat split.
Qed.

Lemma start_failure_fails_the_class_witness :
  let run := setup_drivers Sample.cfg_android Sample.env_game_down Sample.request0
               [sample_notification] Sample.world0 in
  fst run = Raise (mk_exn Failed
                     "Exception during driver setup: could not connect to AltTester") /\
  fs (snd run) = fs Sample.world0 /\
  allure_attachments (snd run) = [] /\
  unity_logs (snd run) = [].
Proof.
  destruct (start_failure_fails_the_class Sample.cfg_android Sample.env_game_down
              Sample.request0 [sample_notification] Sample.world0
              (mk_exn (DriverError "ConnectionError") "could not connect to AltTester")
              (snd (start_all_drivers Sample.cfg_android Sample.env_game_down
                      (fixture_start_world Sample.world0))))
    as (Hres & _ & Hfs & Hatt & Hlogs).
  - vm_compute; reflexivity.
  - cbv zeta. split; [exact Hres|]. split; [exact Hfs|]. split; [exact Hatt|exact Hlogs].
Defined.

(** X12. A class fixture requested without a class ([request.cls] is
    [None]) cannot succeed: once the drivers have started and the listener
    is set up, storing the container on the class raises, the class fails
    through [pytest.fail], and the teardown stops the drivers that were
    started. *)
Theorem classless_request_fails_setup (cfg : TestConfiguration) (env : Env)
    (request : Request) (ns : list Notification) (w : World)
    (c : DriverContainer) (wa : World) :
  req_cls request = None ->
  start_all_drivers cfg env (fixture_start_world w) = (Ok c, wa) ->
  (forall d, alt_driver c = Some d -> alt_add_notification_listener d = None) ->
  (forall content, fs w (log_directory_of (cwd w)) <> Some (File content)) ->
  let run := setup_drivers cfg env request ns w in
  fst run
  = Raise (setup_failure
             (mk_exn AttributeError "'NoneType' object has no attribute 'drivers'")) /\
  events (snd run)
  = (events wa ++ EvAltAddListener :: attempted (stops_planned c))%list.
Proof.
  intros Hcls Hstart Hadd Hdir. cbv zeta.
  remember (setup_drivers cfg env request ns w) as run eqn:Hrun.
  rewrite setup_drivers_unfold in Hrun. unfold try_finally in Hrun.
  rewrite setup_drivers_try_cases in Hrun.
  change (add_step setup_step_title (set_unity_logs [] (set_local_drivers None w)))
    with (fixture_start_world w) in Hrun.
  rewrite Hstart in Hrun.
  pose proof (preserving_start_all_drivers cfg env (fixture_start_world w)) as Hp.
  rewrite Hstart in Hp. cbn [snd] in Hp.
  destruct Hp as [Hfs_a Hlogs_a _ Hcwd_a _ _].
  unfold fixture_start_world in Hfs_a, Hlogs_a, Hcwd_a.
  cbn [fs unity_logs cwd add_step set_unity_logs set_local_drivers]
    in Hfs_a, Hlogs_a, Hcwd_a.
  destruct (start_all_drivers_ok _ _ _ _ _ Hstart) as (_ & d & Hd).
  set (wb0 := set_local_drivers (Some c) wa) in *.
  destruct (setup_unity_log_listener_succeeds c request d wb0 Hd (Hadd d Hd))
    as (w1 & Hsetup).
  { intros content. subst wb0. cbn [fs cwd set_local_drivers].
    rewrite Hfs_a, Hcwd_a. apply Hdir. }
  destruct (setup_unity_log_listener_run c request d wb0 w1 Hd Hsetup)
    as (_ & _ & Hlogs1 & Hloc1 & _ & _ & _ & Hev1).
  subst wb0. cbn [unity_logs local_drivers events set_local_drivers]
    in Hlogs1, Hloc1, Hev1.
  unfold after_start in Hrun. unfold bind at 1 in Hrun. rewrite Hsetup in Hrun.
  unfold bind at 1, set_request_cls_drivers in Hrun. rewrite Hcls in Hrun.
  unfold raise at 1 in Hrun. cbn [is_Exception exn_cls] in Hrun.
  rewrite setup_drivers_except_run in Hrun.
  unfold setup_drivers_finally in Hrun. unfold bind at 1 in Hrun.
  rewrite add_unity_logs_to_allure_nil in Hrun by congruence.
  unfold bind at 1, get_world at 1 in Hrun. rewrite Hloc1 in Hrun.
  unfold bind at 1 in Hrun.
  destruct (stop_all_drivers_world c w1) as (_ & _ & Hev3). cbv zeta in Hev3.
  destruct (stop_all_drivers c w1) as [[[]|e3] w3] eqn:Hstop;
    [|rewrite stop_all_drivers_run in Hstop; discriminate].
  cbn [snd] in Hev3. rewrite log_false, log_plain_run in Hrun.
  subst run. cbn [fst snd events add_step add_stdout].
  split; [reflexivity|]. rewrite Hev3, Hev1. now rewrite <- app_assoc.
Qed.

Lemma classless_request_fails_setup_witness :
  let run := setup_drivers Sample.cfg_webgl Sample.env_up Sample.request_no_class []
               Sample.world0 in
  fst run
  = Raise (mk_exn Failed
             "Exception during driver setup: 'NoneType' object has no attribute 'drivers'") /\
  events (snd run)
  = [EvChrome chrome_arguments; EvSeleniumGet "https://example.com/game";
     EvAltConnect "127.0.0.1" 13000%N "__default__";
     EvAltAddListener; EvAltStop; EvSeleniumQuit].
Proof.
  refine (classless_request_fails_setup Sample.cfg_webgl Sample.env_up
            Sample.request_no_class [] Sample.world0
            (mkDriverContainer (Some Sample.alt0) None (Some Sample.selenium0))
            (snd (start_all_drivers Sample.cfg_webgl Sample.env_up
                    (fixture_start_world Sample.world0)))
            eq_refl _ _ _).
  - vm_compute; reflexivity.
  - intros d Hd. inversion Hd. reflexivity.
  - intros content. vm_compute. discriminate.
Defined.

(** [start_appium_driver] returns a handle exactly on Android and iOS, the
    one Appium gave for the capabilities of the platform. *)
Lemma start_appium_driver_run (cfg : TestConfiguration) (env : Env) (w : World)
    (r : option AppiumDriver) (w' : World) :
  start_appium_driver cfg env w = (Ok r, w') ->
  (r <> None <-> PLATFORM cfg <> WEBGL) /\
  (forall d, r = Some d ->
     new_appium_Remote env appium_url (appium_caps cfg) = inr d).
Proof.
  unfold start_appium_driver, appium_Remote, appium_caps, Reporter.log. py_step.
  destruct (PLATFORM cfg); cbn [PlatformType_eqb].
  - destruct (new_appium_Remote env _ _) as [err|d] eqn:Hnew; [discriminate|].
    intros H; inversion H; subst; clear H.
    split; [split; discriminate|]. intros d' Hd'; inversion Hd'; subst; reflexivity.
  - destruct (new_appium_Remote env _ _) as [err|d] eqn:Hnew; [discriminate|].
    intros H; inversion H; subst; clear H.
    split; [split; discriminate|]. intros d' Hd'; inversion Hd'; subst; reflexivity.
  - intros H; inversion H; subst; clear H.
    split; [split; intros Hc; now elim Hc|]. discriminate.
Qed.

(** X13. Whenever [start_all_drivers] returns its container, the mobile
    handle in it is not [None] if and only if [RUNNING_WITH_APPIUM] is set
    and the platform is Android or iOS; and then it is the driver Appium
    gave at its local endpoint for the capabilities of that platform. *)
Theorem appium_handle_iff_enabled_mobile (cfg : TestConfiguration) (env : Env)
    (w : World) (c : DriverContainer) (w' : World) :
  start_all_drivers cfg env w = (Ok c, w') ->
  (appium_driver c <> None <->
   RUNNING_WITH_APPIUM cfg = true /\ PLATFORM cfg <> WEBGL) /\
  (forall d, appium_driver c = Some d ->
     new_appium_Remote env "http://127.0.0.1:4723/wd/hub" (appium_caps cfg) = inr d).
Proof.
  unfold start_all_drivers, Reporter.log at 1 2 3 4 5. py_step.
  destruct (RUNNING_WITH_APPIUM cfg).
  - match goal with
    | |- context [start_appium_driver cfg env ?w0] =>
        destruct (start_appium_driver cfg env w0) as [[ra|ea] w1] eqn:Happ;
        [|discriminate]
    end.
    apply start_appium_driver_run in Happ as (Hiff & Hsome).
    match goal with
    | |- context [(if RUNNING_WITH_SELENIUM cfg then ?a else ?b) ?w0] =>
        destruct ((if RUNNING_WITH_SELENIUM cfg then a else b) w0) as [[rs|es] w2];
        [|discriminate]
    end.
    destruct (start_alttester_driver cfg env w2) as [[d|e] w3]; [|discriminate].
    intros H; inversion H; subst; clear H. cbn [appium_driver].
    split; [rewrite Hiff; tauto | exact Hsome].
  - match goal with
    | |- context [(if RUNNING_WITH_SELENIUM cfg then ?a else ?b) ?w0] =>
        destruct ((if RUNNING_WITH_SELENIUM cfg then a else b) w0) as [[rs|es] w2];
        [|discriminate]
    end.
    destruct (start_alttester_driver cfg env w2) as [[d|e] w3]; [|discriminate].
    intros H; inversion H; subst; clear H. cbn [appium_driver].
    split; [split; [intros Hc; now elim Hc | intros [Hc _]; discriminate]|].
    discriminate.
Qed.

Lemma appium_handle_iff_enabled_mobile_witness :
  exists c w',
    start_all_drivers Sample.cfg_android Sample.env_up Sample.world0 = (Ok c, w') /\
    appium_driver c = Some Sample.appium0 /\
    (appium_driver c <> None <->
     RUNNING_WITH_APPIUM Sample.cfg_android = true /\
     PLATFORM Sample.cfg_android <> WEBGL).
Proof.
  eexists; eexists.
  split; [vm_compute; reflexivity|].
  split; [reflexivity|].
  refine (proj1 (appium_handle_iff_enabled_mobile Sample.cfg_android Sample.env_up
                   Sample.world0 _ _ _)).
  vm_compute; reflexivity.
Defined.

#[export] Instance same_reporter_preorder : WorldPreorder same_reporter.
Proof. split; unfold same_reporter; intros; congruence. Qed.

Ltac same_reporter_walk := steady_walk ltac:(reflexivity).

Lemma same_reporter_start_appium_driver (cfg : TestConfiguration) (env : Env) :
  steady same_reporter (start_appium_driver cfg env).
Proof. unfold start_appium_driver, appium_Remote. same_reporter_walk. Qed.

Lemma same_reporter_start_selenium_driver (cfg : TestConfiguration) (env : Env) :
  steady same_reporter (start_selenium_driver cfg env).
Proof. unfold start_selenium_driver, SeleniumDriver_get. same_reporter_walk. Qed.

Lemma start_alttester_driver_registers (cfg : TestConfiguration) (env : Env)
    (w : World) :
  match start_alttester_driver cfg env w with
  | (Ok d, w') => reporter_alt_driver w' = Some d
  | (Raise _, w') => reporter_alt_driver w' = reporter_alt_driver w
  end.
Proof.
  unfold start_alttester_driver, AltDriver_new, Reporter.log. py_step.
  destruct (new_AltDriver env _ _ _); reflexivity.
Qed.

(** X14. The driver registered with the reporter is the primary driver of
    the container: when [start_all_drivers] returns, [Reporter.alt_driver]
    is the container's [alt_driver], which is not [None]; when it raises,
    [Reporter.alt_driver] is what it was before. *)
Theorem reporter_registers_container_driver (cfg : TestConfiguration) (env : Env)
    (w : World) :
  match start_all_drivers cfg env w with
  | (Ok c, w') => reporter_alt_driver w' = alt_driver c /\ alt_driver c <> None
  | (Raise _, w') => reporter_alt_driver w' = reporter_alt_driver w
  end.
Proof.
  unfold start_all_drivers, Reporter.log at 1 2 3 4 5. py_step.
  set (w4 := add_step _ (add_stdout _ (add_step _ (add_stdout _
               (add_step _ (add_stdout _ (add_step _ (add_stdout _ w)))))))).
  assert (Hw4 : reporter_alt_driver w4 = reporter_alt_driver w) by reflexivity.
  clearbody w4.
  assert (Happ : same_reporter w4
            (snd ((if RUNNING_WITH_APPIUM cfg then start_appium_driver cfg env
                   else fun w => (Ok None, w)) w4))).
  { destruct (RUNNING_WITH_APPIUM cfg);
      [apply same_reporter_start_appium_driver | reflexivity]. }
  destruct ((if RUNNING_WITH_APPIUM cfg then start_appium_driver cfg env
             else fun w => (Ok None, w)) w4) as [[ra|ea] wa];
    cbn [snd] in Happ; unfold same_reporter in Happ; [|congruence].
  assert (Hsel : same_reporter wa
            (snd ((if RUNNING_WITH_SELENIUM cfg then start_selenium_driver cfg env
                   else fun w => (Ok None, w)) wa))).
  { destruct (RUNNING_WITH_SELENIUM cfg);
      [apply same_reporter_start_selenium_driver | reflexivity]. }
  destruct ((if RUNNING_WITH_SELENIUM cfg then start_selenium_driver cfg env
             else fun w => (Ok None, w)) wa) as [[rs|es] ws];
    cbn [snd] in Hsel; unfold same_reporter in Hsel; [|congruence].
  pose proof (start_alttester_driver_registers cfg env ws) as Halt.
  destruct (start_alttester_driver cfg env ws) as [[d|e] wt].
  - cbn [reporter_alt_driver add_step add_stdout alt_driver].
    split; [exact Halt|discriminate].
  - congruence.
Qed.

(** X15. The start is abandoned at the first failure: when Appium is
    enabled on a mobile platform and refuses the session,
    [start_all_drivers] raises that error having made no other call: no
    browser is created and no connection to the game is attempted. *)
Theorem appium_failure_stops_the_start (cfg : TestConfiguration) (env : Env)
    (w : World) (err : driver_error) :
  RUNNING_WITH_APPIUM cfg = true ->
  PLATFORM cfg <> WEBGL ->
  new_appium_Remote env "http://127.0.0.1:4723/wd/hub" (appium_caps cfg) = inl err ->
  exists w',
    start_all_drivers cfg env w = (Raise (exn_of_driver_error err), w') /\
    events w' = (events w ++
                 [EvAppiumRemote "http://127.0.0.1:4723/wd/hub" (appium_caps cfg)])%list /\
    reporter_alt_driver w' = reporter_alt_driver w.
Proof.
  intros Hon Hmobile Hnew.
  unfold start_all_drivers, start_appium_driver, appium_Remote, Reporter.log.
  rewrite Hon. unfold appium_caps, appium_url in *. py_step.
  destruct (PLATFORM cfg); [| |contradiction]; cbn [PlatformType_eqb];
    rewrite Hnew; eexists; repeat split.
Qed.

Lemma appium_failure_stops_the_start_witness :
  exists w',
    start_all_drivers Sample.cfg_android env_appium_down Sample.world0
    = (Raise (mk_exn (DriverError "WebDriverException") "connection refused"), w') /\
    events w' = [EvAppiumRemote "http://127.0.0.1:4723/wd/hub"
                   (appium_caps Sample.cfg_android)] /\
    reporter_alt_driver w' = None.
Proof.
  refine (appium_failure_stops_the_start Sample.cfg_android env_appium_down
            Sample.world0 (mk_driver_error "WebDriverException" "connection refused")
            eq_refl _ eq_refl).
  discriminate.
Defined.

Lemma dict_mem_setitem (key value : string) (d : pydict) :
  dict_mem key (dict_setitem key value d) = true.
Proof.
  induction d as [|[k v] d IH]; cbn [dict_setitem dict_mem];
    [now rewrite String.eqb_refl|].
  destruct (String.eqb k key) eqn:Hk; cbn [dict_mem]; rewrite Hk;
    [reflexivity|exact IH].
Qed.

(** What opening the log file of a listener raises, by what its directory
    and its path hold. *)
Lemma open_error_listener_path (l : LogListener) (x : ascii) (f : filesystem) :
  last_char (cb_log_directory l) = Some x -> x <> "/"%char ->
  occurs "/"%char (listener_filename l) = false ->
  open_error f (listener_path l)
  = match f (cb_log_directory l), f (listener_path l) with
    | None, _ =>
        Some (mk_exn FileNotFoundError
                ("[Errno 2] No such file or directory: '" ++ listener_path l ++ "'"))
    | Some (File _), _ =>
        Some (mk_exn NotADirectoryError
                ("[Errno 20] Not a directory: '" ++ listener_path l ++ "'"))
    | Some Dir, Some Dir =>
        Some (mk_exn IsADirectoryError
                ("[Errno 21] Is a directory: '" ++ listener_path l ++ "'"))
    | Some Dir, _ => None
    end.
Proof.
  intros Hlast Hx Hplain.
  assert (Hparent : OsPath.dirname (listener_path l) = cb_log_directory l)
    by (unfold listener_path; now apply dirname_join with (x := x)).
  unfold open_error, parent_error. cbv zeta. rewrite Hparent.
  assert (Hne : String.eqb (cb_log_directory l) EmptyString = false)
    by (apply String.eqb_neq; now apply last_char_nonempty with (c := x)).
  assert (Hrep : String.eqb (cb_log_directory l)
                   (PyStr.repeat OsPath.sep (String.length (cb_log_directory l)))
                 = false).
  { apply String.eqb_neq. intros H. rewrite H in Hlast.
    apply last_char_repeat in Hlast. contradiction. }
  rewrite Hne, Hrep. cbn [orb].
  destruct (f (cb_log_directory l)) as [[c|]|]; try reflexivity.
Qed.

(** X16. The callback never raises.  For a listener whose file is a child
    of its directory: when the directory is missing, or is a regular
    file, or when the path of the file is itself a directory, the
    notification is dropped: the failure to open the file is logged with
    its cause and nothing else changes, the files and the buffer
    included.  Otherwise the record is appended to the file, nothing is
    printed and the file is in the buffer. *)
Theorem log_callback_never_raises (l : LogListener) (n : Notification) (w : World) :
  exists w',
    log_callback l n w = (Ok tt, w') /\
    forall x,
      last_char (cb_log_directory l) = Some x -> x <> "/"%char ->
      occurs "/"%char (listener_filename l) = false ->
      let dropped reason :=
        w' = logged ("Error saving Unity log: " ++ reason ++ ": '" ++
                     listener_path l ++ "'") w in
      match fs w (cb_log_directory l), fs w (listener_path l) with
      | None, _ => dropped "[Errno 2] No such file or directory"
      | Some (File _), _ => dropped "[Errno 20] Not a directory"
      | Some Dir, Some Dir => dropped "[Errno 21] Is a directory"
      | Some Dir, _ =>
          fs w' = fs_set (listener_path l)
                    (File (file_content (fs w) (listener_path l) ++ log_record n))
                    (fs w) /\
          stdout w' = stdout w /\
          dict_mem (listener_filename l) (unity_logs w') = true
      end.
Proof.
  destruct (open_error (fs w) (listener_path l)) as [e|] eqn:Hopen.
  - rewrite (log_callback_dropped l n w e Hopen).
    eexists; split; [reflexivity|].
    intros x Hlast Hx Hplain. cbv zeta.
    rewrite (open_error_listener_path l x (fs w) Hlast Hx Hplain) in Hopen.
    destruct (fs w (cb_log_directory l)) as [[c|]|];
      [| destruct (fs w (listener_path l)) as [[c'|]|]; try discriminate |];
      inversion Hopen; subst e; reflexivity.
  - rewrite (log_callback_run l n w Hopen). cbv zeta.
    eexists; split; [reflexivity|].
    intros x Hlast Hx Hplain.
    rewrite (open_error_listener_path l x (fs w) Hlast Hx Hplain) in Hopen.
    destruct (fs w (cb_log_directory l)) as [[c|]|]; try discriminate.
    destruct (fs w (listener_path l)) as [[c'|]|]; try discriminate;
      destruct (dict_mem (listener_filename l) (unity_logs w)) eqn:Hmem;
      world_step; repeat split; auto using dict_mem_setitem.
Qed.

Lemma log_callback_never_raises_witness :
  log_callback (listener_of Sample.request0 Sample.world0) sample_notification
    Sample.world0
  = (Ok tt,
     logged
       "Error saving Unity log: [Errno 2] No such file or directory: '/srv/project/screenshots-and-logs/TestMainMenu-UnityLogs-20250301_093000.txt'"
       Sample.world0).
Proof.
  destruct (log_callback_never_raises (listener_of Sample.request0 Sample.world0)
              sample_notification Sample.world0) as (w' & Hrun & Hcase).
  specialize (Hcase "s"%char eq_refl ltac:(discriminate) eq_refl).
  cbv zeta in Hcase. cbn [fs Sample.world0] in Hcase.
  rewrite Hrun, Hcase. reflexivity.
Defined.

(** The flush of one entry whose path does not hold a file. *)
Lemma attach_file_to_allure_not_file (file_path : string)
    (custom_name : option string) (w : World) :
  (forall content, fs w file_path <> Some (File content)) ->
  exists w',
    Reporter.attach_file_to_allure file_path custom_name w = (Ok tt, w') /\
    allure_attachments w' = allure_attachments w /\
    fs w' = fs w /\ unity_logs w' = unity_logs w.
Proof.
  intros Hnot.
  unfold Reporter.attach_file_to_allure, Reporter.log_plain. py_step; world_step.
  destruct (fs w file_path) as [[c|]|] eqn:Hfile; world_step;
    rewrite ?Hfile; world_step.
  - now elim (Hnot c).
  - eexists; split; [reflexivity|]. repeat split.
  - eexists; split; [reflexivity|]. repeat split.
Qed.

Lemma add_unity_logs_loop_attaches (logs_copy : pydict) :
  forall w,
    unity_logs w = logs_copy ->
    exists w',
      add_unity_logs_loop logs_copy w = (Ok tt, w') /\
      unity_logs w' = [] /\
      fs w' = fs w /\
      allure_attachments w'
      = (allure_attachments w ++ flush_attachments (fs w) logs_copy)%list.
Proof.
  induction logs_copy as [|[filename filepath] rest IH]; intros w Hw.
  - exists w. cbn [add_unity_logs_loop ret flush_attachments flat_map].
    rewrite app_nil_r. auto.
  - rewrite add_unity_logs_loop_cons. cbv zeta.
    assert (Hstep : exists w1,
               Reporter.attach_file_to_allure filepath (Some filename) w = (Ok tt, w1) /\
               fs w1 = fs w /\ unity_logs w1 = unity_logs w /\
               allure_attachments w1
               = (allure_attachments w
                  ++ flush_attachments (fs w) [(filename, filepath)])%list).
    { cbn [flush_attachments flat_map fst snd]. rewrite app_nil_r.
      destruct (fs w filepath) as [[c|]|] eqn:Hfile.
      - destruct (attach_file_to_allure_run filepath (Some filename) c w Hfile)
          as (w1 & Hrun & Hatt & Hfs & Hlogs & _).
        exists w1. auto.
      - destruct (attach_file_to_allure_not_file filepath (Some filename) w)
          as (w1 & Hrun & Hatt & Hfs & Hlogs); [rewrite Hfile; discriminate|].
        exists w1. rewrite app_nil_r. auto.
      - destruct (attach_file_to_allure_not_file filepath (Some filename) w)
          as (w1 & Hrun & Hatt & Hfs & Hlogs); [rewrite Hfile; discriminate|].
        exists w1. rewrite app_nil_r. auto. }
    destruct Hstep as (w1 & Hrun & Hfs1 & Hlogs1 & Hatt1).
    rewrite Hrun. cbn [snd].
    destruct (IH (set_unity_logs (dict_pop filename (unity_logs w1)) w1))
      as (w' & Hloop & Hempty & Hfs' & Hatt').
    { cbn [unity_logs set_unity_logs]. rewrite Hlogs1, Hw.
      cbn [dict_pop]. now rewrite String.eqb_refl. }
    exists w'. split; [exact Hloop|]. split; [exact Hempty|].
    cbn [fs allure_attachments set_unity_logs] in Hfs', Hatt'.
    split; [congruence|].
    rewrite Hatt', Hatt1, Hfs1, <- app_assoc.
    unfold flush_attachments. cbn [flat_map]. now rewrite app_nil_r.
Qed.

(** X17. The flush never raises and never touches a file.  It attaches
    one file for each entry of the buffer whose path holds a file, in the
    order of the buffer and under the name of the entry, skips the entries
    whose file is missing, and leaves the buffer empty. *)
Theorem add_unity_logs_to_allure_attaches_buffer (w : World) :
  exists w',
    add_unity_logs_to_allure w = (Ok tt, w') /\
    unity_logs w' = [] /\
    fs w' = fs w /\
    allure_attachments w'
    = (allure_attachments w ++ flush_attachments (fs w) (unity_logs w))%list.
Proof.
  unfold add_unity_logs_to_allure, bind, get_world.
  exact (add_unity_logs_loop_attaches (unity_logs w) w eq_refl).
Qed.

(** X18. The per-test fixture follows the report of the call that the
    hook stored.  When the set-up that follows the fixture did not pass,
    the call was not run and there is no such report: the fixture raises
    [AttributeError] and takes no screenshot.  After a call that was
    reported as passed or skipped it does nothing: the world is as the
    test left it.  After a call that was reported as failed it does what
    [take_screenshot] does for the name [<test>_Failed], which returns
    normally with or without a registered driver.  For a test that no
    mark skips or expects to fail, the call failed when it raised anything
    but a skip. *)
Theorem auto_screenshot_on_failure_follows_report (verdict : Verdict)
    (node_name : string) (later_setup test_body : M unit) (w : World) :
  let run := auto_screenshot_on_failure verdict node_name later_setup test_body w in
  let setup_result := fst (later_setup w) in
  let w1 := snd (later_setup w) in
  let call_result := fst (test_body w1) in
  let w2 := snd (test_body w1) in
  match verdict Setup setup_result with
  | outcome_passed =>
      match verdict Call call_result with
      | outcome_failed =>
          run = Reporter.take_screenshot (Some (node_name ++ "_Failed")) w2 /\
          exists w', run = (Ok tt, w')
      | _ => run = (Ok tt, w2)
      end
  | _ =>
      run = (Raise (mk_exn AttributeError
                      "'Function' object has no attribute 'rep_call'"), w1)
  end /\
  (forall e, plain_verdict Call (Raise e) = outcome_failed <->
             exn_cls e <> Skipped) /\
  (forall p, plain_verdict p (Ok tt) = outcome_passed).
Proof.
  cbv zeta. rewrite auto_screenshot_on_failure_cases.
  split; [|split].
  - destruct (later_setup w) as [setup_result w1]. cbn [fst snd].
    destruct (verdict Setup setup_result); try reflexivity.
    destruct (test_body w1) as [call_result w2]. cbn [fst snd].
    destruct (verdict Call call_result); try reflexivity.
    split; [reflexivity|]. apply take_screenshot_total.
  - intros e. unfold plain_verdict.
    destruct (exn_cls e); split; intros H; try reflexivity; try discriminate;
      try (intros H'; discriminate); now elim H.
  - reflexivity.
Qed.

(** A set-up that raises after the fixture was set up, and a test that
    skips itself. *)
Lemma auto_screenshot_on_failure_follows_report_witness :
  auto_screenshot_on_failure plain_verdict "test_can_start_new_game"
    (raise (mk_exn PlainException "no device")) test_waits_for_play_button
    connected_world
  = (Raise (mk_exn AttributeError "'Function' object has no attribute 'rep_call'"),
     connected_world) /\
  auto_screenshot_on_failure plain_verdict "test_can_start_new_game"
    BaseTest.setup_method (raise (mk_exn Skipped "no game on this platform"))
    connected_world
  = (Ok tt, connected_world).
Proof.
  split.
  - exact (proj1 (auto_screenshot_on_failure_follows_report plain_verdict
                    "test_can_start_new_game"
                    (raise (mk_exn PlainException "no device"))
                    test_waits_for_play_button connected_world)).
  - exact (proj1 (auto_screenshot_on_failure_follows_report plain_verdict
                    "test_can_start_new_game" BaseTest.setup_method
                    (raise (mk_exn Skipped "no game on this platform"))
                    connected_world)).
Defined.


(* ================================================================== *)
(** ** Names derived from paths *)

(** [basename] and [splitext] undo the joining of a directory, a stem and
    an extension. *)
Lemma basename_of_joined (dir rest : string) :
  occurs "/"%char rest = false ->
  OsPath.basename (dir ++ String "/"%char rest) = rest.
Proof.
  intros Hrest. unfold OsPath.basename, OsPath.sep.
  rewrite (rfind_app_char "/"%char dir rest Hrest).
  replace (Z.to_nat (Z.of_nat (String.length dir) + 1)) with (S (String.length dir))
    by lia.
  apply drop_S_length_app.
Qed.

Lemma splitext_of_joined (prefix stem ext : string) (x : ascii) (stem' : string) :
  stem = String x stem' ->
  occurs "."%char stem = false ->
  occurs "."%char ext = false ->
  (PyStr.rfind "/"%char (prefix ++ stem ++ String "."%char ext)
   = Z.of_nat (String.length prefix) - 1)%Z ->
  OsPath.splitext (prefix ++ stem ++ String "."%char ext)
  = (prefix ++ stem, String "."%char ext).
Proof.
  intros Hstem Hdot_stem Hdot_ext Hsep.
  unfold OsPath.splitext, OsPath.sep, OsPath.extsep. rewrite Hsep.
  assert (Hdot : PyStr.rfind "."%char (prefix ++ stem ++ String "."%char ext)
                 = Z.of_nat (String.length (prefix ++ stem))).
  { rewrite <- string_app_assoc. now apply rfind_app_char. }
  rewrite Hdot. cbv zeta. rewrite string_length_app.
  replace (Z.of_nat (String.length prefix) - 1 <?
           Z.of_nat (String.length prefix + String.length stem))%Z with true
    by (symmetry; apply Z.ltb_lt; lia).
  replace (Z.to_nat (Z.of_nat (String.length prefix) - 1 + 1))
    with (String.length prefix) by lia.
  rewrite Nat2Z.id.
  replace (String.length prefix + String.length stem - String.length prefix)
    with (String.length stem) by lia.
  assert (Hnon : OsPath.has_non_dot (prefix ++ stem ++ String "."%char ext)
                   (String.length prefix) (String.length stem) = true).
  { subst stem. cbn [String.length OsPath.has_non_dot append].
    rewrite get_length_app.
    cbn [occurs] in Hdot_stem. apply orb_false_iff in Hdot_stem as [Hx _].
    unfold OsPath.extsep. now rewrite Hx. }
  rewrite Hnon. rewrite <- string_length_app, <- string_app_assoc.
  now rewrite take_length_app, drop_length_app.
Qed.

(** X19. For a file [dir/stem.ext], where [stem] is not empty and neither
    [stem] nor [ext] holds a slash or a dot, [attach_file_to_allure] with
    no name attaches the bytes under [stem], with the content type of
    [.ext] in lower case. *)
Theorem attach_derives_name_from_stem (dir stem ext data : string) (w : World) :
  stem <> EmptyString ->
  occurs "/"%char stem = false -> occurs "."%char stem = false ->
  occurs "/"%char ext = false -> occurs "."%char ext = false ->
  let file_path := dir ++ String "/"%char (stem ++ String "."%char ext) in
  fs w file_path = Some (File data) ->
  exists w',
    Reporter.attach_file_to_allure file_path None w = (Ok tt, w') /\
    allure_attachments w' = (allure_attachments w ++
      [ {| att_body := data; att_name := stem;
           att_type := spec_content_type (PyStr.lower (String "."%char ext)) |} ])%list.
Proof.
  intros Hne Hs_sep Hs_dot He_sep He_dot file_path Hfile.
  destruct stem as [|x stem']; [contradiction|].
  assert (Hrest : occurs "/"%char (String x stem' ++ String "."%char ext) = false).
  { rewrite occurs_app, Hs_sep. cbn [occurs orb]. now rewrite He_sep. }
  destruct (attach_file_to_allure_run file_path None data w Hfile)
    as (w' & Hrun & Hatt & _).
  exists w'. split; [exact Hrun|]. rewrite Hatt. cbn [or_str].
  subst file_path. rewrite (basename_of_joined dir _ Hrest).
  assert (Hbase : OsPath.splitext (String x stem' ++ String "."%char ext)
                  = (String x stem', String "."%char ext)).
  { apply (splitext_of_joined EmptyString (String x stem') ext x stem' eq_refl
             Hs_dot He_dot).
    change (EmptyString ++ String x stem' ++ String "."%char ext)
      with (String x stem' ++ String "."%char ext).
    unfold PyStr.rfind. now rewrite (rfind_opt_absent _ _ Hrest). }
  rewrite Hbase.
  assert (Hpath : dir ++ String "/"%char (String x stem' ++ String "."%char ext)
                  = (dir ++ "/") ++ String x stem' ++ String "."%char ext)
    by (now rewrite string_app_assoc).
  rewrite Hpath.
  rewrite (splitext_of_joined (dir ++ "/") (String x stem') ext x stem' eq_refl
             Hs_dot He_dot).
  2: { rewrite <- Hpath. rewrite (rfind_app_char "/"%char dir _ Hrest).
       rewrite string_length_app. cbn [String.length]. lia. }
  cbn [fst snd append]. now rewrite content_type_map_spec.
Qed.

Lemma attach_derives_name_from_stem_witness :
  exists w',
    Reporter.attach_file_to_allure "/srv/project/run.JSON" None
      (set_fs (fs_set "/srv/project/run.JSON" (File "{}") (fs Sample.world0))
         Sample.world0)
    = (Ok tt, w') /\
    allure_attachments w'
    = [ {| att_body := "{}"; att_name := "run"; att_type := JSON |} ].
Proof.
  refine (attach_derives_name_from_stem "/srv/project" "run" "JSON" "{}"
            (set_fs (fs_set "/srv/project/run.JSON" (File "{}") (fs Sample.world0))
               Sample.world0)
            _ eq_refl eq_refl eq_refl eq_refl eq_refl).
  discriminate.
Defined.

(* ================================================================== *)
(** ** Reading the configuration *)

(** X20. [get_environment_variable_or_default] gives the value of a
    variable that is set and not empty, and the default otherwise: unlike
    [os.getenv] with the same default, it treats a variable set to the
    empty string as unset, and it never answers the empty string for a
    default that is not empty. *)
Theorem get_environment_variable_or_default_nonempty (vars : environ)
    (variable_name default_value : string) :
  (forall value, vars variable_name = Some value -> value <> EmptyString ->
     get_environment_variable_or_default vars variable_name default_value = value) /\
  (vars variable_name = None \/ vars variable_name = Some EmptyString ->
   get_environment_variable_or_default vars variable_name default_value
   = default_value) /\
  (default_value <> EmptyString ->
   get_environment_variable_or_default vars variable_name default_value
   <> EmptyString) /\
  (get_environment_variable_or_default vars variable_name default_value
   <> os_getenv vars variable_name default_value <->
   vars variable_name = Some EmptyString /\ default_value <> EmptyString).
Proof.
  unfold get_environment_variable_or_default, os_getenv.
  destruct (vars variable_name) as [[|a v]|]; cbv zeta;
    repeat split; intros;
    repeat match goal with
           | H : _ /\ _ |- _ => destruct H
           | H : _ \/ _ |- _ => destruct H
           | H : Some _ = Some _ |- _ => inversion H; clear H; subst
           end;
    try congruence; try discriminate; try contradiction; auto.
Qed.

(** X21. [PlatformType(value)] and [.value] are inverse to each other: a
    string names a platform exactly when it is the value of that member,
    letter case included; with [TEST_PLATFORM] unset the platform is
    Android. *)
Theorem PlatformType_of_value_round_trip (value : string) (p : PlatformType) :
  (PlatformType_of_value value = Some p <-> value = PlatformType_value p) /\
  PlatformType_of_value (PlatformType_value p) = Some p /\
  (forall vars : environ, vars "TEST_PLATFORM" = None ->
     read_PLATFORM vars = Some ANDROID) /\
  PlatformType_of_value "android" = None.
Proof.
  split; [|split; [destruct p; reflexivity|split; [|reflexivity]]].
  - unfold PlatformType_of_value. split.
    + destruct (String.eqb_spec value "Android");
        [intros H; inversion H; subst; reflexivity|].
      destruct (String.eqb_spec value "iOS");
        [intros H; inversion H; subst; reflexivity|].
      destruct (String.eqb_spec value "WebGL");
        [intros H; inversion H; subst; reflexivity|].
      discriminate.
    + intros ->. destruct p; reflexivity.
  - intros vars H. unfold read_PLATFORM, os_getenv. now rewrite H.
Qed.

Lemma lower_ascii_letter (c lo up : ascii) :
  (lo, up) = ("t"%char, "T"%char) \/ (lo, up) = ("r"%char, "R"%char) \/
  (lo, up) = ("u"%char, "U"%char) \/ (lo, up) = ("e"%char, "E"%char) ->
  (PyStr.lower_ascii c = lo <-> c = lo \/ c = up).
Proof.
  intros [H|[H|[H|H]]]; inversion H; subst; clear H;
    destruct c as [[] [] [] [] [] [] [] []]; vm_compute;
    (split; [intros H; first [discriminate H | now left | now right]
            | intros [H|H]; first [discriminate H | reflexivity]]).
Qed.

Lemma lower_is_true (value : string) :
  PyStr.lower value = "true" <-> spelled_true value.
Proof.
  pose proof (fun c => lower_ascii_letter c "t" "T" (or_introl eq_refl)) as Lt.
  pose proof (fun c => lower_ascii_letter c "r" "R" (or_intror (or_introl eq_refl)))
    as Lr.
  pose proof (fun c => lower_ascii_letter c "u" "U"
                         (or_intror (or_intror (or_introl eq_refl)))) as Lu.
  pose proof (fun c => lower_ascii_letter c "e" "E"
                         (or_intror (or_intror (or_intror eq_refl)))) as Le.
  unfold spelled_true. split.
  - destruct value as [|c1 [|c2 [|c3 [|c4 [|c5 rest]]]]]; cbn [PyStr.lower];
      try discriminate.
    intros H.
    assert (H1 : PyStr.lower_ascii c1 = "t"%char) by congruence.
    assert (H2 : PyStr.lower_ascii c2 = "r"%char) by congruence.
    assert (H3 : PyStr.lower_ascii c3 = "u"%char) by congruence.
    assert (H4 : PyStr.lower_ascii c4 = "e"%char) by congruence.
    exists c1, c2, c3, c4. split; [reflexivity|].
    apply Lt in H1. apply Lr in H2. apply Lu in H3. apply Le in H4. auto.
  - intros (c1 & c2 & c3 & c4 & -> & H1 & H2 & H3 & H4). cbn [PyStr.lower].
    apply Lt in H1. apply Lr in H2. apply Lu in H3. apply Le in H4.
    now rewrite H1, H2, H3, H4.
Qed.

(** X22. A feature flag is on exactly when its variable is set to the
    word [true] in any mix of upper and lower case; unset, empty, or set to
    anything else ([1], [yes], [true] with spaces around it), it is off. *)
Theorem running_flags_spelled_true (vars : environ) :
  (read_RUNNING_WITH_APPIUM vars = true <->
   exists value, vars "RUN_TESTS_WITH_APPIUM" = Some value /\ spelled_true value) /\
  (read_RUNNING_WITH_SELENIUM vars = true <->
   exists value, vars "RUN_TESTS_WITH_SELENIUM" = Some value /\ spelled_true value).
Proof.
  unfold read_RUNNING_WITH_APPIUM, read_RUNNING_WITH_SELENIUM, os_getenv.
  split.
  - destruct (vars "RUN_TESTS_WITH_APPIUM") as [v|].
    + rewrite String.eqb_eq, lower_is_true. split.
      * intros H; now exists v.
      * intros (v' & Hv & H); now inversion Hv; subst.
    + split; [discriminate | intros (v' & Hv & _); discriminate].
  - destruct (vars "RUN_TESTS_WITH_SELENIUM") as [v|].
    + rewrite String.eqb_eq, lower_is_true. split.
      * intros H; now exists v.
      * intros (v' & Hv & H); now inversion Hv; subst.
    + split; [discriminate | intros (v' & Hv & _); discriminate].
Qed.

Example flag_mixed_case :
  read_RUNNING_WITH_APPIUM
    (fun name => if String.eqb name "RUN_TESTS_WITH_APPIUM" then Some "TrUe" else None)
  = true.
Proof. reflexivity. Qed.

Example flag_one_is_off :
  read_RUNNING_WITH_SELENIUM
    (fun name => if String.eqb name "RUN_TESTS_WITH_SELENIUM" then Some "1" else None)
  = false.
Proof. reflexivity. Qed.

(* ================================================================== *)
(** ** The tests of the main menu *)

#[export] Instance same_class_preorder : WorldPreorder same_class.
Proof. split; unfold same_class; intros; congruence. Qed.

Lemma same_class_log (message : string) (with_screenshot : bool) :
  steady same_class (Reporter.log message with_screenshot).
Proof.
  unfold Reporter.log, print, Reporter.take_screenshot, Reporter.get_png_screenshot.
  steady_walk ltac:(reflexivity).
Qed.

(** X23. [test_main_menu_loads_successfully] passes exactly when the game
    names a current scene: with the container on the class and a primary
    driver in it, it returns when the scene name is not empty, fails its
    assertion when the name is empty, and raises the error of the driver
    when the scene cannot be read. *)
Theorem test_main_menu_loads_follows_scene (lib : AltLibrary) (w : World)
    (c : DriverContainer) (d : AltDriver) :
  cls_drivers w = Some c ->
  alt_driver c = Some d ->
  exists w',
    TestMainMenu.test_main_menu_loads_successfully lib w
    = (match lib_get_current_scene lib d with
       | inr (String _ _) => Ok tt
       | inr EmptyString =>
           Raise (mk_exn AssertionError
                    "Game did not launch successfully, expected to have a scene loaded.")
       | inl err => Raise (exn_of_driver_error err)
       end, w').
Proof.
  intros Hc Hd.
  unfold TestMainMenu.test_main_menu_loads_successfully,
    TestMainMenu.current_scene_of_class.
  unfold bind at 1.
  pose proof (same_class_log "Testing main menu loads successfully" true w) as Hsame.
  destruct (log_total "Testing main menu loads successfully" true w) as (w1 & Hlog).
  rewrite Hlog in *. cbn [snd] in Hsame. unfold same_class in Hsame.
  unfold bind at 1. unfold bind at 1, get_world at 1. rewrite Hsame, Hc, Hd.
  destruct (lib_get_current_scene lib d) as [err|[|a scene]];
    eexists; reflexivity.
Qed.

Lemma test_main_menu_loads_follows_scene_witness :
  exists w',
    TestMainMenu.test_main_menu_loads_successfully lib_menu_scene
      (set_cls_drivers (Some (mkDriverContainer (Some Sample.alt0) None None))
         connected_world)
    = (Ok tt, w').
Proof.
  exact (test_main_menu_loads_follows_scene lib_menu_scene
           (set_cls_drivers (Some (mkDriverContainer (Some Sample.alt0) None None))
              connected_world)
           (mkDriverContainer (Some Sample.alt0) None None) Sample.alt0
           eq_refl eq_refl).
Defined.

(** X24. [test_can_start_new_game] fails on every game before it calls
    one: the test object has no [main_menu_view], so its first line raises
    [AttributeError] and the world is untouched; under the per-test
    fixture, no mark of the test changing the verdict and [setup_method]
    being that of [BaseTest], the only effect is the screenshot of the
    failure. *)
Theorem test_can_start_new_game_always_fails (lib : AltLibrary) (w : World) :
  TestMainMenu.test_can_start_new_game lib w
  = (Raise (mk_exn AttributeError
              "'TestMainMenu' object has no attribute 'main_menu_view'"), w) /\
  auto_screenshot_on_failure plain_verdict "test_can_start_new_game"
    BaseTest.setup_method (TestMainMenu.test_can_start_new_game lib) w
  = Reporter.take_screenshot (Some "test_can_start_new_game_Failed") w.
Proof. split; reflexivity. Qed.

(* ================================================================== *)
(** ** The calls of a start that succeeds *)

Lemma start_appium_driver_trace (cfg : TestConfiguration) (env : Env) (w : World)
    (r : option AppiumDriver) (w' : World) :
  start_appium_driver cfg env w = (Ok r, w') ->
  events w' = (events w ++
               match r with
               | Some _ => [EvAppiumRemote appium_url (appium_caps cfg)]
               | None => []
               end)%list.
Proof.
  unfold start_appium_driver, appium_Remote, appium_caps, Reporter.log. py_step.
  destruct (PLATFORM cfg); cbn [PlatformType_eqb].
  1,2: destruct (new_appium_Remote env _ _) as [err|d]; [discriminate|];
       intros H; inversion H; subst; reflexivity.
  intros H; inversion H; subst. cbn [events add_step add_stdout].
  now rewrite app_nil_r.
Qed.

(** X25. A start that succeeds makes its calls in one order: the Appium
    session if the container has a mobile driver, then Chrome and its
    navigation if it has a browser driver, then the connection to the
    game; it makes no other call. *)
Theorem start_all_drivers_trace (cfg : TestConfiguration) (env : Env)
    (w : World) (c : DriverContainer) (w' : World) :
  start_all_drivers cfg env w = (Ok c, w') ->
  events w'
  = (events w ++
     match appium_driver c with
     | Some _ => [EvAppiumRemote "http://127.0.0.1:4723/wd/hub" (appium_caps cfg)]
     | None => []
     end ++
     match selenium_driver c with
     | Some _ => [EvChrome chrome_arguments; EvSeleniumGet (WEBGL_URL cfg)]
     | None => []
     end ++
     [EvAltConnect (ALT_TESTER_SERVER_URL cfg) (ALT_TESTER_SERVER_PORT cfg)
        (ALT_TESTER_APP_NAME cfg)])%list.
Proof.
  unfold start_all_drivers, Reporter.log at 1 2 3 4 5. py_step.
  set (w4 := add_step _ (add_stdout _ (add_step _ (add_stdout _
               (add_step _ (add_stdout _ (add_step _ (add_stdout _ w)))))))).
  assert (Hw4 : events w4 = events w) by reflexivity.
  clearbody w4.
  assert (Happ : forall ra wa,
             (if RUNNING_WITH_APPIUM cfg then start_appium_driver cfg env
              else fun w => (Ok None, w)) w4 = (Ok ra, wa) ->
             events wa = (events w ++
                          match ra with
                          | Some _ => [EvAppiumRemote appium_url (appium_caps cfg)]
                          | None => []
                          end)%list).
  { intros ra wa. destruct (RUNNING_WITH_APPIUM cfg).
    - intros H. apply start_appium_driver_trace in H. now rewrite H, Hw4.
    - intros H; inversion H; subst. now rewrite app_nil_r. }
  destruct ((if RUNNING_WITH_APPIUM cfg then start_appium_driver cfg env
             else fun w => (Ok None, w)) w4) as [[ra|ea] wa]; [|discriminate].
  specialize (Happ ra wa eq_refl).
  assert (Hsel : forall rs ws,
             (if RUNNING_WITH_SELENIUM cfg then start_selenium_driver cfg env
              else fun w => (Ok None, w)) wa = (Ok rs, ws) ->
             events ws = (events wa ++
                          match rs with
                          | Some _ => [EvChrome chrome_arguments;
                                       EvSeleniumGet (WEBGL_URL cfg)]
                          | None => []
                          end)%list).
  { intros rs ws. destruct (RUNNING_WITH_SELENIUM cfg).
    - intros H. apply start_selenium_driver_run in H as (_ & Hsome & Hnone).
      destruct rs as [d|].
      + exact (proj1 (Hsome d eq_refl)).
      + rewrite (Hnone eq_refl). now rewrite app_nil_r.
    - intros H; inversion H; subst. now rewrite app_nil_r. }
  destruct ((if RUNNING_WITH_SELENIUM cfg then start_selenium_driver cfg env
             else fun w => (Ok None, w)) wa) as [[rs|es] ws]; [|discriminate].
  specialize (Hsel rs ws eq_refl).
  pose proof (start_alttester_driver_events cfg env ws) as Halt.
  destruct (start_alttester_driver cfg env ws) as [[d|e] wt]; [|discriminate].
  cbn [snd] in Halt.
  intros H; inversion H; subst; clear H.
  cbn [appium_driver selenium_driver events add_step add_stdout].
  rewrite Halt, Hsel, Happ. now rewrite <- !app_assoc.
Qed.

Lemma start_all_drivers_trace_witness :
  exists c w',
    start_all_drivers Sample.cfg_android Sample.env_up Sample.world0 = (Ok c, w') /\
    events w'
    = [EvAppiumRemote "http://127.0.0.1:4723/wd/hub" (appium_caps Sample.cfg_android);
       EvAltConnect "127.0.0.1" 13000%N "__default__"].
Proof.
  eexists; eexists.
  split; [vm_compute; reflexivity|].
  refine (start_all_drivers_trace Sample.cfg_android Sample.env_up Sample.world0
            (mkDriverContainer (Some Sample.alt0) (Some Sample.appium0) None) _ _).
  vm_compute; reflexivity.
Defined.
